(** * Rate forecasting and competitive insight engine

    A shallow embedding of [hotelrateintel-backend/services/ml_forecasting.py]
    and the properties its specification states about it.

    Conventions of the embedding.
    - A Python [float] is an exact rational ([Q]); [NaN] is a separate cell.
    - A [datetime] is an integer number of seconds ([Z]).
    - A pandas [DataFrame] is an ordered list of named columns plus the
      length of its index; index labels are not modelled (every column
      assignment of the program assigns a series computed from the frame
      itself, so alignment is positional).
    - An exception is a class name with a message; a computation that may
      raise returns [result A = exn + A].
    - A method that mutates [self] is a function from the object to the
      object at exit paired with the outcome, so that mutations done before
      an exception are kept, as in Python.
    - numpy, the calendar accessors of pandas, scikit-learn, Prophet are not
      part of the repository: they are the fields of a record [Libs] over
      which every definition and theorem is parametric.  [RefLibs], near
      the end of the definitions, is one executable instance used to run the
      program on concrete inputs.
    - Logging calls are omitted. *)

From Stdlib Require Import ZArith QArith Qabs Qround Lqa String List Sorted Lia Bool.
From stdpp Require Import base option list gmap strings pretty.
Import ListNotations.
Local Open Scope string_scope.

(** ** Exceptions and results *)

Record exn := Raise { exn_class : string; exn_msg : string }.

Definition result (A : Type) : Type := (exn + A)%type.

Definition ret {A} (a : A) : result A := inr a.
Definition raise {A} (cls msg : string) : result A := inl (Raise cls msg).

Definition bind {A B} (m : result A) (k : A -> result B) : result B :=
  match m with
  | inl e => inl e
  | inr a => k a
  end.

Notation "x <- m ;; k" := (bind m (fun x => k))
  (at level 100, m at next level, right associativity).

Definition raises {A} (cls : string) (r : result A) : Prop :=
  exists msg, r = raise cls msg.

Definition returns {A} (r : result A) : Prop := exists a, r = ret a.

(** A method body: the object at exit and the outcome. *)
Definition method (S A : Type) : Type := S -> S * result A.

Definition oret {S A} (a : A) : method S A := fun s => (s, inr a).
Definition oraise {S A} (cls msg : string) : method S A :=
  fun s => (s, inl (Raise cls msg)).
Definition obind {S A B} (m : method S A) (k : A -> method S B) : method S B :=
  fun s => match m s with
           | (s', inl e) => (s', inl e)
           | (s', inr a) => k a s'
           end.
Definition lift {S A} (r : result A) : method S A := fun s => (s, r).
Definition this {S} : method S S := fun s => (s, inr s).
Definition assign {S} (f : S -> S) : method S unit := fun s => (f s, inr tt).

Notation "x <~ m ;; k" := (obind m (fun x => k))
  (at level 100, m at next level, right associativity).
Notation "m ;;; k" := (obind m (fun _ => k))
  (at level 100, right associativity).

(** [try: body except Exception: handler] *)
Definition try_except {S A} (body : method S A) (handler : exn -> method S A)
  : method S A :=
  fun s => match body s with
           | (s', inl e) => handler e s'
           | (s', inr a) => (s', inr a)
           end.

(** ** Rational helpers *)

Definition Qltb (a b : Q) : bool := negb (Qle_bool b a).
Definition Qsum (l : list Q) : Q := fold_right Qplus 0%Q l.
Definition Qlen {A} (l : list A) : Q := inject_Z (Z.of_nat (length l)).
Definition Qmean (l : list Q) : Q := (Qsum l / Qlen l)%Q.
Definition Qminl (x : Q) (l : list Q) : Q :=
  fold_left (fun m y => if Qltb y m then y else m) l x.
Definition Qmaxl (x : Q) (l : list Q) : Q :=
  fold_left (fun m y => if Qltb m y then y else m) l x.

(** ** pandas: cells, series, frames *)

Inductive dtype :=
  int64 | int32 | uint32 | float64 | bool_ | datetime64 | object_.

Definition dtype_eqb (a b : dtype) : bool :=
  match a, b with
  | int64, int64 | int32, int32 | uint32, uint32 | float64, float64
  | bool_, bool_ | datetime64, datetime64 | object_, object_ => true
  | _, _ => false
  end.

(** [NaN] also stands for [NaT] and [None]; [Inf] is a float infinity, which
    only a division by zero produces here. *)
Inductive cell :=
| NaN
| Num (q : Q)
| Inf (positive : bool)
| Stamp (t : Z)
| Str (s : string)
| Flag (b : bool).

Definition is_nan (c : cell) : bool :=
  match c with NaN => true | _ => false end.

Definition cell_num (c : cell) : option Q :=
  match c with
  | Num q => Some q
  | Flag b => Some (if b then 1%Q else 0%Q)
  | _ => None
  end.

Definition of_num (o : option Q) : cell :=
  match o with Some q => Num q | None => NaN end.

Record Series := { s_dtype : dtype; s_values : list cell }.

Record DataFrame := { df_len : nat; df_columns : list (string * Series) }.

Definition empty_frame : DataFrame := {| df_len := 0; df_columns := [] |}.

(** [df.empty]: no rows or no columns. *)
Definition df_empty (df : DataFrame) : bool :=
  match df_len df, df_columns df with
  | O, _ | _, [] => true
  | _, _ => false
  end.

Definition columns (df : DataFrame) : list string := map fst (df_columns df).

Fixpoint assoc {A} (k : string) (l : list (string * A)) : option A :=
  match l with
  | [] => None
  | (k', v) :: l' => if String.eqb k k' then Some v else assoc k l'
  end.

Definition has_col (df : DataFrame) (name : string) : bool :=
  match assoc name (df_columns df) with Some _ => true | None => false end.

(** [df[name]] *)
Definition get_col (df : DataFrame) (name : string) : result Series :=
  match assoc name (df_columns df) with
  | Some s => ret s
  | None => raise "KeyError" name
  end.

Fixpoint put {A} (k : string) (v : A) (l : list (string * A)) : list (string * A) :=
  match l with
  | [] => [(k, v)]
  | (k', v') :: l' =>
      if String.eqb k k' then (k, v) :: l' else (k', v') :: put k v l'
  end.

(** [df[name] = s]: an existing column keeps its place, a new one goes last. *)
Definition set_col (df : DataFrame) (name : string) (s : Series) : DataFrame :=
  {| df_len := df_len df; df_columns := put name s (df_columns df) |}.

(** [df[names]]: the named columns, in the order asked. *)
Fixpoint select (df : DataFrame) (names : list string) : result DataFrame :=
  match names with
  | [] => ret {| df_len := df_len df; df_columns := [] |}
  | n :: ns =>
      s <- get_col df n ;;
      rest <- select df ns ;;
      ret {| df_len := df_len rest; df_columns := (n, s) :: df_columns rest |}
  end.

(** Positional row slices [df[:k]] and [df[k:]], [s[:k]] and [s[k:]]. *)
Definition series_head (k : nat) (s : Series) : Series :=
  {| s_dtype := s_dtype s; s_values := firstn k (s_values s) |}.
Definition series_tail (k : nat) (s : Series) : Series :=
  {| s_dtype := s_dtype s; s_values := skipn k (s_values s) |}.
Definition rows_to (k : nat) (df : DataFrame) : DataFrame :=
  {| df_len := Nat.min k (df_len df);
     df_columns := map (fun c => (fst c, series_head k (snd c))) (df_columns df) |}.
Definition rows_from (k : nat) (df : DataFrame) : DataFrame :=
  {| df_len := df_len df - k;
     df_columns := map (fun c => (fst c, series_tail k (snd c))) (df_columns df) |}.

(** *** Sorting

    [sort_values] is modelled by a stable insertion sort on the key column;
    a key that is not a timestamp ([NaT]) goes last.  (pandas' default
    quicksort does not promise the order of rows with equal keys: the two
    agree on every frame with one row per date, as those of
    [get_hotel_data] are.) *)

Section Sort.
Context {K A : Type} (leb : K -> K -> bool).

Fixpoint insert_by (k : K) (x : A) (l : list (K * A)) : list (K * A) :=
  match l with
  | [] => [(k, x)]
  | (k', y) :: l' =>
      if leb k k' then (k, x) :: l else (k', y) :: insert_by k x l'
  end.

Fixpoint isort (l : list (K * A)) : list (K * A) :=
  match l with
  | [] => []
  | (k, x) :: l' => insert_by k x (isort l')
  end.
End Sort.

Definition key_leb (a b : cell) : bool :=
  match a, b with
  | Stamp x, Stamp y => (x <=? y)%Z
  | Stamp _, _ => true
  | _, Stamp _ => false
  | _, _ => true
  end.

(** The values of a column put in the order of the keys. *)
Definition reorder (keys : list cell) (vals : list cell) : list cell :=
  map snd (isort key_leb (combine keys vals)).

Definition sort_values (df : DataFrame) (by_ : string) : result DataFrame :=
  k <- get_col df by_ ;;
  ret {| df_len := df_len df;
         df_columns :=
           map (fun c => (fst c, {| s_dtype := s_dtype (snd c);
                                    s_values := reorder (s_values k) (s_values (snd c)) |}))
               (df_columns df) |}.

(** *** Column operations *)

(** [s.shift(n)]: integers become floats, booleans objects. *)
Definition shift_dtype (d : dtype) : dtype :=
  match d with
  | int64 | int32 | uint32 => float64
  | bool_ => object_
  | d => d
  end.

Definition shift (n : nat) (s : Series) : Series :=
  {| s_dtype := shift_dtype (s_dtype s);
     s_values := firstn (length (s_values s)) (repeat NaN n ++ s_values s) |}.

Definition is_numeric (d : dtype) : bool :=
  match d with
  | int64 | int32 | uint32 | float64 | bool_ => true
  | _ => false
  end.

(** The defined values among the [w] cells ending at position [i]. *)
Definition window (w i : nat) (xs : list cell) : list Q :=
  omap cell_num (firstn (Nat.min w (S i)) (skipn (S i - w) xs)).

Definition rolling (w : nat) (agg : list Q -> cell) (s : Series) : result Series :=
  if is_numeric (s_dtype s)
  then ret {| s_dtype := float64;
              s_values := imap (fun i _ => agg (window w i (s_values s))) (s_values s) |}
  else raise "DataError" "No numeric types to aggregate".

(** [fillna(method='ffill')] then [fillna(0)] on one column. *)
Fixpoint ffill_from (last : cell) (l : list cell) : list cell :=
  match l with
  | [] => []
  | NaN :: l' => last :: ffill_from last l'
  | c :: l' => c :: ffill_from c l'
  end.

Definition ffill (l : list cell) : list cell := ffill_from NaN l.

Definition fill_zero (l : list cell) : list cell :=
  map (fun c => if is_nan c then Num 0 else c) l.

Definition fillna_ffill_0 (s : Series) : Series :=
  {| s_dtype := s_dtype s; s_values := fill_zero (ffill (s_values s)) |}.

(** Float arithmetic on cells; anything that is not a number gives [NaN]. *)
Definition Qzero (q : Q) : bool := Qeq_bool q 0.

Definition cell_sub (a b : cell) : cell :=
  match a, b with
  | Num x, Num y => Num (x - y)
  | Inf s, Num _ => Inf s
  | Num _, Inf s => Inf (negb s)
  | Inf s, Inf s' => if Bool.eqb s s' then NaN else Inf s
  | _, _ => NaN
  end.

Definition cell_mul (a b : cell) : cell :=
  match a, b with
  | Num x, Num y => Num (x * y)
  | Inf s, Num y | Num y, Inf s =>
      if Qzero y then NaN else Inf (Bool.eqb s (Qltb 0 y))
  | Inf s, Inf s' => Inf (Bool.eqb s s')
  | _, _ => NaN
  end.

Definition cell_div (a b : cell) : cell :=
  match a, b with
  | Num x, Num y =>
      if Qzero y then (if Qzero x then NaN else Inf (Qltb 0 x)) else Num (x / y)
  | Inf s, Num y => Inf (Bool.eqb s (Qle_bool 0 y))
  | Num _, Inf _ => Num 0
  | _, _ => NaN
  end.

Definition cell_abs (a : cell) : cell :=
  match a with
  | Num x => Num (Qabs x)
  | Inf _ => Inf true
  | _ => NaN
  end.

Definition zip_cells (f : cell -> cell -> cell) (a b : Series) : Series :=
  {| s_dtype := float64;
     s_values := map (fun p => f (fst p) (snd p)) (combine (s_values a) (s_values b)) |}.

(** *** [groupby(key)[col]] followed by a per-row result

    A row whose key is missing belongs to no group and gets [NaN]. *)
Definition key_eqb (a b : cell) : bool :=
  match a, b with
  | Stamp x, Stamp y => (x =? y)%Z
  | _, _ => false
  end.

Definition group_of (keys vals : list cell) (k : cell) : list Q :=
  omap cell_num
       (map snd (List.filter (fun kv => key_eqb k (fst kv)) (combine keys vals))).

Definition per_group (f : list Q -> cell -> cell) (keys vals : Series) : Series :=
  {| s_dtype := float64;
     s_values :=
       map (fun kv => match fst kv with
                      | Stamp _ => f (group_of (s_values keys) (s_values vals) (fst kv)) (snd kv)
                      | _ => NaN
                      end)
           (combine (s_values keys) (s_values vals)) |}.

Definition Qcount (p : Q -> bool) (g : list Q) : Q := Qlen (List.filter p g).

(** [rank(ascending=False)]: ties share the average of their ranks. *)
Definition rank_desc (g : list Q) (c : cell) : cell :=
  match cell_num c with
  | Some v => Num (Qcount (fun x => Qltb v x) g
                   + (Qcount (fun x => Qeq_bool x v) g + 1) / 2)
  | None => NaN
  end.

(** [rank(pct=True)]: the ascending average rank over the group size. *)
Definition rank_pct (g : list Q) (c : cell) : cell :=
  match cell_num c with
  | Some v => Num ((Qcount (fun x => Qltb x v) g
                    + (Qcount (fun x => Qeq_bool x v) g + 1) / 2) / Qlen g)
  | None => NaN
  end.

(** [transform('mean')] *)
Definition group_mean (g : list Q) (_ : cell) : cell :=
  match g with
  | [] => NaN
  | _ => Num (Qmean g)
  end.

(** [pd.to_datetime] on a column of datetimes.  Parsing of strings and
    numbers is not modelled: every date column of this program is built from
    [datetime] objects. *)
Definition to_datetime (s : Series) : result Series :=
  if forallb (fun c => match c with Stamp _ | NaN => true | _ => false end) (s_values s)
  then ret {| s_dtype := datetime64; s_values := s_values s |}
  else raise "TypeError" "to_datetime: not a datetime column".

(** ** The libraries the program calls *)

Definition ndarray : Type := list (list Q).

(** A row of the frame [Prophet.predict] returns. *)
Record forecast_row := { ds : Z; yhat : Q; yhat_lower : Q; yhat_upper : Q }.

Record Libs := {
  (* numpy *)
  np_pi : Q;
  np_sin : Q -> Q;
  np_cos : Q -> Q;
  np_sqrt : Q -> Q;
  (* pandas [.dt] accessors; [dt_int] is the dtype they return (int64
     before pandas 2, int32 from it on) *)
  dt_int : dtype;
  dt_year : Z -> Z;
  dt_month : Z -> Z;
  dt_day : Z -> Z;
  dt_weekday : Z -> Z;
  dt_dayofyear : Z -> Z;
  dt_week : Z -> Z;
  dt_quarter : Z -> Z;
  (* sklearn.preprocessing.StandardScaler: objects, fitted or not *)
  scaler_t : Type;
  StandardScaler : scaler_t;
  fit_transform : scaler_t -> DataFrame -> result (scaler_t * ndarray);
  transform : scaler_t -> DataFrame -> result ndarray;
  (* sklearn.ensemble.RandomForestRegressor(n_estimators=100, max_depth=10,
     random_state=42, n_jobs=-1): objects, fitted or not *)
  forest_t : Type;
  RandomForestRegressor : forest_t;
  fit : forest_t -> ndarray -> Series -> result forest_t;
  forest_predict : forest_t -> ndarray -> result (list Q);
  (* sklearn.metrics *)
  mean_absolute_error : Series -> list Q -> result Q;
  mean_squared_error : Series -> list Q -> result Q;
  (* prophet.Prophet(changepoint_prior_scale=0.05, seasonality_prior_scale=10,
     holidays_prior_scale=10, daily/weekly/yearly_seasonality=True);
     [PROPHET_AVAILABLE] tells whether the import succeeded *)
  PROPHET_AVAILABLE : bool;
  prophet_t : Type;
  Prophet : prophet_t;
  prophet_fit : prophet_t -> DataFrame -> result prophet_t;
  prophet_predict : prophet_t -> DataFrame -> result (list forecast_row)
}.

(** ** Feature engineering *)

Module FeatureEngineering.
Section FeatureEngineering.
Context (L : Libs).

(** A [.dt] accessor: an integer column, or a float one when a date is
    missing. *)
Definition dt_field (f : Z -> Z) (s : Series) : Series :=
  {| s_dtype := if existsb is_nan (s_values s) then float64 else dt_int L;
     s_values := map (fun c => match c with
                               | Stamp t => Num (inject_Z (f t))
                               | _ => NaN
                               end) (s_values s) |}.

(** [s.isin([5, 6]).astype(int)] *)
Definition isin_5_6 (s : Series) : Series :=
  {| s_dtype := int64;
     s_values := map (fun c => match c with
                               | Num q => if Qeq_bool q 5 || Qeq_bool q 6
                                          then Num 1 else Num 0
                               | _ => Num 0
                               end) (s_values s) |}.

(** [np_f(2 * np.pi * s / period)] *)
Definition cyclic (np_f : Q -> Q) (period : Q) (s : Series) : Series :=
  {| s_dtype := float64;
     s_values := map (fun c => match c with
                               | Num q => Num (np_f (2 * np_pi L * q / period)%Q)
                               | _ => NaN
                               end) (s_values s) |}.

Definition extract_date_features (df : DataFrame) (date_col : string)
  : result DataFrame :=
  d <- get_col df date_col ;;
  d <- to_datetime d ;;
  let df := set_col df date_col d in
  (* Basic date features *)
  let df := set_col df "year" (dt_field (dt_year L) d) in
  let df := set_col df "month" (dt_field (dt_month L) d) in
  let df := set_col df "day" (dt_field (dt_day L) d) in
  let df := set_col df "weekday" (dt_field (dt_weekday L) d) in
  weekday <- get_col df "weekday" ;;
  let df := set_col df "is_weekend" (isin_5_6 weekday) in
  let df := set_col df "day_of_year" (dt_field (dt_dayofyear L) d) in
  let df := set_col df "week_of_year"
              {| s_dtype := uint32; s_values := s_values (dt_field (dt_week L) d) |} in
  let df := set_col df "quarter" (dt_field (dt_quarter L) d) in
  (* Seasonal features *)
  month <- get_col df "month" ;;
  let df := set_col df "sin_month" (cyclic (np_sin L) 12 month) in
  month <- get_col df "month" ;;
  let df := set_col df "cos_month" (cyclic (np_cos L) 12 month) in
  weekday <- get_col df "weekday" ;;
  let df := set_col df "sin_weekday" (cyclic (np_sin L) 7 weekday) in
  weekday <- get_col df "weekday" ;;
  let df := set_col df "cos_weekday" (cyclic (np_cos L) 7 weekday) in
  ret df.

Fixpoint add_lags (df : DataFrame) (target_col : string) (lags : list nat)
  : result DataFrame :=
  match lags with
  | [] => ret df
  | lag :: lags =>
      t <- get_col df target_col ;;
      add_lags (set_col df (target_col +:+ "_lag_" +:+ pretty lag) (shift lag t))
               target_col lags
  end.

Definition add_lag_features (df : DataFrame) (target_col : string) (lags : list nat)
  : result DataFrame :=
  df <- sort_values df "date" ;;
  add_lags df target_col lags.

(** the exact mean: a float mean of several values can round past its
    smallest or largest value by an ulp, so the mean of a window is compared
    with them nowhere below, except on a window of one value *)
Definition roll_mean (v : list Q) : cell :=
  match v with [] => NaN | _ => Num (Qmean v) end.
(** the sample deviation (one degree of freedom less) *)
Definition roll_std (v : list Q) : cell :=
  match v with
  | [] | [_] => NaN
  | _ => Num (np_sqrt L (Qsum (map (fun x => (x - Qmean v) * (x - Qmean v)) v)
                         / (Qlen v - 1))%Q)
  end.
Definition roll_min (v : list Q) : cell :=
  match v with [] => NaN | x :: v' => Num (Qminl x v') end.
Definition roll_max (v : list Q) : cell :=
  match v with [] => NaN | x :: v' => Num (Qmaxl x v') end.

Fixpoint add_rollings (df : DataFrame) (target_col : string) (windows : list nat)
  : result DataFrame :=
  match windows with
  | [] => ret df
  | w :: windows =>
      let name stat := target_col +:+ "_rolling_" +:+ stat +:+ "_" +:+ pretty w in
      t <- get_col df target_col ;;
      c <- rolling w roll_mean t ;;
      let df := set_col df (name "mean") c in
      t <- get_col df target_col ;;
      c <- rolling w roll_std t ;;
      let df := set_col df (name "std") c in
      t <- get_col df target_col ;;
      c <- rolling w roll_min t ;;
      let df := set_col df (name "min") c in
      t <- get_col df target_col ;;
      c <- rolling w roll_max t ;;
      let df := set_col df (name "max") c in
      add_rollings df target_col windows
  end.

Definition add_rolling_features (df : DataFrame) (target_col : string)
           (windows : list nat) : result DataFrame :=
  df <- sort_values df "date" ;;
  add_rollings df target_col windows.

Definition scale100 (s : Series) : Series :=
  {| s_dtype := float64; s_values := map (fun c => cell_mul c (Num 100)) (s_values s) |}.

Definition add_competitive_features (df : DataFrame) : result DataFrame :=
  (* Rate position relative to competitors *)
  if has_col df "hotel_id" then
    (* Group by date and calculate competitive metrics *)
    date <- get_col df "date" ;;
    rate <- get_col df "rate" ;;
    let df := set_col df "rate_rank" (per_group rank_desc date rate) in
    let df := set_col df "rate_percentile" (per_group rank_pct date rate) in
    let df := set_col df "competitor_avg_rate" (per_group group_mean date rate) in
    rate <- get_col df "rate" ;;
    avg <- get_col df "competitor_avg_rate" ;;
    let df := set_col df "rate_vs_avg" (zip_cells cell_sub rate avg) in
    rate <- get_col df "rate" ;;
    avg <- get_col df "competitor_avg_rate" ;;
    avg' <- get_col df "competitor_avg_rate" ;;
    let df := set_col df "rate_vs_avg_pct"
                (scale100 (zip_cells cell_div (zip_cells cell_sub rate avg) avg')) in
    ret df
  else ret df.

End FeatureEngineering.
End FeatureEngineering.

(** ** Results handed to callers *)

Record ForecastResult := {
  date : Z;
  predicted_rate : Q;
  confidence_lower : Q;
  confidence_upper : Q;
  model_name : string
}.

Record ModelMetrics := { mae : Q; mse : Q; rmse : Q; mape : cell }.

(** ** The base class and the Random Forest model

    Only the subclass is ever instantiated, so the object always holds a
    regressor (the base class' [model = None] does not occur). *)

Module RateForecastingModel.
Section RateForecastingModel.
Context (L : Libs).

Record t := {
  name : string;
  model : forest_t L;
  scaler : scaler_t L;
  feature_columns : list string;
  is_trained : bool
}.

(** What [save_model] pickles. *)
Record model_data := {
  data_model : forest_t L;
  data_scaler : scaler_t L;
  data_feature_columns : list string;
  data_model_name : string
}.

Definition init (model_name : string) (m : forest_t L) : t :=
  {| name := model_name; model := m; scaler := StandardScaler L;
     feature_columns := []; is_trained := false |}.

Definition set_feature_columns (cols : list string) (self : t) : t :=
  {| name := name self; model := model self; scaler := scaler self;
     feature_columns := cols; is_trained := is_trained self |}.
Definition set_scaler (sc : scaler_t L) (self : t) : t :=
  {| name := name self; model := model self; scaler := sc;
     feature_columns := feature_columns self; is_trained := is_trained self |}.
Definition set_model (m : forest_t L) (self : t) : t :=
  {| name := name self; model := m; scaler := scaler self;
     feature_columns := feature_columns self; is_trained := is_trained self |}.
Definition set_is_trained (b : bool) (self : t) : t :=
  {| name := name self; model := model self; scaler := scaler self;
     feature_columns := feature_columns self; is_trained := b |}.

Definition exclude_cols : list string :=
  ["date"; "rate"; "hotel_id"; "source"; "room_type"; "scraped_at"].

Definition in_list (x : string) (l : list string) : bool :=
  existsb (String.eqb x) l.

(** [col not in exclude_cols and df[col].dtype in [np.int64, np.float64]] *)
Definition is_feature (c : string * Series) : bool :=
  negb (in_list (fst c) exclude_cols)
  && (dtype_eqb (s_dtype (snd c)) int64 || dtype_eqb (s_dtype (snd c)) float64).

(** [df[cols] = df[cols].fillna(method='ffill').fillna(0)] *)
Definition fill_features (cols : list string) (df : DataFrame) : DataFrame :=
  {| df_len := df_len df;
     df_columns := map (fun c => if in_list (fst c) cols
                                 then (fst c, fillna_ffill_0 (snd c)) else c)
                       (df_columns df) |}.

(** The part of [prepare_data] before [self] is touched: the engineered
    frame with its missing values handled, and the feature columns. *)
Definition prepare_frame (df : DataFrame) : result (DataFrame * list string) :=
  (* Feature engineering *)
  df <- FeatureEngineering.extract_date_features L df "date" ;;
  df <- FeatureEngineering.add_lag_features df "rate" [1; 7; 30]%nat ;;
  df <- FeatureEngineering.add_rolling_features L df "rate" [7; 14; 30]%nat ;;
  df <- FeatureEngineering.add_competitive_features df ;;
  (* Select features (exclude non-numeric and target) *)
  let feature_cols := map fst (List.filter is_feature (df_columns df)) in
  (* Handle missing values *)
  ret (fill_features feature_cols df, feature_cols).

Definition prepare_data (df : DataFrame) : method t (DataFrame * option Series) :=
  p <~ lift (prepare_frame df) ;;
  assign (set_feature_columns (snd p)) ;;;
  X <~ lift (select (fst p) (snd p)) ;;
  y <~ lift (if has_col (fst p) "rate"
             then (s <- get_col (fst p) "rate" ;; ret (Some s))
             else ret None) ;;
  oret (X, y).

Abbreviation files := (gmap string model_data).

(** [joblib.dump] writes the entry, [joblib.load] reads it back; failures
    of the storage itself are not modelled. *)
Definition save_model (filepath : string) (self : t) (fs : files) : files :=
  <[ filepath := {| data_model := model self;
                    data_scaler := scaler self;
                    data_feature_columns := feature_columns self;
                    data_model_name := name self |} ]> fs.

Definition load_model (fs : files) (filepath : string) : method t unit :=
  match fs !! filepath with
  | None => oraise "FileNotFoundError" filepath
  | Some d =>
      assign (fun _ => {| name := data_model_name d;
                          model := data_model d;
                          scaler := data_scaler d;
                          feature_columns := data_feature_columns d;
                          is_trained := true |})
  end.

End RateForecastingModel.

Arguments name {L} _.
Arguments model {L} _.
Arguments scaler {L} _.
Arguments feature_columns {L} _.
Arguments is_trained {L} _.
Arguments data_model {L} _.
Arguments data_scaler {L} _.
Arguments data_feature_columns {L} _.
Arguments data_model_name {L} _.
End RateForecastingModel.

Module RandomForestForecastingModel.
Section RandomForestForecastingModel.
Context (L : Libs).
Import RateForecastingModel.

Definition init : t L := RateForecastingModel.init L "Random Forest" (RandomForestRegressor L).

(** [int(0.8 * n)] *)
Definition train_size (n : nat) : nat :=
  Z.to_nat (Qfloor ((8 # 10) * inject_Z (Z.of_nat n))).

(** [Series.mean()]: missing values are skipped. *)
Definition series_mean (l : list cell) : cell :=
  let pinf := existsb (fun c => match c with Inf true => true | _ => false end) l in
  let ninf := existsb (fun c => match c with Inf false => true | _ => false end) l in
  if pinf && ninf then NaN
  else if pinf then Inf true
  else if ninf then Inf false
  else match omap cell_num l with
       | [] => NaN
       | v => Num (Qmean v)
       end.

Definition as_series (a : list Q) : Series :=
  {| s_dtype := float64; s_values := map Num a |}.

(** A series combined with an array of another length does not broadcast. *)
Definition elementwise (f : cell -> cell -> cell) (a : Series) (b : list Q)
  : result Series :=
  if Nat.eqb (length (s_values a)) (length b)
  then ret (zip_cells f a (as_series b))
  else raise "ValueError" "operands could not be broadcast together".

Definition _calculate_metrics (y_true : Series) (y_pred : list Q) : result ModelMetrics :=
  mae_ <- mean_absolute_error L y_true y_pred ;;
  mse_ <- mean_squared_error L y_true y_pred ;;
  let rmse_ := np_sqrt L mse_ in
  diff <- elementwise cell_sub y_true y_pred ;;
  let mape_ := cell_mul (series_mean (map cell_abs (s_values (zip_cells cell_div diff y_true))))
                        (Num 100) in
  ret {| mae := mae_; mse := mse_; rmse := rmse_; mape := mape_ |}.

Definition train (df : DataFrame) : method (t L) ModelMetrics :=
  Xy <~ prepare_data L df ;;
  let X := fst Xy in
  (* Split data *)
  let train_size := train_size (df_len X) in
  let X_train := rows_to train_size X in
  let X_test := rows_from train_size X in
  y <~ lift (match snd Xy with
             | Some y => ret y
             | None => raise "TypeError" "'NoneType' object is not subscriptable"
             end) ;;
  let y_train := series_head train_size y in
  let y_test := series_tail train_size y in
  (* Scale features *)
  self <~ this ;;
  fitted <~ lift (fit_transform L (scaler self) X_train) ;;
  assign (set_scaler L (fst fitted)) ;;;
  let X_train_scaled := snd fitted in
  self <~ this ;;
  X_test_scaled <~ lift (transform L (scaler self) X_test) ;;
  (* Train model *)
  self <~ this ;;
  m <~ lift (fit L (model self) X_train_scaled y_train) ;;
  assign (set_model L m) ;;;
  assign (set_is_trained L true) ;;;
  (* Evaluate *)
  self <~ this ;;
  y_pred <~ lift (forest_predict L (model self) X_test_scaled) ;;
  metrics <~ lift (_calculate_metrics y_test y_pred) ;;
  oret metrics.

Definition predict (df : DataFrame) : method (t L) (list Q) :=
  self <~ this ;;
  if negb (is_trained self)
  then oraise "ValueError" "Model must be trained before making predictions"
  else
    Xy <~ prepare_data L df ;;
    self <~ this ;;
    X' <~ lift (select (fst Xy) (feature_columns self)) ;;
    X_scaled <~ lift (transform L (scaler self) X') ;;
    predictions <~ lift (forest_predict L (model self) X_scaled) ;;
    oret predictions.

End RandomForestForecastingModel.
End RandomForestForecastingModel.

(** ** More frame operations, used by the Prophet model and the service *)

Definition cell_eqb (a b : cell) : bool :=
  match a, b with
  | NaN, NaN => true
  | Num x, Num y => Qeq_bool x y
  | Inf s, Inf s' => Bool.eqb s s'
  | Stamp x, Stamp y => (x =? y)%Z
  | Str x, Str y => String.eqb x y
  | Flag x, Flag y => Bool.eqb x y
  | _, _ => false
  end.

Definition mask {A} (m : list bool) (l : list A) : list A :=
  map snd (List.filter (fun p => fst p) (combine m l)).

Definition mask_rows (m : list bool) (df : DataFrame) : DataFrame :=
  {| df_len := length (List.filter (fun b => b) (firstn (df_len df) m));
     df_columns := map (fun c => (fst c, {| s_dtype := s_dtype (snd c);
                                            s_values := mask m (s_values (snd c)) |}))
                       (df_columns df) |}.

(** [df.dropna()]: the rows without a missing value. *)
Definition dropna (df : DataFrame) : DataFrame :=
  mask_rows
    (map (fun i => forallb (fun c => match s_values (snd c) !! i with
                                     | Some NaN => false
                                     | _ => true
                                     end) (df_columns df))
         (seq 0 (df_len df)))
    df.

(** [df.drop_duplicates(subset=[col])]: the first row of each value. *)
Definition drop_duplicates (df : DataFrame) (col : string) : result DataFrame :=
  k <- get_col df col ;;
  ret (mask_rows
         (imap (fun i c => negb (existsb (cell_eqb c) (firstn i (s_values k))))
               (s_values k))
         df).

(** [df.columns = names] *)
Definition rename_columns (df : DataFrame) (names : list string) : result DataFrame :=
  if Nat.eqb (length names) (length (df_columns df))
  then ret {| df_len := df_len df;
              df_columns := combine names (map snd (df_columns df)) |}
  else raise "ValueError" "Length mismatch".

(** [pd.concat([a, b], ignore_index=True)]: the columns of [a], then those
    only [b] has; a frame without a column contributes missing values, which
    turn integers into floats and booleans into objects. *)
Definition concat_dtype (a b : option dtype) : dtype :=
  match a, b with
  | Some x, Some y => if dtype_eqb x y then x else
                        if is_numeric x && is_numeric y then float64 else object_
  | Some x, None | None, Some x => shift_dtype x
  | None, None => object_
  end.

Definition concat_col (a b : DataFrame) (n : string) : string * Series :=
  let ca := assoc n (df_columns a) in
  let cb := assoc n (df_columns b) in
  (n, {| s_dtype := concat_dtype (s_dtype <$> ca) (s_dtype <$> cb);
         s_values := (from_option s_values (repeat NaN (df_len a)) ca
                      ++ from_option s_values (repeat NaN (df_len b)) cb)%list |}).

Definition concat (a b : DataFrame) : DataFrame :=
  {| df_len := df_len a + df_len b;
     df_columns :=
       map (concat_col a b)
           (columns a ++ List.filter (fun n => negb (has_col a n)) (columns b))%list |}.

(** ** The Prophet model *)

Module ProphetForecastingModel.
Section ProphetForecastingModel.
Context (L : Libs).

Record t := { name : string; model : option (prophet_t L); is_trained : bool }.

Definition init : t := {| name := "Prophet"; model := None; is_trained := false |}.

Definition set_model (m : option (prophet_t L)) (self : t) : t :=
  {| name := name self; model := m; is_trained := is_trained self |}.
Definition set_is_trained (b : bool) (self : t) : t :=
  {| name := name self; model := model self; is_trained := b |}.

Definition train (df : DataFrame) : method t (option ModelMetrics) :=
  if negb (PROPHET_AVAILABLE L) then oret None
  else
    (* Prepare data for Prophet (needs 'ds' and 'y' columns) *)
    prophet_df <~ lift (select df ["date"; "rate"]) ;;
    prophet_df <~ lift (rename_columns prophet_df ["ds"; "y"]) ;;
    prophet_df <~ lift (sort_values prophet_df "ds") ;;
    (* Remove duplicates and handle missing values *)
    let prophet_df := dropna prophet_df in
    prophet_df <~ lift (drop_duplicates prophet_df "ds") ;;
    (* Initialize and train Prophet *)
    assign (set_model (Some (Prophet L))) ;;;
    m <~ lift (prophet_fit L (Prophet L) prophet_df) ;;
    assign (set_model (Some m)) ;;;
    assign (set_is_trained true) ;;;
    oret None.

Definition predict (dates : list Z) : method t (list ForecastResult) :=
  self <~ this ;;
  if negb (is_trained self) || negb (PROPHET_AVAILABLE L)
  then oraise "ValueError" "Prophet model must be trained and available"
  else
    (* Create future dataframe *)
    let future_df :=
      {| df_len := length dates;
         df_columns := [("ds", {| s_dtype := datetime64; s_values := map Stamp dates |})] |} in
    (* Make predictions *)
    m <~ lift (match model self with
               | Some m => ret m
               | None => raise "AttributeError" "'NoneType' object has no attribute 'predict'"
               end) ;;
    forecast <~ lift (prophet_predict L m future_df) ;;
    (* Convert to ForecastResult objects *)
    oret (map (fun row => {| date := ds row;
                             predicted_rate := yhat row;
                             confidence_lower := yhat_lower row;
                             confidence_upper := yhat_upper row;
                             model_name := name self |}) forecast).

End ProphetForecastingModel.

Arguments name {L} _.
Arguments model {L} _.
Arguments is_trained {L} _.
End ProphetForecastingModel.

(** ** The rate store *)

Module Hotel.
Record t := {
  id : Z;
  name : string;
  location : string;
  category : string;
  is_own : bool
}.
End Hotel.

Module RateData.
Record t := {
  id : Z;
  hotel_id : Z;
  date : Z;
  source : string;
  room_type : string;
  rate : Q;
  availability : bool;
  scraped_at : Z
}.
End RateData.

Record Database := { hotels : list Hotel.t; rate_data : list RateData.t }.

(** [timedelta(days=d)], in seconds *)
Definition days (d : Z) : Z := d * 86400.

(** [db.query(RateData, Hotel).join(Hotel)]: each rate with its hotel. *)
Definition joined (db : Database) : list (RateData.t * Hotel.t) :=
  flat_map (fun r => map (fun h => (r, h))
                         (List.filter (fun h => (Hotel.id h =? RateData.hotel_id r)%Z) (hotels db)))
           (rate_data db).

(** The distinct values of a list, in order of first occurrence. *)
Fixpoint distinct (l : list Z) : list Z :=
  match l with
  | [] => []
  | x :: l' => x :: List.filter (fun y => negb (y =? x)%Z) (distinct l')
  end.

(** ** The forecasting service *)

(** What [get_market_insights] returns when it has something to say; the
    empty dictionary is [None]. *)
Record Insights := {
  avg_rate : Q;
  competitor_avg_rate : Q;
  rate_advantage : Q;
  market_position : Q;
  price_percentile : Q;
  recommendations : list string
}.

Module ForecastingService.
Module RF := RandomForestForecastingModel.
Module PM := ProphetForecastingModel.

Section ForecastingService.
Context (L : Libs).

Abbreviation rf_model := (RateForecastingModel.t L).
Abbreviation files := (gmap string (RateForecastingModel.model_data L)).

(** The service object, with the directory of saved models it writes to. *)
Record t := {
  random_forest : rf_model;
  prophet : PM.t L;
  model_dir : string;
  disk : files
}.

Definition init (fs : files) : t :=
  {| random_forest := RF.init L; prophet := PM.init L;
     model_dir := "models"; disk := fs |}.

Definition set_random_forest (m : rf_model) (self : t) : t :=
  {| random_forest := m; prophet := prophet self;
     model_dir := model_dir self; disk := disk self |}.
Definition set_prophet (m : PM.t L) (self : t) : t :=
  {| random_forest := random_forest self; prophet := m;
     model_dir := model_dir self; disk := disk self |}.
Definition set_disk (fs : files) (self : t) : t :=
  {| random_forest := random_forest self; prophet := prophet self;
     model_dir := model_dir self; disk := fs |}.

(** A method of [self.models['random_forest']] or [self.models['prophet']]
    run from a method of the service. *)
Definition on_random_forest {A} (m : method rf_model A) : method t A :=
  fun self => let r := m (random_forest self) in (set_random_forest (fst r) self, snd r).
Definition on_prophet {A} (m : method (PM.t L) A) : method t A :=
  fun self => let r := m (prophet self) in (set_prophet (fst r) self, snd r).

(** [os.path.join(self.model_dir, f"rf_hotel_{hotel_id}.joblib")] *)
Definition model_path (self : t) (hotel_id : Z) : string :=
  model_dir self +:+ "/" +:+ "rf_hotel_" +:+ pretty hotel_id +:+ ".joblib".

Definition group_frame (hotel_id : Z) (rates : list (RateData.t * Hotel.t)) : DataFrame :=
  let dates := distinct (map (fun p => RateData.date (fst p)) rates) in
  let group d := List.filter (fun p => (RateData.date (fst p) =? d)%Z) rates in
  let first (f : RateData.t * Hotel.t -> string) d :=
    match group d with p :: _ => Str (f p) | [] => NaN end in
  {| df_len := length dates;
     df_columns :=
       [ ("date", {| s_dtype := datetime64; s_values := map Stamp dates |});
         ("hotel_id", {| s_dtype := int64;
                         s_values := map (fun _ => Num (inject_Z hotel_id)) dates |});
         ("rate", {| s_dtype := float64;
                     s_values := map (fun d => Num (Qmean (map (fun p => RateData.rate (fst p))
                                                               (group d)))) dates |});
         ("hotel_name", {| s_dtype := object_;
                           s_values := map (first (fun p => Hotel.name (snd p))) dates |});
         ("source", {| s_dtype := object_;
                       s_values := map (first (fun p => RateData.source (fst p))) dates |});
         ("room_type", {| s_dtype := object_;
                          s_values := map (first (fun p => RateData.room_type (fst p))) dates |});
         ("availability", {| s_dtype := bool_;
                             s_values := map (fun d => Flag (existsb (fun p => RateData.availability (fst p))
                                                                     (group d))) dates |}) ] |}.

(** Historical rate data of a hotel, one averaged row per day.  [utcnow] is
    the clock reading; failures of the store are not modelled. *)
Definition get_hotel_data (db : Database) (utcnow : Z) (hotel_id : Z) (days_back : Z)
  : DataFrame :=
  let cutoff_date := (utcnow - days days_back)%Z in
  let rates :=
    map snd (isort Z.leb
      (map (fun p => (RateData.date (fst p), p))
           (List.filter (fun p => (RateData.hotel_id (fst p) =? hotel_id)%Z
                                  && (cutoff_date <=? RateData.scraped_at (fst p))%Z)
                        (joined db)))) in
  match rates with
  | [] => empty_frame
  | _ =>
      (* Aggregate multiple rates per day (take average) *)
      group_frame hotel_id rates
  end.

Abbreviation results_t := (gmap string (option ModelMetrics)).

(** Train all available models for a hotel. *)
Definition train_models (db : Database) (utcnow : Z) (hotel_id : Z)
  : method t results_t :=
  let df := get_hotel_data db utcnow hotel_id 365 in
  if df_empty df then oret ∅
  else
    let results : results_t := ∅ in
    (* Train Random Forest *)
    results <~ try_except
      (rf_metrics <~ on_random_forest (RF.train L df) ;;
       let results := <["random_forest" := Some rf_metrics]> results in
       (* Save model *)
       self <~ this ;;
       assign (set_disk (RateForecastingModel.save_model L (model_path self hotel_id)
                           (random_forest self) (disk self))) ;;;
       oret results)
      (fun e => oret (<["random_forest" := None]> results)) ;;
    (* Train Prophet *)
    results <~ try_except
      (prophet_metrics <~ on_prophet (PM.train L df) ;;
       oret (<["prophet" := prophet_metrics]> results))
      (fun e => oret (<["prophet" := None]> results)) ;;
    oret results.

(** [l[-k:]] *)
Definition last_n {A} (k : nat) (l : list A) : list A :=
  match k with
  | O => l
  | _ => skipn (length l - k) l
  end.

(** The band of the Random Forest forecasts. *)
Definition rf_forecast (d : Z) (pred : Q) : ForecastResult :=
  {| date := d;
     predicted_rate := pred;
     confidence_lower := pred * (9 # 10);   (* Simple confidence interval *)
     confidence_upper := pred * (11 # 10);
     model_name := "Random Forest" |}.

(** Generate rate forecasts for a hotel.  [now] and [utcnow] are the two
    clock readings.  Dates are unbounded integers: the [OverflowError] of a
    future date past [datetime.max] is not modelled. *)
Definition forecast_rates (db : Database) (utcnow now : Z) (hotel_id : Z) (days_ahead : Z)
  : method t (list ForecastResult) :=
  (* Generate future dates *)
  let future_dates := map (fun i => (now + days i)%Z) (seqZ 1 days_ahead) in
  let all_forecasts : list ForecastResult := [] in
  (* Random Forest predictions *)
  all_forecasts <~ try_except
    (self <~ this ;;
     let model_path := model_path self hotel_id in
     if decide (is_Some (disk self !! model_path)) then
       on_random_forest (RateForecastingModel.load_model L (disk self) model_path) ;;;
       (* Create DataFrame for prediction *)
       let pred_df :=
         {| df_len := length future_dates;
            df_columns := [("date", {| s_dtype := datetime64;
                                       s_values := map Stamp future_dates |})] |} in
       (* Get recent data for feature engineering *)
       let recent_data := get_hotel_data db utcnow hotel_id 90 in
       if negb (df_empty recent_data) then
         (* Combine recent data with future dates *)
         let combined_df := concat recent_data pred_df in
         combined_df <~ lift (sort_values combined_df "date") ;;
         (* Make predictions *)
         predictions <~ on_random_forest (RF.predict L combined_df) ;;
         (* Extract predictions for future dates *)
         let future_predictions := last_n (length future_dates) predictions in
         oret (all_forecasts
               ++ map (fun p => rf_forecast (fst p) (snd p))
                      (combine future_dates future_predictions))%list
       else oret all_forecasts
     else oret all_forecasts)
    (fun e => oret all_forecasts) ;;
  (* Prophet predictions *)
  all_forecasts <~ try_except
    (self <~ this ;;
     if PROPHET_AVAILABLE L && PM.is_trained (prophet self) then
       prophet_forecasts <~ on_prophet (PM.predict L future_dates) ;;
       oret (all_forecasts ++ prophet_forecasts)%list
     else oret all_forecasts)
    (fun e => oret all_forecasts) ;;
  oret all_forecasts.

(** Python-level operations on floats that can raise. *)
Definition float_div (a b : Q) : result Q :=
  if Qzero b then raise "ZeroDivisionError" "float division by zero"
  else ret (a / b)%Q.

(** [float(s)] for a boolean series [s]: only a one-element series converts. *)
Definition float_of_series (s : list bool) : result Q :=
  match s with
  | [b] => ret (if b then 1%Q else 0%Q)
  | _ => raise "TypeError" "cannot convert the series to <class 'float'>"
  end.

(** [x.mean()] for a Python float [x]: floats have no such attribute. *)
Definition float_mean (x : Q) : result Q :=
  raise "AttributeError" "'float' object has no attribute 'mean'".

(** Generate pricing recommendations based on competitive analysis.  On an
    empty series the three statistics are [NaN] and every comparison is
    false. *)
Definition _generate_recommendations (target_rate : Q) (competitor_rates : list Q)
  : list string :=
  match competitor_rates with
  | [] => ["Current pricing is well-positioned vs competitors"]
  | x :: rest =>
      let competitor_avg := Qmean competitor_rates in
      let competitor_min := Qminl x rest in
      let competitor_max := Qmaxl x rest in
      ((if Qltb (competitor_avg * (11 # 10)) target_rate
        then ["Consider reducing rates to be more competitive"]
        else if Qltb target_rate (competitor_avg * (9 # 10))
        then ["Opportunity to increase rates while remaining competitive"]
        else ["Current pricing is well-positioned vs competitors"])
       ++
       (if Qltb competitor_max target_rate
        then ["You're pricing above all competitors - monitor demand closely"]
        else if Qltb target_rate competitor_min
        then ["You're pricing below all competitors - potential revenue opportunity"]
        else []))%list
  end.

(** The [try] block of [get_market_insights]; [None] is a [return {}] or
    the fall-through to the final one. *)
Definition market_insights_body (db : Database) (utcnow : Z) (hotel_id : Z)
  : result (option Insights) :=
  (* Get hotel info *)
  match List.find (fun h => (Hotel.id h =? hotel_id)%Z) (hotels db) with
  | None => ret None
  | Some hotel =>
      (* Get recent rate data for the hotel and competitors in same location *)
      let recent_date := (utcnow - days 30)%Z in
      let competitor_rates :=
        List.filter (fun p => String.eqb (Hotel.location (snd p)) (Hotel.location hotel)
                              && (recent_date <=? RateData.scraped_at (fst p))%Z)
                    (joined db) in
      match competitor_rates with
      | [] => ret None
      | _ =>
          (* Analyze competitive position *)
          let competitor_data :=
            map (fun p => (Hotel.name (snd p), RateData.rate (fst p),
                           (RateData.hotel_id (fst p) =? hotel_id)%Z))
                competitor_rates in
          (* Calculate insights *)
          let target_rates :=
            map (fun r => snd (fst r)) (List.filter (fun r => snd r) competitor_data) in
          let competitor_rates :=
            map (fun r => snd (fst r)) (List.filter (fun r => negb (snd r)) competitor_data) in
          if (0 <? length target_rates)%nat && (0 <? length competitor_rates)%nat then
            let avg_rate_ := Qmean target_rates in
            let competitor_avg_rate_ := Qmean competitor_rates in
            let rate_advantage_ := (Qmean target_rates - Qmean competitor_rates)%Q in
            market_position_ <- float_div (Qmean target_rates) (Qmean competitor_rates) ;;
            f <- float_of_series (map (fun c => Qltb c (Qmean target_rates)) competitor_rates) ;;
            m <- float_mean f ;;
            let price_percentile_ := (m * 100)%Q in
            let recommendations_ :=
              _generate_recommendations (Qmean target_rates) competitor_rates in
            ret (Some {| avg_rate := avg_rate_;
                         competitor_avg_rate := competitor_avg_rate_;
                         rate_advantage := rate_advantage_;
                         market_position := market_position_;
                         price_percentile := price_percentile_;
                         recommendations := recommendations_ |})
          else ret None
      end
  end.

(** Generate market insights and competitive analysis: an exception of the
    body is caught, and the function then returns the empty dictionary. *)
Definition get_market_insights (db : Database) (utcnow : Z) (hotel_id : Z)
  : result (option Insights) :=
  match market_insights_body db utcnow hotel_id with
  | inl e => ret None
  | inr insights => ret insights
  end.

(** Background task to train models for all hotels: a fresh service, then
    every own hotel in turn. *)
Definition train_all_models (db : Database) (utcnow : Z) (fs : files) : t :=
  fold_left
    (fun service hotel =>
       fst (try_except (results <~ train_models db utcnow (Hotel.id hotel) ;; oret tt)
                       (fun e => oret tt) service))
    (List.filter Hotel.is_own (hotels db))
    (init fs).

End ForecastingService.

Arguments random_forest {L} _.
Arguments prophet {L} _.
Arguments model_dir {L} _.
Arguments disk {L} _.
End ForecastingService.

(** ** A reference instance of the libraries

    Executable stand-ins with the documented interface of each library, used
    to run the program on concrete inputs: numpy by rational approximations,
    the proleptic Gregorian calendar, a standard scaler that checks the
    number and names of the features, a regressor that predicts the mean of
    its training targets (an ensemble whose trees are single leaves), and a
    Prophet that forecasts the mean of the series with a band as wide as its
    largest deviation. *)

Module Ref.

Definition pi : Q := 3141592653589793 # 1000000000000000.

Definition round6 (q : Q) : Q := Qfloor (q * 1000000) # 1000000.

(** Bhaskara's rational approximation of the sine, after reduction to one
    period. *)
Definition sin (x : Q) : Q :=
  let turns := Qfloor (x / (2 * pi)) in
  let r := (x - inject_Z turns * (2 * pi))%Q in
  let half (y : Q) : Q := (16 * y * (pi - y) / (5 * pi * pi - 4 * y * (pi - y)))%Q in
  round6 (if Qle_bool r pi then half r else - half (r - pi))%Q.

Definition cos (x : Q) : Q := sin (x + pi / 2).

Definition sqrt (q : Q) : Q :=
  Z.sqrt (Qfloor (q * 1000000000000)) # 1000000.

(** The civil date of a day number (days since 1970-01-01). *)
Definition day_number (t : Z) : Z := (t / 86400)%Z.

Definition civil (z : Z) : Z * Z * Z :=
  (let z := z + 719468 in
   let era := z / 146097 in
   let doe := z - era * 146097 in
   let yoe := (doe - doe / 1460 + doe / 36524 - doe / 146096) / 365 in
   let doy := doe - (365 * yoe + yoe / 4 - yoe / 100) in
   let mp := (5 * doy + 2) / 153 in
   let d := doy - (153 * mp + 2) / 5 + 1 in
   let m := if mp <? 10 then mp + 3 else mp - 9 in
   let y := yoe + era * 400 + (if m <=? 2 then 1 else 0) in
   (y, m, d))%Z.

Definition year (t : Z) : Z := fst (fst (civil (day_number t))).
Definition month (t : Z) : Z := snd (fst (civil (day_number t))).
Definition day (t : Z) : Z := snd (civil (day_number t)).
Definition weekday (t : Z) : Z := ((day_number t + 3) mod 7)%Z.
Definition quarter (t : Z) : Z := ((month t - 1) / 3 + 1)%Z.

Definition leap (y : Z) : bool :=
  ((y mod 4 =? 0) && negb (y mod 100 =? 0) || (y mod 400 =? 0))%Z.

Definition dayofyear (t : Z) : Z :=
  (let m := month t in
   let before := nth (Z.to_nat (m - 1))
                     [0; 31; 59; 90; 120; 151; 181; 212; 243; 273; 304; 334] 0 in
   before + (if (2 <? m) && leap (year t) then 1 else 0) + day t)%Z.

(** ISO 8601 week number. *)
Definition weeks_in_year (y : Z) : Z :=
  (let p y := (y + y / 4 - y / 100 + y / 400) mod 7 in
   if (p y =? 4) || (p (y - 1) =? 3) then 53 else 52)%Z.

Definition week (t : Z) : Z :=
  (let w := (dayofyear t - (weekday t + 1) + 10) / 7 in
   if w <? 1 then weeks_in_year (year t - 1)
   else if weeks_in_year (year t) <? w then 1
   else w)%Z.

(** *** scikit-learn *)

Definition finite (c : cell) : option Q :=
  match c with Num q => Some q | _ => None end.

(** The first [n] rows of an array given by its columns. *)
Fixpoint transpose (n : nat) (cols : list (list Q)) : list (list Q) :=
  match n with
  | O => []
  | S n' => map (fun c => hd 0%Q c) cols :: transpose n' (map (fun c => tl c) cols)
  end.

Definition check_array (X : DataFrame) : result (list (list Q)) :=
  match df_len X with
  | O => raise "ValueError" "Found array with 0 sample(s) while a minimum of 1 is required"
  | _ =>
      match df_columns X with
      | [] => raise "ValueError" "at least one array or dtype is required"
      | cols =>
          match mapM (fun c => mapM finite (s_values (snd c))) cols with
          | Some v => ret v
          | None => raise "ValueError" "Input X contains NaN or infinity"
          end
      end
  end.

Record scaler := { names_in : list string; mean_ : list Q; scale_ : list Q }.

Definition std (v : list Q) : Q :=
  let s := sqrt (Qmean (map (fun x => (x - Qmean v) * (x - Qmean v))%Q v)) in
  if Qzero s then 1%Q else s.

Definition apply_scaler (sc : scaler) (cols : list (list Q)) : list (list Q) :=
  map (fun p => map (fun x => ((x - fst (snd p)) / snd (snd p))%Q) (fst p))
      (combine cols (combine (mean_ sc) (scale_ sc))).

Definition fit_transform (_ : option scaler) (X : DataFrame)
  : result (option scaler * ndarray) :=
  cols <- check_array X ;;
  let sc := {| names_in := columns X; mean_ := map Qmean cols; scale_ := map std cols |} in
  ret (Some sc, transpose (df_len X) (apply_scaler sc cols)).

Definition transform (o : option scaler) (X : DataFrame) : result ndarray :=
  match o with
  | None => raise "NotFittedError" "This StandardScaler instance is not fitted yet"
  | Some sc =>
      cols <- check_array X ;;
      if negb (Nat.eqb (length cols) (length (names_in sc)))
      then raise "ValueError" "X has a different number of features than StandardScaler is expecting"
      else if negb (forallb (fun p => String.eqb (fst p) (snd p))
                            (combine (columns X) (names_in sc)))
      then raise "ValueError" "The feature names should match those that were passed during fit"
      else ret (transpose (df_len X) (apply_scaler sc cols))
  end.

Record forest := { n_features_in : nat; leaf : Q }.

Definition fit (_ : option forest) (X : ndarray) (y : Series) : result (option forest) :=
  match X with
  | [] => raise "ValueError" "Found array with 0 sample(s) while a minimum of 1 is required"
  | row :: _ =>
      match mapM finite (s_values y) with
      | None => raise "ValueError" "Input y contains NaN"
      | Some v =>
          if Nat.eqb (length v) (length X)
          then ret (Some {| n_features_in := length row; leaf := Qred (Qmean v) |})
          else raise "ValueError" "Found input variables with inconsistent numbers of samples"
      end
  end.

Definition forest_predict (o : option forest) (X : ndarray) : result (list Q) :=
  match o with
  | None => raise "NotFittedError" "This RandomForestRegressor instance is not fitted yet"
  | Some f =>
      match X with
      | [] => raise "ValueError" "Found array with 0 sample(s) while a minimum of 1 is required"
      | row :: _ =>
          if Nat.eqb (length row) (n_features_in f)
          then ret (map (fun _ => leaf f) X)
          else raise "ValueError" "X has a different number of features than RandomForestRegressor is expecting"
      end
  end.

Definition metric (f : Q -> Q) (y_true : Series) (y_pred : list Q) : result Q :=
  match mapM finite (s_values y_true) with
  | None => raise "ValueError" "Input contains NaN"
  | Some [] => raise "ValueError" "Found array with 0 sample(s) while a minimum of 1 is required"
  | Some v =>
      if Nat.eqb (length v) (length y_pred)
      then ret (Qred (Qmean (map (fun p => f (fst p - snd p)%Q) (combine v y_pred))))
      else raise "ValueError" "Found input variables with inconsistent numbers of samples"
  end.

(** *** Prophet *)

Record prophet := { level : Q; spread : Q }.

Definition prophet_fit (_ : option prophet) (df : DataFrame) : result (option prophet) :=
  y <- get_col df "y" ;;
  match omap finite (s_values y) with
  | [] | [_] => raise "ValueError" "Dataframe has less than 2 non-NaN rows."
  | x :: v =>
      let m := Qred (Qmean (x :: v)) in
      ret (Some {| level := m;
                   spread := Qred (Qmaxl 0 (map (fun x => Qabs (x - m)) (x :: v))) |})
  end.

Definition prophet_predict (o : option prophet) (future : DataFrame)
  : result (list forecast_row) :=
  match o with
  | None => raise "Exception" "Model has not been fit."
  | Some p =>
      d <- get_col future "ds" ;;
      ret (omap (fun c => match c with
                          | Stamp t => Some {| ds := t; yhat := level p;
                                               yhat_lower := level p - spread p;
                                               yhat_upper := level p + spread p |}
                          | _ => None
                          end) (s_values d))
  end.

End Ref.

Definition RefLibs (prophet_available : bool) : Libs :=
  {| np_pi := Ref.pi;
     np_sin := Ref.sin;
     np_cos := Ref.cos;
     np_sqrt := Ref.sqrt;
     dt_int := int32;
     dt_year := Ref.year;
     dt_month := Ref.month;
     dt_day := Ref.day;
     dt_weekday := Ref.weekday;
     dt_dayofyear := Ref.dayofyear;
     dt_week := Ref.week;
     dt_quarter := Ref.quarter;
     scaler_t := option Ref.scaler;
     StandardScaler := None;
     fit_transform := Ref.fit_transform;
     transform := Ref.transform;
     forest_t := option Ref.forest;
     RandomForestRegressor := None;
     fit := Ref.fit;
     forest_predict := Ref.forest_predict;
     mean_absolute_error := Ref.metric Qabs;
     mean_squared_error := Ref.metric (fun x => x * x)%Q;
     PROPHET_AVAILABLE := prophet_available;
     prophet_t := option Ref.prophet;
     Prophet := None;
     prophet_fit := Ref.prophet_fit;
     prophet_predict := Ref.prophet_predict |}.

(** ** Vocabulary of the properties *)

Module FS := ForecastingService.
Module RFM := RandomForestForecastingModel.
Module PFM := ProphetForecastingModel.
Module Base := RateForecastingModel.

(** What [train_models] reports for a variant: its metrics, or [None] when
    its training raised. *)
Definition reported {A} (r : result A) : option A :=
  match r with
  | inl _ => None
  | inr m => Some m
  end.

Definition reported_opt {A} (r : result (option A)) : option A :=
  match r with
  | inl _ => None
  | inr m => m
  end.

(** The directory of saved models after the Random Forest step of
    [train_models]: written only when the training returned. *)
Definition saved_after {L} (rf_run : Base.t L * result ModelMetrics) (path : string)
           (fs : gmap string (Base.model_data L)) : gmap string (Base.model_data L) :=
  match snd rf_run with
  | inl _ => fs
  | inr _ => Base.save_model L path (fst rf_run) fs
  end.

(** A forecast point built from a row of Prophet's forecast. *)
Definition of_row (tag : string) (row : forecast_row) : ForecastResult :=
  {| date := ds row;
     predicted_rate := yhat row;
     confidence_lower := yhat_lower row;
     confidence_upper := yhat_upper row;
     model_name := tag |}.


(** The observations [get_market_insights] compares the target with: those
    of the other hotels of its location, scraped in the last thirty days. *)
Definition competitor_observations (db : Database) (utcnow : Z) (hotel_id : Z)
  : list (RateData.t * Hotel.t) :=
  match List.find (fun h => (Hotel.id h =? hotel_id)%Z) (hotels db) with
  | None => []
  | Some hotel =>
      List.filter (fun p => String.eqb (Hotel.location (snd p)) (Hotel.location hotel)
                            && (utcnow - days 30 <=? RateData.scraped_at (fst p))%Z
                            && negb (RateData.hotel_id (fst p) =? hotel_id)%Z)
                  (joined db)
  end.

(** The columns [extract_date_features] writes besides the date column, and
    those [add_competitive_features] writes. *)
Definition date_features : list string :=
  ["year"; "month"; "day"; "weekday"; "is_weekend"; "day_of_year"; "week_of_year";
   "quarter"; "sin_month"; "cos_month"; "sin_weekday"; "cos_weekday"].

Definition competitive_features : list string :=
  ["rate_rank"; "rate_percentile"; "competitor_avg_rate"; "rate_vs_avg"; "rate_vs_avg_pct"].

(** A series after [sort_values] with the key column [k]. *)
Definition sorted_by (k s : Series) : Series :=
  {| s_dtype := s_dtype s; s_values := reorder (s_values k) (s_values s) |}.

Definition is_stamp (c : cell) : Prop := exists t, c = Stamp t.

(** Keys in sorting order. *)
Definition key_le (a b : cell) : Prop := key_leb a b = true.

(** The observations of a hotel scraped in the last [days_back] days. *)
Definition observations (db : Database) (utcnow : Z) (hotel_id : Z) (days_back : Z)
  : list RateData.t :=
  List.filter (fun r => (RateData.hotel_id r =? hotel_id)%Z
                        && (utcnow - days days_back <=? RateData.scraped_at r)%Z)
              (rate_data db).

Definition defined (c : cell) : Prop := c <> NaN.

(** [datetime.min] and [datetime.max], in seconds.  [forecast_rates] builds
    its future dates before any [try]; past [datetime.max] that raises
    [OverflowError], which the unbounded dates of this development do not
    show, so what is said of a returning forecast is said for dates in
    range. *)
Definition datetime_min : Z := -62135596800.
Definition datetime_max : Z := 253402300799.

Definition dates_in_range (now days_ahead : Z) : Prop :=
  (datetime_min <= now)%Z /\ (now + days (Z.max 0 days_ahead) <= datetime_max)%Z.

(** The column [rolling(window=w, min_periods=1)] computes from the values
    of a numeric column with the aggregate [agg]. *)
Definition rolled (w : nat) (agg : list Q -> cell) (vals : list cell) : Series :=
  {| s_dtype := float64; s_values := imap (fun i _ => agg (window w i vals)) vals |}.

(** Two numbers in increasing order. *)
Definition ordered_cells (lo hi : cell) : Prop :=
  exists a b, lo = Num a /\ hi = Num b /\ (a <= b)%Q.

(** ** Concrete inputs

    Two hotels of one market and a few stores of rate observations, all
    scraped at [t0]; the clock reads [t0 + 100] seconds in every run. *)

Module Sample.

Definition t0 : Z := 1700000000.
Definition clock : Z := (t0 + 100)%Z.

Definition hotel (i : Z) (n : string) (own : bool) : Hotel.t :=
  {| Hotel.id := i; Hotel.name := n; Hotel.location := "Lisbon";
     Hotel.category := "4 stars"; Hotel.is_own := own |}.

(** The observation number [i]: hotel [h] costs [r] on day [d]. *)
Definition obs (i h d : Z) (r : Q) : RateData.t :=
  {| RateData.id := i; RateData.hotel_id := h; RateData.date := (t0 + days d)%Z;
     RateData.source := "booking.com"; RateData.room_type := "double";
     RateData.rate := r; RateData.availability := true; RateData.scraped_at := t0 |}.

Definition market : list Hotel.t := [hotel 1 "Own" true; hotel 2 "Rival" false].

(** Three days of rates of hotel 1, stored out of order. *)
Definition three_days : Database :=
  {| hotels := market;
     rate_data := [obs 1 1 2 120; obs 2 1 0 100; obs 3 1 1 110] |}.

(** The target at 100 and one competitor at 120. *)
Definition two_hotels : Database :=
  {| hotels := market;
     rate_data := [obs 1 1 0 100; obs 2 2 0 120] |}.

Definition libs : Libs := RefLibs true.

Definition service : FS.t libs := FS.init libs ∅.

(** The frame of the three days, the model trained on it, and the same
    frame with one more numeric column. *)
Definition frame : DataFrame := FS.get_hotel_data three_days clock 1 365.

Definition trained : Base.t libs := fst (RFM.train libs frame (RFM.init libs)).

(** Three dated rates given out of order; in the order of the dates they
    read 100, 110, 120. *)
Definition dates : Series :=
  {| s_dtype := datetime64;
     s_values := [Stamp (t0 + days 2); Stamp t0; Stamp (t0 + days 1)] |}.

Definition rates : Series :=
  {| s_dtype := float64; s_values := [Num 120; Num 100; Num 110] |}.

Definition unsorted_frame : DataFrame :=
  {| df_len := 3; df_columns := [("date", dates); ("rate", rates)] |}.

Definition wider_frame : DataFrame :=
  set_col frame "occupancy" {| s_dtype := float64; s_values := [Num 1; Num 1; Num 1] |}.

(** The same dates with the rate of the earliest day missing, and the
    dates alone. *)
Definition gapped_rates : Series :=
  {| s_dtype := float64; s_values := [Num 120; NaN; Num 110] |}.

Definition gapped_frame : DataFrame :=
  {| df_len := 3; df_columns := [("date", dates); ("rate", gapped_rates)] |}.

Definition dates_only : DataFrame :=
  {| df_len := 3; df_columns := [("date", dates)] |}.

(** What [prepare_data] makes of the frame of the three days. *)
Definition features : DataFrame :=
  match snd (Base.prepare_data libs frame (RFM.init libs)) with
  | inr p => fst p
  | inl _ => empty_frame
  end.

Definition target : option Series :=
  match snd (Base.prepare_data libs frame (RFM.init libs)) with
  | inr p => snd p
  | inl _ => None
  end.

Definition history_dates : Series :=
  match get_col frame "date" with
  | inr s => s
  | inl _ => {| s_dtype := datetime64; s_values := [] |}
  end.

Definition lag_column : Series :=
  match get_col features "rate_lag_1" with
  | inr s => s
  | inl _ => {| s_dtype := float64; s_values := [] |}
  end.

(** Two test rows, the first of them a night given away, with their
    predictions and the error measures. *)
Definition free_night : Series :=
  {| s_dtype := float64; s_values := [Num 0; Num 100] |}.

Definition free_night_metrics : ModelMetrics :=
  match RFM._calculate_metrics libs free_night [50; 90]%Q with
  | inr m => m
  | inl _ => {| mae := 0; mse := 0; rmse := 0; mape := NaN |}
  end.

(** A service that finds the trained model saved for hotel 1. *)
Definition artifact : Base.model_data libs :=
  {| Base.data_model := Base.model trained;
     Base.data_scaler := Base.scaler trained;
     Base.data_feature_columns := Base.feature_columns trained;
     Base.data_model_name := Base.name trained |}.

Definition stocked : FS.t libs :=
  FS.init libs (Base.save_model libs "models/rf_hotel_1.joblib" trained ∅).


(** An installation without Prophet. *)
Definition plain_libs : Libs := RefLibs false.

Definition plain_service : FS.t plain_libs := FS.init plain_libs ∅.

End Sample.

(** * Properties *)

(** ** Training all models of a hotel *)

Section TrainModels.
Context (L : Libs).

(** The complete behaviour of [train_models] on a hotel with data: it never
    raises, each variant is trained from its own state on the same frame, and
    each outcome is reported under the variant's key. *)
Lemma train_models_spec db utcnow hotel_id (self : FS.t L) :
  let df := FS.get_hotel_data db utcnow hotel_id 365 in
  let rf_run := RFM.train L df (FS.random_forest self) in
  let pm_run := PFM.train L df (FS.prophet self) in
  df_empty df = false ->
  FS.train_models L db utcnow hotel_id self =
    ({| FS.random_forest := fst rf_run;
        FS.prophet := fst pm_run;
        FS.model_dir := FS.model_dir self;
        FS.disk := saved_after rf_run (FS.model_path L self hotel_id) (FS.disk self) |},
     inr (<["prophet" := reported_opt (snd pm_run)]>
            (<["random_forest" := reported (snd rf_run)]> ∅))).
Proof.
  intros df rf_run pm_run Hne.
  unfold FS.train_models. fold df. rewrite Hne.
  unfold obind, try_except, FS.on_random_forest, FS.on_prophet, this, assign, oret.
  fold rf_run. unfold saved_after.
  destruct rf_run as [rf1 [e1 | m1]]; simpl; fold pm_run;
    destruct pm_run as [pm1 [e2 | m2]]; simpl; reflexivity.
Qed.

Lemma train_models_no_data db utcnow hotel_id (self : FS.t L) :
  df_empty (FS.get_hotel_data db utcnow hotel_id 365) = true ->
  FS.train_models L db utcnow hotel_id self = (self, inr ∅).
Proof.
  intros He. unfold FS.train_models. rewrite He. reflexivity.
Qed.

End TrainModels.

(** ** Forecasting *)

Section Forecast.
Context (L : Libs).

(** The forecasts are the Random Forest points, each built by [rf_forecast]
    from a date and a prediction, followed by the Prophet points, each a row
    of the library's forecast under the Prophet object's name.  The call
    itself never raises. *)
Lemma forecast_rates_split db utcnow now hotel_id days_ahead (self : FS.t L) :
  exists rf pr,
    snd (FS.forecast_rates L db utcnow now hotel_id days_ahead self) = inr (rf ++ pr)%list
    /\ Forall (fun p => exists d q, p = FS.rf_forecast d q) rf
    /\ (pr = [] \/
        exists m future rows,
          prophet_predict L m future = inr rows
          /\ pr = map (of_row (PFM.name (FS.prophet self))) rows).
Proof.
  unfold FS.forecast_rates.
  set (future_dates := map _ (seqZ 1 days_ahead)).
  unfold obind at 1.
  match goal with |- context [try_except ?b ?h self] => destruct (try_except b h self) as [s1 r1] eqn:E1 end.
  assert (H1 : FS.prophet s1 = FS.prophet self /\
               exists rf, r1 = inr rf /\ Forall (fun p => exists d q, p = FS.rf_forecast d q) rf).
  { revert E1. unfold try_except, obind, this, oret, lift, FS.on_random_forest.
    destruct (decide _) as [Hs | Hs]; simpl.
    - destruct (Base.load_model L (FS.disk self) (FS.model_path L self hotel_id) (FS.random_forest self))
        as [m1 [e | []]]; simpl.
      + intros [= <- <-]. split; [reflexivity | exists []; split; [reflexivity | constructor]].
      + destruct (negb (df_empty _)); simpl.
        * destruct (sort_values _ "date") as [e | cdf]; simpl.
          { intros [= <- <-]. split; [reflexivity | exists []; split; [reflexivity | constructor]]. }
          destruct (RFM.predict L cdf m1) as [m2 [e | preds]]; simpl.
          { intros [= <- <-]. split; [reflexivity | exists []; split; [reflexivity | constructor]]. }
          intros [= <- <-]. split; [reflexivity |].
          eexists; split; [reflexivity |].
          apply Forall_map, Forall_forall. intros [d q] _. exists d, q. reflexivity.
        * intros [= <- <-]. split; [reflexivity | exists []; split; [reflexivity | constructor]].
    - intros [= <- <-]. split; [reflexivity | exists []; split; [reflexivity | constructor]]. }
  destruct H1 as [Hp (rf & -> & Hrf)].
  exists rf.
  unfold obind, try_except, this, oret, FS.on_prophet. simpl.
  destruct (PROPHET_AVAILABLE L && PFM.is_trained (FS.prophet s1)) eqn:Ha; simpl.
  - unfold PFM.predict, obind, this, oraise, lift, oret. rewrite Hp in *.
    apply andb_true_iff in Ha as [Ha1 Ha2]. rewrite Ha1, Ha2. simpl.
    destruct (PFM.model (FS.prophet self)) as [m |]; simpl.
    + destruct (prophet_predict L m _) as [e | rows] eqn:Er; simpl.
      * exists []. rewrite app_nil_r. auto.
      * eexists. split; [reflexivity |]. split; [assumption |].
        right. exists m. eexists. exists rows. split; [exact Er | reflexivity].
    + exists []. rewrite app_nil_r. auto.
  - exists []. rewrite app_nil_r. auto.
Qed.

End Forecast.

Section ForecastBand.
Context (L : Libs).

(** C10. Every forecast point of the Random Forest variant carries the fixed
    band of ten percent around its prediction: the lower bound is 0.9 times
    the predicted rate and the upper bound 1.1 times it. *)
Theorem random_forest_band db utcnow now hotel_id days_ahead (self : FS.t L) :
  exists rf pr,
    snd (FS.forecast_rates L db utcnow now hotel_id days_ahead self) = inr (rf ++ pr)%list
    /\ Forall (fun p => model_name p = "Random Forest"
                        /\ confidence_lower p == (9 # 10) * predicted_rate p
                        /\ confidence_upper p == (11 # 10) * predicted_rate p) rf
    /\ Forall (fun p => model_name p = PFM.name (FS.prophet self)) pr.
Proof.
  destruct (forecast_rates_split L db utcnow now hotel_id days_ahead self)
    as (rf & pr & Hrun & Hrf & Hpr).
  exists rf, pr. split; [exact Hrun |]. split.
  - eapply Forall_impl; [exact Hrf |].
    intros p (d & q & ->). simpl. repeat split; lra.
  - destruct Hpr as [-> | (m & future & rows & _ & ->)]; [constructor |].
    apply Forall_map, Forall_forall. intros row _. reflexivity.
Qed.

End ForecastBand.

(** ** Training: what is reported and what is persisted *)

Section TrainModelsClaims.
Context (L : Libs).

(** Prophet's [train] returns no metrics, whether it trains, is unavailable
    or raises. *)
Lemma prophet_train_reports_none df (self : PFM.t L) :
  reported_opt (snd (PFM.train L df self)) = None.
Proof.
  unfold PFM.train. destruct (PROPHET_AVAILABLE L); simpl; [| reflexivity].
  unfold obind, lift, assign, oret.
  repeat match goal with
         | |- context [match ?r with inl _ => _ | inr _ => _ end] =>
             destruct r; simpl; try reflexivity
         end.
Qed.

(** C9. [train_models] never propagates an exception of a variant: it
    returns the map of results, in which a variant whose training raised has
    [None]; and whatever happened to the Random Forest, Prophet is trained
    from its own state on the same data (and the other way round). *)
Theorem train_models_isolates_variants db utcnow hotel_id (self : FS.t L) :
  exists results,
    snd (FS.train_models L db utcnow hotel_id self) = inr results
    /\ (df_empty (FS.get_hotel_data db utcnow hotel_id 365) = false ->
        results !! "random_forest"
        = Some (reported (snd (RFM.train L (FS.get_hotel_data db utcnow hotel_id 365)
                                         (FS.random_forest self))))
        /\ results !! "prophet"
           = Some (reported_opt (snd (PFM.train L (FS.get_hotel_data db utcnow hotel_id 365)
                                                (FS.prophet self))))
        /\ FS.random_forest (fst (FS.train_models L db utcnow hotel_id self))
           = fst (RFM.train L (FS.get_hotel_data db utcnow hotel_id 365) (FS.random_forest self))
        /\ FS.prophet (fst (FS.train_models L db utcnow hotel_id self))
           = fst (PFM.train L (FS.get_hotel_data db utcnow hotel_id 365) (FS.prophet self))).
Proof.
  destruct (df_empty (FS.get_hotel_data db utcnow hotel_id 365)) eqn:He.
  - rewrite train_models_no_data by exact He. exists ∅. split; [reflexivity | discriminate].
  - rewrite train_models_spec by exact He. eexists. split; [reflexivity |].
    intros _. simpl. split; [| split; [| split; reflexivity]].
    + rewrite lookup_insert_ne by discriminate. apply lookup_insert_eq.
    + apply lookup_insert_eq.
Qed.

(** C2, as amended. There is no minimum number of observations: for a hotel
    with data, the Random Forest entry is the metrics of [train] whenever it
    returns, and the artifact is then persisted; when any call inside [train]
    raises, the entry is [None] and nothing is written.  The Prophet entry
    is always [None]. *)
Theorem train_models_persists_when_trained db utcnow hotel_id (self : FS.t L) :
  df_empty (FS.get_hotel_data db utcnow hotel_id 365) = false ->
  exists results,
    snd (FS.train_models L db utcnow hotel_id self) = inr results
    /\ results !! "prophet" = Some None
    /\ match snd (RFM.train L (FS.get_hotel_data db utcnow hotel_id 365) (FS.random_forest self)) with
       | inr metrics =>
           results !! "random_forest" = Some (Some metrics)
           /\ FS.disk (fst (FS.train_models L db utcnow hotel_id self))
              = Base.save_model L (FS.model_path L self hotel_id)
                  (fst (RFM.train L (FS.get_hotel_data db utcnow hotel_id 365)
                                  (FS.random_forest self)))
                  (FS.disk self)
       | inl _ =>
           results !! "random_forest" = Some None
           /\ FS.disk (fst (FS.train_models L db utcnow hotel_id self)) = FS.disk self
       end.
Proof.
  intros He. rewrite train_models_spec by exact He.
  eexists. split; [reflexivity |]. split.
  - rewrite lookup_insert_eq, prophet_train_reports_none. reflexivity.
  - unfold saved_after. simpl.
    destruct (snd (RFM.train L _ _)) as [e | metrics]; simpl;
      (split; [rewrite lookup_insert_ne by discriminate; apply lookup_insert_eq | reflexivity]).
Qed.

End TrainModelsClaims.

(** C2, as stated, fails: with three observations the Random Forest trains
    on the first two rows, its metrics are reported, and the artifact of the
    hotel is written. *)
Lemma three_observations_counterexample :
  exists results metrics,
    snd (FS.train_models Sample.libs Sample.three_days Sample.clock 1 Sample.service)
    = inr results
    /\ df_len Sample.frame = 3%nat
    /\ results !! "random_forest" = Some (Some metrics)
    /\ is_Some (FS.disk (fst (FS.train_models Sample.libs Sample.three_days Sample.clock 1
                                              Sample.service))
                !! "models/rf_hotel_1.joblib").
Proof.
  assert (Ht : exists m, snd (RFM.train Sample.libs
                                (FS.get_hotel_data Sample.three_days Sample.clock 1 365)
                                (FS.random_forest Sample.service)) = inr m).
  { eexists. vm_compute. reflexivity. }
  destruct Ht as [m Hm].
  rewrite train_models_spec by reflexivity. cbn [fst snd FS.disk].
  unfold saved_after. rewrite Hm. cbn [reported].
  eexists. exists m. split; [reflexivity |]. split; [reflexivity |]. split.
  - rewrite lookup_insert_ne by discriminate. apply lookup_insert_eq.
  - unfold Base.save_model.
    replace (FS.model_path Sample.libs Sample.service 1) with "models/rf_hotel_1.joblib"
      by (vm_compute; reflexivity).
    rewrite lookup_insert_eq. eexists. reflexivity.
Qed.

Lemma train_models_persists_witness :
  df_empty (FS.get_hotel_data Sample.three_days Sample.clock 1 365) = false
  /\ exists results,
      snd (FS.train_models Sample.libs Sample.three_days Sample.clock 1 Sample.service)
      = inr results
      /\ results !! "prophet" = Some None
      /\ match snd (RFM.train Sample.libs (FS.get_hotel_data Sample.three_days Sample.clock 1 365)
                              (FS.random_forest Sample.service)) with
         | inr metrics =>
             results !! "random_forest" = Some (Some metrics)
             /\ FS.disk (fst (FS.train_models Sample.libs Sample.three_days Sample.clock 1
                                              Sample.service))
                = Base.save_model Sample.libs (FS.model_path Sample.libs Sample.service 1)
                    (fst (RFM.train Sample.libs
                                    (FS.get_hotel_data Sample.three_days Sample.clock 1 365)
                                    (FS.random_forest Sample.service)))
                    (FS.disk Sample.service)
         | inl _ =>
             results !! "random_forest" = Some None
             /\ FS.disk (fst (FS.train_models Sample.libs Sample.three_days Sample.clock 1
                                              Sample.service)) = FS.disk Sample.service
         end.
Proof.
  split; [reflexivity |].
  apply (train_models_persists_when_trained Sample.libs Sample.three_days Sample.clock 1
           Sample.service).
  reflexivity.
Defined.

(** ** Persistence of a trained model *)

Section SaveLoad.
Context (L : Libs).

(** C5. Loading what [save_model] wrote gives back the fitted regressor, the
    fitted scaler, the feature schema and the name, whatever the receiving
    object held; a trained model is restored whole, so it and the loaded one
    predict the same on every input. *)
Theorem save_load_round_trip (self other : Base.t L) filepath fs df :
  Base.is_trained self = true ->
  Base.load_model L (Base.save_model L filepath self fs) filepath other = (self, inr tt)
  /\ RFM.predict L df (fst (Base.load_model L (Base.save_model L filepath self fs)
                                            filepath other))
     = RFM.predict L df self.
Proof.
  intros Ht.
  assert (Hload : Base.load_model L (Base.save_model L filepath self fs) filepath other
                  = (self, inr tt)).
  { unfold Base.load_model, Base.save_model. rewrite lookup_insert_eq.
    unfold assign. simpl. destruct self; simpl in *. subst. reflexivity. }
  rewrite Hload. split; reflexivity.
Qed.

End SaveLoad.

Lemma save_load_round_trip_witness :
  Base.is_trained Sample.trained = true
  /\ (Base.load_model Sample.libs
        (Base.save_model Sample.libs "models/rf_hotel_1.joblib" Sample.trained ∅)
        "models/rf_hotel_1.joblib" (RFM.init Sample.libs) = (Sample.trained, inr tt)
      /\ RFM.predict Sample.libs Sample.frame
           (fst (Base.load_model Sample.libs
                   (Base.save_model Sample.libs "models/rf_hotel_1.joblib" Sample.trained ∅)
                   "models/rf_hotel_1.joblib" (RFM.init Sample.libs)))
         = RFM.predict Sample.libs Sample.frame Sample.trained).
Proof.
  split; [vm_compute; reflexivity |].
  apply (save_load_round_trip Sample.libs Sample.trained (RFM.init Sample.libs)
           "models/rf_hotel_1.joblib" ∅ Sample.frame).
  vm_compute. reflexivity.
Defined.

(** ** Market insights *)

Lemma filter_and_nil {A} (f g : A -> bool) (l : list A) :
  List.filter (fun x => f x && g x) l = [] ->
  List.filter g (List.filter f l) = [].
Proof.
  induction l as [| x l IH]; simpl; [reflexivity |].
  destruct (f x); simpl.
  - destruct (g x); [discriminate | exact IH].
  - exact IH.
Qed.

Lemma filter_map_comm {A B} (f : A -> B) (g : B -> bool) (l : list A) :
  List.filter g (map f l) = map f (List.filter (fun x => g (f x)) l).
Proof.
  induction l as [| x l IH]; simpl; [reflexivity |].
  destruct (g (f x)); simpl; rewrite IH; reflexivity.
Qed.

(** C6. When the market holds no observation of a competitor in the window,
    [get_market_insights] returns the empty result, and it does not raise. *)
Theorem market_insights_without_competitors db utcnow hotel_id :
  competitor_observations db utcnow hotel_id = [] ->
  FS.get_market_insights db utcnow hotel_id = ret None.
Proof.
  unfold competitor_observations, FS.get_market_insights, FS.market_insights_body.
  destruct (find _ (hotels db)) as [hotel |]; [| reflexivity].
  intros Hnone.
  match goal with
  | |- context [match ?l with [] => _ | _ :: _ => _ end] => destruct l as [| p rest] eqn:Hall
  end; [reflexivity |].
  rewrite <- Hall. clear Hall.
  rewrite !filter_map_comm. simpl.
  rewrite (filter_and_nil _ (fun p => negb (RateData.hotel_id (fst p) =? hotel_id)%Z)) by exact Hnone.
  simpl. rewrite andb_false_r. reflexivity.
Qed.

Lemma market_insights_without_competitors_witness :
  competitor_observations Sample.three_days Sample.clock 1 = []
  /\ FS.get_market_insights Sample.three_days Sample.clock 1 = ret None.
Proof.
  split; [reflexivity |].
  apply (market_insights_without_competitors Sample.three_days Sample.clock 1).
  reflexivity.
Defined.

(** The percentile entry of the insights always raises: a boolean series of
    one element converts to a float, which has no [mean]; any other series
    does not convert. *)
Lemma price_percentile_raises (s : list bool) :
  (f <- FS.float_of_series s ;; FS.float_mean f) = raise "AttributeError" "'float' object has no attribute 'mean'"
  \/ (f <- FS.float_of_series s ;; FS.float_mean f) = raise "TypeError" "cannot convert the series to <class 'float'>".
Proof.
  destruct s as [| b [| b' s]]; simpl; auto.
Qed.

(** X20. [get_market_insights] never builds the insights: for every store,
    clock reading and hotel it returns the empty result, because the
    percentile entry always raises and the error is swallowed. *)
Lemma market_insights_always_empty db utcnow hotel_id :
  FS.get_market_insights db utcnow hotel_id = ret None.
Proof.
  unfold FS.get_market_insights, FS.market_insights_body.
  destruct (find _ (hotels db)) as [hotel |]; [| reflexivity].
  match goal with
  | |- context [match ?l with [] => _ | _ :: _ => _ end] => destruct l as [| p rest]
  end; [reflexivity |].
  match goal with
  | |- context [if ?c then _ else _] => destruct c
  end; [| reflexivity].
  match goal with
  | |- context [FS.float_div ?a ?b] => destruct (FS.float_div a b) as [e | q]
  end; [reflexivity |].
  simpl.
  match goal with
  | |- context [FS.float_of_series ?s] =>
      destruct (price_percentile_raises s) as [H | H]; unfold bind in H
  end.
  - unfold bind at 1.
    match goal with
    | |- context [FS.float_of_series ?s] => destruct (FS.float_of_series s); [reflexivity |]
    end.
    reflexivity.
  - unfold bind at 1.
    match goal with
    | |- context [FS.float_of_series ?s] => destruct (FS.float_of_series s); [reflexivity |]
    end.
    reflexivity.
Qed.

(** The first recommendation follows the thresholds of ten percent around
    the competitors' average. *)
Lemma recommendation_thresholds target x rest :
  hd_error (FS._generate_recommendations target (x :: rest))
  = Some (if Qltb (Qmean (x :: rest) * (11 # 10)) target
          then "Consider reducing rates to be more competitive"
          else if Qltb target (Qmean (x :: rest) * (9 # 10))
          then "Opportunity to increase rates while remaining competitive"
          else "Current pricing is well-positioned vs competitors").
Proof.
  unfold FS._generate_recommendations.
  destruct (Qltb (Qmean (x :: rest) * (11 # 10)) target); [reflexivity |].
  destruct (Qltb target (Qmean (x :: rest) * (9 # 10))); reflexivity.
Qed.

(** C7 on the code: for the target at 100 and the competitor at 120 the
    ratio would be 5/6 and the advice to raise rates, as the claim says, but
    the entry computed between them raises, the exception is swallowed, and
    the call returns the empty result. *)
Theorem market_insights_two_hotels_empty :
  FS.float_div 100 120 = ret (100 / 120)%Q
  /\ (100 / 120 == 5 # 6)%Q
  /\ FS._generate_recommendations 100 [120%Q]
     = ["Opportunity to increase rates while remaining competitive";
        "You're pricing below all competitors - potential revenue opportunity"]
  /\ raises "AttributeError" (FS.market_insights_body Sample.two_hotels Sample.clock 1)
  /\ FS.get_market_insights Sample.two_hotels Sample.clock 1 = ret None.
Proof.
  split; [reflexivity |]. split; [reflexivity |]. split; [reflexivity |].
  split; [eexists; vm_compute; reflexivity | reflexivity].
Qed.

(** ** Prediction and the recorded schema *)

Lemma has_col_get df n : has_col df n = true -> exists s, get_col df n = ret s.
Proof.
  unfold has_col, get_col. destruct (assoc n (df_columns df)) as [s |]; [eauto | discriminate].
Qed.

(** The frame selected from [df] has the asked columns, with the series
    [df] has under their names. *)
Lemma select_get df cols X :
  select df cols = ret X ->
  df_len X = df_len df /\ columns X = cols
  /\ forall n, In n cols -> get_col X n = get_col df n.
Proof.
  revert X. induction cols as [| c cols IH]; simpl; intros X.
  - intros [= <-]. simpl. repeat split. intros n [].
  - unfold bind. destruct (get_col df c) as [e | s] eqn:Hc; [discriminate |].
    destruct (select df cols) as [e | rest] eqn:Hrest; [discriminate |].
    intros [= <-]. destruct (IH rest eq_refl) as (Hlen & Hcols & Hget).
    unfold columns in *. simpl. repeat split; [exact Hlen | f_equal; exact Hcols |].
    intros n Hn. unfold get_col at 1. simpl.
    destruct (String.eqb n c) eqn:Hnc.
    + apply String.eqb_eq in Hnc. subst n. rewrite Hc. reflexivity.
    + destruct Hn as [-> | Hn]; [rewrite String.eqb_refl in Hnc; discriminate |].
      exact (Hget n Hn).
Qed.

Lemma select_ext df df' cols :
  df_len df' = df_len df ->
  (forall n, In n cols -> get_col df' n = get_col df n) ->
  select df' cols = select df cols.
Proof.
  intros Hlen. induction cols as [| c cols IH]; simpl; intros Hget.
  - rewrite Hlen. reflexivity.
  - rewrite (Hget c) by (left; reflexivity).
    rewrite IH by (intros n Hn; apply Hget; right; exact Hn). reflexivity.
Qed.

(** Selecting from a selection its own columns changes nothing. *)
Lemma select_idem df cols X : select df cols = ret X -> select X cols = ret X.
Proof.
  intros HX. destruct (select_get df cols X HX) as (Hlen & _ & Hget).
  rewrite (select_ext df X cols Hlen Hget). exact HX.
Qed.

Section Predict.
Context (L : Libs).

(** The outcome of [predict], call by call: the scaler is given the features
    derived from the input, all of them and in their order. *)
Lemma predict_run (self : Base.t L) df :
  snd (RFM.predict L df self)
  = if Base.is_trained self
    then (p <- Base.prepare_frame L df ;;
          X <- select (fst p) (snd p) ;;
          X_scaled <- transform L (Base.scaler self) X ;;
          forest_predict L (Base.model self) X_scaled)
    else raise "ValueError" "Model must be trained before making predictions".
Proof.
  unfold RFM.predict, obind, this. simpl.
  destruct (Base.is_trained self); simpl; [| reflexivity].
  unfold Base.prepare_data, obind, lift, assign, oret, this, bind. simpl.
  destruct (Base.prepare_frame L df) as [e | [F cols]]; simpl; [reflexivity |].
  destruct (select F cols) as [e | X] eqn:HX; simpl; [reflexivity |].
  match goal with
  | |- context [if has_col F "rate" then ?a else ?b] =>
      assert (Hy : exists y, (if has_col F "rate" then a else b) = inr y)
  end.
  { destruct (has_col F "rate") eqn:Hr; [| eexists; reflexivity].
    destruct (has_col_get F "rate" Hr) as [s Hs]. rewrite Hs. eexists. reflexivity. }
  destruct Hy as [y ->]. simpl.
  rewrite (select_idem F cols X HX). simpl.
  destruct (transform L (Base.scaler self) X) as [e | Xs]; simpl; [reflexivity |].
  destruct (forest_predict L (Base.model self) Xs); reflexivity.
Qed.

End Predict.

(** C3, as stated, fails: the model trained on the frame of three days is
    given a frame with one more feature; the recorded feature names differ
    from those of the input, the error is the scaler's [ValueError], and the
    recorded names are replaced by those of the input. *)
Lemma predict_schema_counterexample :
  Base.is_trained Sample.trained = true
  /\ (exists p, Base.prepare_frame Sample.libs Sample.wider_frame = ret p
                /\ In "occupancy" (snd p)
                /\ ~ In "occupancy" (Base.feature_columns Sample.trained))
  /\ raises "ValueError" (snd (RFM.predict Sample.libs Sample.wider_frame Sample.trained))
  /\ ~ raises "SchemaMismatchError"
       (snd (RFM.predict Sample.libs Sample.wider_frame Sample.trained))
  /\ In "occupancy"
        (Base.feature_columns (fst (RFM.predict Sample.libs Sample.wider_frame Sample.trained))).
Proof.
  split; [vm_compute; reflexivity |].
  split.
  { eexists. split; [vm_compute; reflexivity |]. split.
    - left. reflexivity.
    - vm_compute. intros H.
      repeat (destruct H as [H | H]; [discriminate H |]). exact H. }
  assert (Hrun : snd (RFM.predict Sample.libs Sample.wider_frame Sample.trained)
                 = raise "ValueError"
                     "X has a different number of features than StandardScaler is expecting").
  { vm_compute. reflexivity. }
  rewrite Hrun. split; [eexists; reflexivity |]. split.
  - intros [msg H]. discriminate H.
  - vm_compute. left. reflexivity.
Qed.

(** ** Sorting *)

Section SortFacts.
Context {K A : Type} (leb : K -> K -> bool).
Context (leb_total : forall a b, leb a b = true \/ leb b a = true).
Context (leb_trans : forall a b c, leb a b = true -> leb b c = true -> leb a c = true).

Lemma insert_by_length k (x : A) l : length (insert_by leb k x l) = S (length l).
Proof.
  induction l as [| [k' y] l IH]; simpl; [reflexivity |].
  destruct (leb k k'); simpl; [reflexivity | rewrite IH; reflexivity].
Qed.

Lemma isort_length (l : list (K * A)) : length (isort leb l) = length l.
Proof.
  induction l as [| [k x] l IH]; simpl; [reflexivity |].
  rewrite insert_by_length, IH. reflexivity.
Qed.

Lemma insert_by_Forall (P : K * A -> Prop) k x l :
  P (k, x) -> Forall P l -> Forall P (insert_by leb k x l).
Proof.
  intros Hx. induction 1 as [| [k' y] l Hy Hl IH]; simpl.
  - repeat constructor. exact Hx.
  - destruct (leb k k'); repeat constructor; assumption.
Qed.

Lemma isort_Forall (P : K * A -> Prop) l : Forall P l -> Forall P (isort leb l).
Proof.
  induction 1 as [| [k x] l Hx Hl IH]; simpl; [constructor |].
  apply insert_by_Forall; assumption.
Qed.

Lemma insert_by_sorted k (x : A) l :
  StronglySorted (fun a b => leb a b = true) (map fst l) ->
  StronglySorted (fun a b => leb a b = true) (map fst (insert_by leb k x l)).
Proof using leb_total leb_trans.
  induction l as [| [k' y] l IH]; simpl; intros Hs.
  - repeat constructor.
  - apply StronglySorted_inv in Hs as [Hs Hall].
    destruct (leb k k') eqn:Hk; simpl.
    + constructor; [constructor; assumption |].
      constructor; [exact Hk |].
      eapply Forall_impl; [exact Hall |]. intros b Hb.
      exact (leb_trans _ _ _ Hk Hb).
    + constructor; [apply IH; exact Hs |].
      apply (proj2 (Forall_map fst (fun b => leb k' b = true) _)).
      apply insert_by_Forall.
      * simpl. destruct (leb_total k k') as [H | H]; [congruence | exact H].
      * apply (proj1 (Forall_map fst (fun b => leb k' b = true) _)). exact Hall.
Qed.

Lemma isort_sorted (l : list (K * A)) :
  StronglySorted (fun a b => leb a b = true) (map fst (isort leb l)).
Proof using leb_total leb_trans.
  induction l as [| [k x] l IH]; simpl; [constructor |].
  apply insert_by_sorted. exact IH.
Qed.

(** A list already in order is left as it is. *)
Lemma isort_sorted_id (l : list (K * A)) :
  StronglySorted (fun a b => leb a b = true) (map fst l) -> isort leb l = l.
Proof.
  induction l as [| [k x] l IH]; simpl; intros Hs; [reflexivity |].
  apply StronglySorted_inv in Hs as [Hs Hall].
  rewrite (IH Hs). destruct l as [| [k' y] l]; simpl; [reflexivity |].
  simpl in Hall. apply Forall_cons in Hall as [Hk _]. rewrite Hk. reflexivity.
Qed.

End SortFacts.

Lemma key_leb_total a b : key_leb a b = true \/ key_leb b a = true.
Proof.
  destruct a, b; simpl; auto. destruct (Z.leb_spec t t0); [auto | right; apply Z.leb_le; lia].
Qed.

Lemma key_leb_trans a b c : key_leb a b = true -> key_leb b c = true -> key_leb a c = true.
Proof.
  destruct a, b, c; simpl; try congruence; auto.
  rewrite !Z.leb_le. lia.
Qed.

Lemma reorder_length keys vals :
  length (reorder keys vals) = Nat.min (length keys) (length vals).
Proof.
  unfold reorder. rewrite length_map, isort_length. apply length_combine.
Qed.

Lemma reorder_Forall (P : cell -> Prop) keys vals :
  Forall P vals -> Forall P (reorder keys vals).
Proof.
  intros Hv. unfold reorder. apply (proj2 (Forall_map snd P _)). apply isort_Forall.
  revert keys. induction Hv as [| v vals Hv Hvs IH]; intros [| k keys]; simpl;
    constructor; auto.
Qed.

(** The key column itself comes out in order. *)
Lemma reorder_keys_sorted keys : StronglySorted key_le (reorder keys keys).
Proof.
  unfold reorder.
  assert (Heq : Forall (fun p : cell * cell => fst p = snd p)
                       (isort key_leb (combine keys keys))).
  { apply isort_Forall. induction keys; simpl; constructor; auto. }
  assert (Hs := isort_sorted key_leb key_leb_total key_leb_trans (combine keys keys)).
  revert Heq Hs. generalize (isort key_leb (combine keys keys)). intros l Heq.
  replace (map snd l) with (map fst l); [exact (fun H => H) |].
  induction Heq as [| p l Hp Hl IH]; simpl; [reflexivity |].
  rewrite Hp, IH. reflexivity.
Qed.

Lemma map_fst_combine {X Y} (a : list X) (b : list Y) :
  length a = length b -> map fst (combine a b) = a.
Proof.
  revert b. induction a as [| x a IH]; intros [| y b]; simpl; try discriminate; [reflexivity |].
  intros [= H]. rewrite IH by exact H. reflexivity.
Qed.

Lemma map_snd_combine {X Y} (a : list X) (b : list Y) :
  length a = length b -> map snd (combine a b) = b.
Proof.
  revert b. induction a as [| x a IH]; intros [| y b]; simpl; try discriminate; [reflexivity |].
  intros [= H]. rewrite IH by exact H. reflexivity.
Qed.

(** Values whose keys are already in order stay where they are. *)
Lemma reorder_sorted_id keys vals :
  StronglySorted key_le keys -> length keys = length vals -> reorder keys vals = vals.
Proof.
  intros Hs Hlen. unfold reorder. rewrite isort_sorted_id.
  - apply map_snd_combine. exact Hlen.
  - rewrite map_fst_combine by exact Hlen. exact Hs.
Qed.

(** ** Columns of a frame *)

Lemma bind_ret {A B} (a : A) (k : A -> result B) : bind (ret a) k = k a.
Proof. reflexivity. Qed.

Lemma assoc_put {A} k k' (v : A) l :
  assoc k' (put k v l) = if String.eqb k' k then Some v else assoc k' l.
Proof.
  induction l as [| [k0 v0] l IH]; simpl; [reflexivity |].
  destruct (String.eqb k k0) eqn:Hk; simpl.
  - apply String.eqb_eq in Hk. subst k0. destruct (String.eqb k' k); reflexivity.
  - rewrite IH. destruct (String.eqb k' k0) eqn:Hk0; [| reflexivity].
    apply String.eqb_eq in Hk0. subst k0. rewrite String.eqb_sym, Hk. reflexivity.
Qed.

Lemma get_col_set_col df n s c :
  get_col (set_col df n s) c = if String.eqb c n then ret s else get_col df c.
Proof.
  unfold get_col, set_col. simpl. rewrite assoc_put.
  destruct (String.eqb c n); reflexivity.
Qed.

Lemma has_col_set_col df n s c :
  has_col (set_col df n s) c = String.eqb c n || has_col df c.
Proof.
  unfold has_col, set_col. simpl. rewrite assoc_put.
  destruct (String.eqb c n); reflexivity.
Qed.

Lemma assoc_map_snd {A B} (f : A -> B) n (l : list (string * A)) :
  assoc n (map (fun c => (fst c, f (snd c))) l) = option_map f (assoc n l).
Proof.
  induction l as [| [k v] l IH]; simpl; [reflexivity |].
  destruct (String.eqb n k); [reflexivity | exact IH].
Qed.

(** Sorting puts every column in the order of the key column. *)
Lemma sort_values_get df by_ df' :
  sort_values df by_ = ret df' ->
  exists k, get_col df by_ = ret k
            /\ df_len df' = df_len df
            /\ forall c, get_col df' c = (s <- get_col df c ;; ret (sorted_by k s)).
Proof.
  unfold sort_values, bind. destruct (get_col df by_) as [e | k]; [discriminate |].
  intros [= <-]. exists k. split; [reflexivity |]. split; [reflexivity |].
  intros c. unfold get_col. simpl.
  rewrite (assoc_map_snd (fun s => {| s_dtype := s_dtype s;
                                      s_values := reorder (s_values k) (s_values s) |})).
  destruct (assoc c (df_columns df)); reflexivity.
Qed.

Lemma sort_values_ok df by_ k :
  get_col df by_ = ret k -> exists df', sort_values df by_ = ret df'.
Proof.
  intros H. unfold sort_values, bind. rewrite H. eexists. reflexivity.
Qed.

Lemma existsb_eqb_false c n names :
  existsb (String.eqb c) names = false -> In n names -> String.eqb c n = false.
Proof.
  induction names as [| m names IH]; simpl; [intros _ [] |].
  intros H [-> | Hn]; apply orb_false_elim in H as [H1 H2]; [exact H1 | exact (IH H2 Hn)].
Qed.

(** ** The stages of feature engineering *)

Section Stages.
Context (L : Libs).

Lemma extract_date_features_get df dfA :
  FeatureEngineering.extract_date_features L df "date" = ret dfA ->
  df_len dfA = df_len df
  /\ (exists d, get_col df "date" = ret d
                /\ get_col dfA "date" = ret {| s_dtype := datetime64; s_values := s_values d |})
  /\ forall c, existsb (String.eqb c) ("date" :: date_features) = false ->
               get_col dfA c = get_col df c.
Proof.
  unfold FeatureEngineering.extract_date_features, bind.
  destruct (get_col df "date") as [e | d]; [discriminate |].
  unfold to_datetime. destruct (forallb _ (s_values d)); [| discriminate].
  unfold ret. repeat (rewrite get_col_set_col; simpl).
  intros [= <-]. split; [reflexivity |]. split.
  - exists d. split; [reflexivity |]. rewrite !get_col_set_col. simpl.
    destruct (get_col df "date"); reflexivity.
  - intros c Hc. rewrite !get_col_set_col.
    assert (Hn : forall n, In n ("date" :: date_features) -> String.eqb c n = false)
      by (intros n; apply existsb_eqb_false; exact Hc).
    rewrite (Hn "date"), (Hn "year"), (Hn "month"), (Hn "day"), (Hn "weekday"),
      (Hn "is_weekend"), (Hn "day_of_year"), (Hn "week_of_year"), (Hn "quarter"),
      (Hn "sin_month"), (Hn "cos_month"), (Hn "sin_weekday"), (Hn "cos_weekday")
      by (simpl; tauto).
    reflexivity.
Qed.

Lemma extract_date_features_ok df d :
  get_col df "date" = ret d ->
  Forall is_stamp (s_values d) ->
  exists dfA, FeatureEngineering.extract_date_features L df "date" = ret dfA.
Proof.
  intros Hd Hs. unfold FeatureEngineering.extract_date_features, bind. rewrite Hd.
  unfold to_datetime, ret, raise. cbv beta iota.
  match goal with
  | |- context [forallb ?f (s_values d)] => assert (Hf : forallb f (s_values d) = true)
  end.
  { apply forallb_forall. intros c Hc.
    rewrite List.Forall_forall in Hs. destruct (Hs c Hc) as [t ->]. reflexivity. }
  rewrite Hf. repeat (rewrite get_col_set_col; simpl).
  eexists. reflexivity.
Qed.

Lemma lag_names :
  "rate" +:+ "_lag_" +:+ pretty 1%nat = "rate_lag_1"
  /\ "rate" +:+ "_lag_" +:+ pretty 7%nat = "rate_lag_7"
  /\ "rate" +:+ "_lag_" +:+ pretty 30%nat = "rate_lag_30".
Proof. vm_compute. auto. Qed.

Lemma add_lag_features_get df dfB :
  FeatureEngineering.add_lag_features df "rate" [1; 7; 30]%nat = ret dfB ->
  exists k r,
    get_col df "date" = ret k /\ get_col df "rate" = ret r
    /\ df_len dfB = df_len df
    /\ get_col dfB "rate_lag_1" = ret (shift 1 (sorted_by k r))
    /\ forall c, existsb (String.eqb c) ["rate_lag_1"; "rate_lag_7"; "rate_lag_30"] = false ->
                 get_col dfB c = (s <- get_col df c ;; ret (sorted_by k s)).
Proof.
  unfold FeatureEngineering.add_lag_features.
  destruct (sort_values df "date") as [e | df1] eqn:Hs; [discriminate |].
  rewrite bind_ret.
  destruct (sort_values_get _ _ _ Hs) as (k & Hk & Hlen & Hget).
  destruct (get_col df "rate") as [e | r] eqn:Hr.
  { cbn [FeatureEngineering.add_lags]. rewrite (Hget "rate"), Hr. discriminate. }
  assert (Hr1 : get_col df1 "rate" = ret (sorted_by k r))
    by (rewrite Hget, Hr; reflexivity).
  cbn [FeatureEngineering.add_lags].
  destruct lag_names as (-> & -> & ->).
  rewrite Hr1, bind_ret.
  do 2 (rewrite ?get_col_set_col; simpl (String.eqb _ _); cbv beta iota;
        rewrite Hr1, bind_ret).
  intros [= <-].
  exists k, r. split; [exact Hk |]. split; [reflexivity |]. split; [exact Hlen |].
  split.
  - rewrite !get_col_set_col. reflexivity.
  - intros c Hc. rewrite !get_col_set_col.
    assert (Hn : forall n, In n ["rate_lag_1"; "rate_lag_7"; "rate_lag_30"] ->
                           String.eqb c n = false)
      by (intros n; apply existsb_eqb_false; exact Hc).
    rewrite (Hn "rate_lag_1"), (Hn "rate_lag_7"), (Hn "rate_lag_30") by (simpl; tauto).
    apply Hget.
Qed.

Lemma add_lag_features_ok df k r :
  get_col df "date" = ret k -> get_col df "rate" = ret r ->
  exists dfB, FeatureEngineering.add_lag_features df "rate" [1; 7; 30]%nat = ret dfB.
Proof.
  intros Hk Hr. unfold FeatureEngineering.add_lag_features.
  destruct (sort_values_ok df "date" k Hk) as [df1 Hs]. rewrite Hs, bind_ret.
  destruct (sort_values_get _ _ _ Hs) as (k' & Hk' & Hlen & Hget).
  assert (Hr1 : get_col df1 "rate" = ret (sorted_by k' r))
    by (rewrite Hget, Hr; reflexivity).
  cbn [FeatureEngineering.add_lags].
  destruct lag_names as (-> & -> & ->).
  rewrite Hr1, bind_ret.
  do 2 (rewrite ?get_col_set_col; simpl (String.eqb _ _); cbv beta iota;
        rewrite Hr1, bind_ret).
  eexists. reflexivity.
Qed.

Lemma prefix_append p rest : String.prefix p (p +:+ rest) = true.
Proof.
  induction p as [| a p IH]; simpl; [destruct rest; reflexivity |].
  destruct (Ascii.ascii_dec a a); [exact IH | congruence].
Qed.

Lemma eqb_append_false p rest c :
  String.prefix p c = false -> String.eqb c (p +:+ rest) = false.
Proof.
  intros Hp. destruct (String.eqb c (p +:+ rest)) eqn:He; [| reflexivity].
  apply String.eqb_eq in He. subst c. rewrite prefix_append in Hp. discriminate.
Qed.

Lemma rolling_name_other stat (w : nat) c :
  String.prefix "rate_rolling_" c = false ->
  String.eqb c ("rate" +:+ "_rolling_" +:+ stat +:+ "_" +:+ pretty w) = false.
Proof.
  intros Hp. exact (eqb_append_false "rate_rolling_" (stat +:+ "_" +:+ pretty w) c Hp).
Qed.

Lemma add_rollings_get ws : forall df df',
  FeatureEngineering.add_rollings L df "rate" ws = ret df' ->
  df_len df' = df_len df
  /\ forall c, String.prefix "rate_rolling_" c = false -> get_col df' c = get_col df c.
Proof.
  induction ws as [| w ws IH]; intros df df'.
  - intros [= <-]. auto.
  - cbn [FeatureEngineering.add_rollings]. cbv zeta.
    repeat match goal with
           | |- bind ?m _ = _ -> _ =>
               let E := fresh "E" in destruct m eqn:E; [discriminate | rewrite bind_ret]
           end.
    intros Hrest. destruct (IH _ _ Hrest) as [Hlen Hget]. split; [exact Hlen |].
    intros c Hc. rewrite (Hget c Hc), !get_col_set_col, !rolling_name_other by exact Hc.
    reflexivity.
Qed.

Lemma add_rollings_ok ws : forall df t,
  get_col df "rate" = ret t -> is_numeric (s_dtype t) = true ->
  exists df', FeatureEngineering.add_rollings L df "rate" ws = ret df'.
Proof.
  induction ws as [| w ws IH]; intros df t Ht Hnum.
  - eexists. reflexivity.
  - cbn [FeatureEngineering.add_rollings]. cbv zeta.
    assert (Hroll : forall agg, rolling w agg t
                                = ret {| s_dtype := float64;
                                         s_values := imap (fun i _ => agg (window w i (s_values t)))
                                                          (s_values t) |}).
    { intros agg. unfold rolling. rewrite Hnum. reflexivity. }
    rewrite Ht, bind_ret, Hroll, bind_ret.
    do 3 (rewrite !get_col_set_col, !rolling_name_other by reflexivity;
          rewrite Ht, bind_ret, Hroll, bind_ret).
    apply (IH _ t); [| exact Hnum].
    rewrite !get_col_set_col, !rolling_name_other by reflexivity. exact Ht.
Qed.

Lemma add_rolling_features_get ws df dfC :
  FeatureEngineering.add_rolling_features L df "rate" ws = ret dfC ->
  exists k,
    get_col df "date" = ret k
    /\ df_len dfC = df_len df
    /\ forall c, String.prefix "rate_rolling_" c = false ->
                 get_col dfC c = (s <- get_col df c ;; ret (sorted_by k s)).
Proof.
  unfold FeatureEngineering.add_rolling_features.
  destruct (sort_values df "date") as [e | df1] eqn:Hs; [discriminate |].
  rewrite bind_ret. intros Hr.
  destruct (sort_values_get _ _ _ Hs) as (k & Hk & Hlen & Hget).
  destruct (add_rollings_get _ _ _ Hr) as [Hlen' Hget'].
  exists k. split; [exact Hk |]. split; [congruence |].
  intros c Hc. rewrite (Hget' c Hc). apply Hget.
Qed.

Lemma add_rolling_features_ok ws df k r :
  get_col df "date" = ret k -> get_col df "rate" = ret r ->
  is_numeric (s_dtype r) = true ->
  exists dfC, FeatureEngineering.add_rolling_features L df "rate" ws = ret dfC.
Proof.
  intros Hk Hr Hnum. unfold FeatureEngineering.add_rolling_features.
  destruct (sort_values_ok df "date" k Hk) as [df1 Hs]. rewrite Hs, bind_ret.
  destruct (sort_values_get _ _ _ Hs) as (k' & Hk' & Hlen & Hget).
  apply (add_rollings_ok ws df1 (sorted_by k' r)); [| exact Hnum].
  rewrite Hget, Hr. reflexivity.
Qed.

Lemma add_competitive_features_get df dfD :
  FeatureEngineering.add_competitive_features df = ret dfD ->
  df_len dfD = df_len df
  /\ forall c, existsb (String.eqb c) competitive_features = false ->
               get_col dfD c = get_col df c.
Proof.
  unfold FeatureEngineering.add_competitive_features.
  destruct (has_col df "hotel_id"); [| intros [= <-]; auto].
  destruct (get_col df "date") as [e | k]; [discriminate |]. rewrite bind_ret.
  destruct (get_col df "rate") as [e | r] eqn:Hr; [discriminate |]. rewrite bind_ret.
  repeat (rewrite !get_col_set_col; simpl (String.eqb _ _); cbv beta iota;
          rewrite ?Hr, ?bind_ret).
  intros [= <-]. split; [reflexivity |].
  intros c Hc. rewrite !get_col_set_col.
  assert (Hn : forall n, In n competitive_features -> String.eqb c n = false)
    by (intros n; apply existsb_eqb_false; exact Hc).
  rewrite (Hn "rate_rank"), (Hn "rate_percentile"), (Hn "competitor_avg_rate"),
    (Hn "rate_vs_avg"), (Hn "rate_vs_avg_pct") by (simpl; tauto).
  reflexivity.
Qed.

Lemma add_competitive_features_ok df k r :
  get_col df "date" = ret k -> get_col df "rate" = ret r ->
  exists dfD, FeatureEngineering.add_competitive_features df = ret dfD.
Proof.
  intros Hk Hr. unfold FeatureEngineering.add_competitive_features.
  destruct (has_col df "hotel_id"); [| eexists; reflexivity].
  rewrite Hk, bind_ret, Hr, bind_ret.
  repeat (rewrite !get_col_set_col; simpl (String.eqb _ _); cbv beta iota;
          rewrite ?Hr, ?bind_ret).
  eexists. reflexivity.
Qed.

End Stages.

(** ** Selecting and filling the features *)

Lemma fill_features_get cols df c :
  get_col (Base.fill_features cols df) c
  = (s <- get_col df c ;; ret (if Base.in_list c cols then fillna_ffill_0 s else s)).
Proof.
  unfold get_col, Base.fill_features. simpl.
  induction (df_columns df) as [| [k v] l IH]; simpl; [reflexivity |].
  destruct (Base.in_list k cols) eqn:Hk; simpl;
    (destruct (String.eqb c k) eqn:Hc;
     [apply String.eqb_eq in Hc; subst c; rewrite Hk; reflexivity | exact IH]).
Qed.

Lemma feature_listed c s (l : list (string * Series)) :
  assoc c l = Some s -> Base.is_feature (c, s) = true ->
  Base.in_list c (map fst (List.filter Base.is_feature l)) = true.
Proof.
  unfold Base.in_list. induction l as [| [k v] l IH]; simpl; [discriminate |].
  destruct (String.eqb c k) eqn:Hc.
  - apply String.eqb_eq in Hc. subst k. intros [= ->] Hf. rewrite Hf. simpl.
    rewrite String.eqb_refl. reflexivity.
  - intros Hs Hf. destruct (Base.is_feature (k, v)); simpl; [rewrite Hc |]; auto.
Qed.

Lemma excluded_not_listed c (l : list (string * Series)) :
  Base.in_list c Base.exclude_cols = true ->
  Base.in_list c (map fst (List.filter Base.is_feature l)) = false.
Proof.
  intros Hex. unfold Base.in_list. induction l as [| [k v] l IH]; simpl; [reflexivity |].
  destruct (Base.is_feature (k, v)) eqn:Hf; simpl; [| exact IH].
  rewrite IH, orb_false_r.
  destruct (String.eqb c k) eqn:Hc; [| reflexivity].
  apply String.eqb_eq in Hc. subst k.
  unfold Base.is_feature in Hf. cbn [fst snd] in Hf. rewrite Hex in Hf. discriminate.
Qed.

Lemma listed_has_column n (l : list (string * Series)) :
  In n (map fst l) -> exists s, assoc n l = Some s.
Proof.
  induction l as [| [k v] l IH]; simpl; [intros [] |].
  destruct (String.eqb n k) eqn:Hn; [eauto |].
  intros [<- | H]; [rewrite String.eqb_refl in Hn; discriminate | exact (IH H)].
Qed.

Lemma select_ok df cols :
  (forall n, In n cols -> exists s, get_col df n = ret s) ->
  exists X, select df cols = ret X.
Proof.
  induction cols as [| c cols IH]; simpl; intros H; [eexists; reflexivity |].
  destruct (H c) as [s Hs]; [left; reflexivity |].
  destruct IH as [X HX]; [intros n Hn; apply H; right; exact Hn |].
  rewrite Hs, bind_ret, HX, bind_ret. eexists. reflexivity.
Qed.

(** The features of a frame can always be selected from it once filled. *)
Lemma select_features_ok df :
  exists X, select (Base.fill_features (map fst (List.filter Base.is_feature (df_columns df))) df)
                   (map fst (List.filter Base.is_feature (df_columns df))) = ret X.
Proof.
  apply select_ok. intros n Hn.
  assert (Hin : In n (map fst (df_columns df))).
  { apply in_map_iff in Hn as ([k v] & <- & Hkv). apply List.filter_In in Hkv as [Hkv _].
    apply in_map_iff. exists (k, v). auto. }
  destruct (listed_has_column n _ Hin) as [s Hs].
  rewrite fill_features_get. unfold get_col at 1. rewrite Hs. rewrite bind_ret.
  eexists. reflexivity.
Qed.

Lemma in_list_In c l : Base.in_list c l = true -> In c l.
Proof.
  unfold Base.in_list. intros H. apply List.existsb_exists in H as (x & Hx & He).
  apply String.eqb_eq in He. subst x. exact Hx.
Qed.

(** ** Training the Random Forest *)

Lemma train_size_bounds n :
  (5 * RFM.train_size n <= 4 * n < 5 * RFM.train_size n + 5)%nat.
Proof.
  unfold RFM.train_size.
  pose proof (Qfloor_le ((8 # 10) * inject_Z (Z.of_nat n))) as H1.
  pose proof (Qlt_floor ((8 # 10) * inject_Z (Z.of_nat n))) as H2.
  assert (H0 : (0 <= Qfloor ((8 # 10) * inject_Z (Z.of_nat n)))%Z).
  { change 0%Z with (Qfloor 0). apply Qfloor_resp_le.
    unfold Qle, Qmult, inject_Z. cbn [Qnum Qden]. lia. }
  remember (Qfloor ((8 # 10) * inject_Z (Z.of_nat n))) as z eqn:Hz. clear Hz.
  unfold Qle, Qlt, Qmult, Qplus, inject_Z in H1, H2. cbn [Qnum Qden] in H1, H2.
  lia.
Qed.

Lemma sorted_lookup {A} (R : A -> A -> Prop) (l : list A) i j a b :
  StronglySorted R l -> (i < j)%nat -> l !! i = Some a -> l !! j = Some b -> R a b.
Proof.
  intros Hs. revert i j. induction Hs as [| x l Hs IH Hall]; intros i j Hij Hi Hj.
  - destruct i; discriminate.
  - destruct j as [| j]; [lia |]. simpl in Hj. destruct i as [| i]; simpl in Hi.
    + injection Hi as <-. rewrite List.Forall_forall in Hall. apply Hall.
      apply list_elem_of_In. eapply list_elem_of_lookup_2. exact Hj.
    + apply (IH i j); [lia | assumption | assumption].
Qed.

Section Train.
Context (L : Libs).

(** The frame [prepare_data] builds keeps the number of rows and has its
    rows in the order of their dates. *)
Lemma prepare_frame_dates_sorted df F cols :
  Base.prepare_frame L df = ret (F, cols) ->
  df_len F = df_len df
  /\ exists d, get_col F "date" = ret d /\ StronglySorted key_le (s_values d).
Proof.
  unfold Base.prepare_frame.
  destruct (FeatureEngineering.extract_date_features L df "date") as [e | dfA] eqn:HA;
    [discriminate |]. rewrite bind_ret.
  destruct (FeatureEngineering.add_lag_features dfA "rate" _) as [e | dfB] eqn:HB;
    [discriminate |]. rewrite bind_ret.
  destruct (FeatureEngineering.add_rolling_features L dfB "rate" _) as [e | dfC] eqn:HC;
    [discriminate |]. rewrite bind_ret.
  destruct (FeatureEngineering.add_competitive_features dfC) as [e | dfD] eqn:HD;
    [discriminate |]. rewrite bind_ret.
  intros [= <- <-].
  destruct (extract_date_features_get L _ _ HA) as (HlenA & _ & _).
  destruct (add_lag_features_get _ _ HB) as (_ & _ & _ & _ & HlenB & _).
  destruct (add_rolling_features_get L _ _ _ HC) as (k & Hk & HlenC & HgetC).
  destruct (add_competitive_features_get _ _ HD) as (HlenD & HgetD).
  split; [simpl; congruence |].
  exists (sorted_by k k). split; [| apply reorder_keys_sorted].
  rewrite fill_features_get, excluded_not_listed by reflexivity.
  rewrite HgetD by reflexivity. rewrite HgetC by reflexivity. rewrite Hk. reflexivity.
Qed.

(** What a returning [train] did, call by call. *)
Lemma train_returns (self self' : Base.t L) df metrics :
  RFM.train L df self = (self', ret metrics) ->
  exists F cols X y X_train_scaled X_test_scaled y_pred,
    Base.prepare_frame L df = ret (F, cols)
    /\ select F cols = ret X
    /\ get_col F "rate" = ret y
    /\ fit_transform L (Base.scaler self) (rows_to (RFM.train_size (df_len X)) X)
       = ret (Base.scaler self', X_train_scaled)
    /\ transform L (Base.scaler self') (rows_from (RFM.train_size (df_len X)) X)
       = ret X_test_scaled
    /\ fit L (Base.model self) X_train_scaled (series_head (RFM.train_size (df_len X)) y)
       = ret (Base.model self')
    /\ forest_predict L (Base.model self') X_test_scaled = ret y_pred
    /\ RFM._calculate_metrics L (series_tail (RFM.train_size (df_len X)) y) y_pred
       = ret metrics
    /\ Base.feature_columns self' = cols
    /\ Base.is_trained self' = true.
Proof.
  unfold RFM.train, Base.prepare_data, obind, this, assign, lift, oret. simpl.
  destruct (Base.prepare_frame L df) as [e | [F cols]] eqn:HF; simpl; [discriminate |].
  destruct (select F cols) as [e | X] eqn:HX; simpl; [discriminate |].
  destruct (has_col F "rate") eqn:Hhas; simpl; [| discriminate].
  destruct (has_col_get F "rate" Hhas) as [y Hy]. rewrite Hy. simpl.
  destruct (fit_transform L _ _) as [e | [sc Xtr]] eqn:Hft; simpl; [discriminate |].
  destruct (transform L sc _) as [e | Xte] eqn:Htr; simpl; [discriminate |].
  destruct (fit L _ Xtr _) as [e | f] eqn:Hfit; simpl; [discriminate |].
  destruct (forest_predict L f Xte) as [e | y_pred] eqn:Hp; simpl; [discriminate |].
  destruct (RFM._calculate_metrics L _ y_pred) as [e | m] eqn:Hm; simpl; [discriminate |].
  intros [= <- <-]. simpl.
  exists F, cols, X, y, Xtr, Xte, y_pred. repeat split; try assumption; reflexivity.
Qed.

(** C4. A returning [train] has split the rows, which are in the order of
    their dates, at four fifths of their number, rounded down: the rows
    before the split are dated no later than those after it; the scaler is
    fitted on the rows before the split only, and the scaler so fitted, kept
    in the model, is the one that transforms the rows after it, on which the
    metrics are computed. *)
Theorem train_split_is_chronological (self : Base.t L) df metrics :
  snd (RFM.train L df self) = ret metrics ->
  exists F cols X y dates X_train_scaled X_test_scaled y_pred,
    Base.prepare_frame L df = ret (F, cols)
    /\ select F cols = ret X
    /\ get_col F "rate" = ret y
    /\ get_col F "date" = ret dates
    /\ df_len X = df_len df
    /\ (5 * RFM.train_size (df_len X) <= 4 * df_len X < 5 * RFM.train_size (df_len X) + 5)%nat
    /\ (forall i j a b,
          (i < RFM.train_size (df_len X) <= j)%nat ->
          s_values dates !! i = Some a -> s_values dates !! j = Some b -> key_le a b)
    /\ fit_transform L (Base.scaler self) (rows_to (RFM.train_size (df_len X)) X)
       = ret (Base.scaler (fst (RFM.train L df self)), X_train_scaled)
    /\ transform L (Base.scaler (fst (RFM.train L df self)))
                 (rows_from (RFM.train_size (df_len X)) X)
       = ret X_test_scaled
    /\ fit L (Base.model self) X_train_scaled (series_head (RFM.train_size (df_len X)) y)
       = ret (Base.model (fst (RFM.train L df self)))
    /\ forest_predict L (Base.model (fst (RFM.train L df self))) X_test_scaled = ret y_pred
    /\ RFM._calculate_metrics L (series_tail (RFM.train_size (df_len X)) y) y_pred
       = ret metrics.
Proof.
  destruct (RFM.train L df self) as [self' r] eqn:Hrun. simpl. intros ->.
  destruct (train_returns _ _ _ _ Hrun)
    as (F & cols & X & y & Xtr & Xte & y_pred & HF & HX & Hy & Hft & Htr & Hfit & Hp & Hm & _).
  destruct (prepare_frame_dates_sorted _ _ _ HF) as (Hlen & dates & Hd & Hsorted).
  destruct (select_get _ _ _ HX) as (HlenX & _).
  exists F, cols, X, y, dates, Xtr, Xte, y_pred.
  repeat split; try assumption; try congruence.
  - apply train_size_bounds.
  - apply train_size_bounds.
  - intros i j a b [Hi Hj] Ha Hb. apply (sorted_lookup key_le (s_values dates) i j); auto. lia.
Qed.

End Train.

(** ** The lag features *)

Lemma ffill_from_lookup l : forall last i c,
  l !! i = Some c -> c <> NaN -> ffill_from last l !! i = Some c.
Proof.
  induction l as [| x l IH]; intros last i c Hi Hc; [destruct i; discriminate |].
  destruct i as [| i]; simpl in Hi.
  - injection Hi as ->. destruct c; simpl; congruence.
  - destruct x; simpl; apply IH; assumption.
Qed.

Lemma filled_lookup l i c :
  l !! i = Some c -> c <> NaN -> fill_zero (ffill l) !! i = Some c.
Proof.
  intros Hi Hc. unfold fill_zero, ffill.
  change (map ?f ?l) with (f <$> l). rewrite list_lookup_fmap.
  rewrite (ffill_from_lookup l NaN i c Hi Hc). simpl.
  destruct c; simpl; congruence.
Qed.

Lemma shift_length n s : length (s_values (shift n s)) = length (s_values s).
Proof.
  unfold shift. simpl. rewrite length_take, length_app. lia.
Qed.

(** After a shift by one, a position holds what the one before it held. *)
Lemma shift_1_lookup s i :
  (1 <= i < length (s_values s))%nat ->
  s_values (shift 1 s) !! i = s_values s !! (i - 1)%nat.
Proof.
  intros [H1 Hn]. unfold shift. simpl.
  rewrite lookup_take_lt by lia.
  destruct i as [| i]; [lia |]. simpl. rewrite Nat.sub_0_r. reflexivity.
Qed.

Lemma sorted_by_id k s :
  StronglySorted key_le (s_values k) -> length (s_values k) = length (s_values s) ->
  sorted_by k s = s.
Proof.
  intros Hs Hlen. unfold sorted_by. rewrite reorder_sorted_id by assumption.
  destruct s; reflexivity.
Qed.

Lemma get_col_assoc df c s : get_col df c = ret s -> assoc c (df_columns df) = Some s.
Proof.
  unfold get_col. destruct (assoc c (df_columns df)); [intros [= ->]; reflexivity | discriminate].
Qed.

Section LagFeature.
Context (L : Libs).

(** On a frame with a column of dates and a numeric column of rates of the
    same length, [prepare_frame] returns; the rate column comes out in the
    order of the dates, and the feature [rate_lag_1] is that column shifted
    by one and filled. *)
Lemma prepare_frame_lag df d r :
  get_col df "date" = ret d -> get_col df "rate" = ret r ->
  Forall is_stamp (s_values d) ->
  is_numeric (s_dtype r) = true -> shift_dtype (s_dtype r) = float64 ->
  length (s_values r) = length (s_values d) ->
  exists F cols X,
    Base.prepare_frame L df = ret (F, cols)
    /\ select F cols = ret X
    /\ In "rate_lag_1" cols
    /\ get_col F "rate_lag_1" = ret (fillna_ffill_0 (shift 1 (sorted_by d r)))
    /\ get_col F "rate" = ret (sorted_by d r).
Proof.
  intros Hd Hr Hstamps Hnum Hfloat Hlen.
  (* dates *)
  destruct (extract_date_features_ok L df d Hd Hstamps) as [dfA HA].
  destruct (extract_date_features_get L _ _ HA) as (_ & (d' & Hd' & HdA) & HgetA).
  rewrite Hd in Hd'. injection Hd' as <-.
  assert (HrA : get_col dfA "rate" = ret r) by (rewrite HgetA by reflexivity; exact Hr).
  (* lags *)
  destruct (add_lag_features_ok dfA _ r HdA HrA) as [dfB HB].
  destruct (add_lag_features_get _ _ HB) as (k & r' & Hk & Hr' & _ & HlagB & HgetB).
  rewrite HdA in Hk. injection Hk as <-. rewrite HrA in Hr'. injection Hr' as <-.
  change (sorted_by {| s_dtype := datetime64; s_values := s_values d |} r)
    with (sorted_by d r) in HlagB.
  assert (HdB : get_col dfB "date" = ret (sorted_by d {| s_dtype := datetime64; s_values := s_values d |}))
    by (rewrite HgetB by reflexivity; rewrite HdA; reflexivity).
  assert (HrB : get_col dfB "rate" = ret (sorted_by d r))
    by (rewrite HgetB by reflexivity; rewrite HrA; reflexivity).
  (* rolling statistics: the second sort moves nothing *)
  destruct (add_rolling_features_ok L [7; 14; 30]%nat dfB _ _ HdB HrB Hnum) as [dfC HC].
  destruct (add_rolling_features_get L _ _ _ HC) as (k & Hk & _ & HgetC).
  rewrite HdB in Hk. injection Hk as <-.
  set (dB := sorted_by d {| s_dtype := datetime64; s_values := s_values d |}) in *.
  assert (HsB : StronglySorted key_le (s_values dB)) by apply reorder_keys_sorted.
  assert (HlB : length (s_values dB) = length (s_values d)).
  { unfold dB. simpl. rewrite reorder_length. lia. }
  assert (HlR : length (s_values (sorted_by d r)) = length (s_values d)).
  { simpl. rewrite reorder_length. lia. }
  assert (HdC : get_col dfC "date" = ret dB).
  { rewrite HgetC by reflexivity. rewrite HdB, bind_ret. f_equal.
    apply sorted_by_id; [exact HsB | reflexivity]. }
  assert (HrC : get_col dfC "rate" = ret (sorted_by d r)).
  { rewrite HgetC by reflexivity. rewrite HrB, bind_ret. f_equal.
    apply sorted_by_id; [exact HsB | congruence]. }
  assert (HlagC : get_col dfC "rate_lag_1" = ret (shift 1 (sorted_by d r))).
  { rewrite HgetC by reflexivity. rewrite HlagB, bind_ret. f_equal.
    apply sorted_by_id; [exact HsB | rewrite shift_length; congruence]. }
  (* competitive features *)
  destruct (add_competitive_features_ok dfC _ _ HdC HrC) as [dfD HD].
  destruct (add_competitive_features_get _ _ HD) as (_ & HgetD).
  assert (HrD : get_col dfD "rate" = ret (sorted_by d r))
    by (rewrite HgetD by reflexivity; exact HrC).
  assert (HlagD : get_col dfD "rate_lag_1" = ret (shift 1 (sorted_by d r)))
    by (rewrite HgetD by reflexivity; exact HlagC).
  (* selection and filling *)
  assert (Hlisted : Base.in_list "rate_lag_1"
                      (map fst (List.filter Base.is_feature (df_columns dfD))) = true).
  { apply (feature_listed _ (shift 1 (sorted_by d r))); [apply get_col_assoc; exact HlagD |].
    unfold Base.is_feature. cbn [fst snd shift sorted_by s_dtype]. rewrite Hfloat. reflexivity. }
  destruct (select_features_ok dfD) as [X HX].
  unfold Base.prepare_frame. rewrite HA, bind_ret, HB, bind_ret, HC, bind_ret, HD, bind_ret.
  eexists. eexists. exists X. split; [reflexivity |]. split; [exact HX |].
  split; [apply in_list_In; exact Hlisted |]. split.
  - rewrite fill_features_get, HlagD, bind_ret, Hlisted. reflexivity.
  - rewrite fill_features_get, HrD, bind_ret, excluded_not_listed by reflexivity. reflexivity.
Qed.

End LagFeature.

Section LagClaim.
Context (L : Libs).

(** The lag feature of any frame with dated, defined rates. *)
Lemma lag_1_lookup (self : Base.t L) df d r rates :
  get_col df "date" = ret d -> get_col df "rate" = ret r ->
  Forall is_stamp (s_values d) ->
  s_dtype r = float64 ->
  length (s_values r) = length (s_values d) ->
  reorder (s_values d) (s_values r) = map Num rates ->
  exists X y lag,
    snd (Base.prepare_data L df self) = ret (X, y)
    /\ get_col X "rate_lag_1" = ret lag
    /\ forall i, (1 <= i < length rates)%nat ->
                 s_values lag !! i = Num <$> rates !! (i - 1)%nat.
Proof.
  intros Hd Hr Hstamps Hfloat Hlen Hrates.
  destruct (prepare_frame_lag L df d r Hd Hr Hstamps) as
    (F & cols & X & HF & HX & Hin & Hlag & Hrate);
    [rewrite Hfloat; reflexivity | rewrite Hfloat; reflexivity | exact Hlen |].
  destruct (select_get _ _ _ HX) as (_ & _ & HgetX).
  exists X, (Some (sorted_by d r)), (fillna_ffill_0 (shift 1 (sorted_by d r))).
  split; [| split].
  - unfold Base.prepare_data, obind, lift, assign, oret. rewrite HF. simpl.
    rewrite HX. simpl.
    assert (Hhas : has_col F "rate" = true).
    { unfold has_col. rewrite (get_col_assoc _ _ _ Hrate). reflexivity. }
    rewrite Hhas, Hrate. reflexivity.
  - rewrite (HgetX _ Hin). exact Hlag.
  - intros i Hi.
    assert (Hn : length (s_values (sorted_by d r)) = length rates).
    { simpl. rewrite Hrates. apply length_map. }
    assert (Hprev : s_values (shift 1 (sorted_by d r)) !! i = Num <$> rates !! (i - 1)%nat).
    { rewrite shift_1_lookup by lia. simpl. rewrite Hrates.
      change (map Num rates) with (Num <$> rates). apply list_lookup_fmap. }
    destruct (lookup_lt_is_Some_2 rates (i - 1)%nat) as [q Hq]; [lia |].
    rewrite Hq in *. simpl in *.
    apply filled_lookup; [exact Hprev | discriminate].
Qed.

(** C8. For a series of rates that increases strictly along its dates, the
    feature [rate_lag_1] at a position from the second on is exactly the rate
    at the position before it, both taken in the order of the dates. *)
Theorem lag_1_is_previous_rate (self : Base.t L) df d r rates :
  get_col df "date" = ret d -> get_col df "rate" = ret r ->
  Forall is_stamp (s_values d) ->
  s_dtype r = float64 ->
  length (s_values r) = length (s_values d) ->
  reorder (s_values d) (s_values r) = map Num rates ->
  StronglySorted Qlt rates ->
  exists X y lag,
    snd (Base.prepare_data L df self) = ret (X, y)
    /\ get_col X "rate_lag_1" = ret lag
    /\ forall i, (1 <= i < length rates)%nat ->
                 s_values lag !! i = Num <$> rates !! (i - 1)%nat.
Proof.
  intros Hd Hr Hstamps Hfloat Hlen Hrates _.
  exact (lag_1_lookup self df d r rates Hd Hr Hstamps Hfloat Hlen Hrates).
Qed.

End LagClaim.

Lemma lag_1_is_previous_rate_witness :
  get_col Sample.unsorted_frame "date" = ret Sample.dates
  /\ get_col Sample.unsorted_frame "rate" = ret Sample.rates
  /\ Forall is_stamp (s_values Sample.dates)
  /\ s_dtype Sample.rates = float64
  /\ length (s_values Sample.rates) = length (s_values Sample.dates)
  /\ reorder (s_values Sample.dates) (s_values Sample.rates) = map Num [100; 110; 120]%Q
  /\ StronglySorted Qlt [100; 110; 120]%Q
  /\ exists X y lag,
      snd (Base.prepare_data Sample.libs Sample.unsorted_frame (RFM.init Sample.libs))
      = ret (X, y)
      /\ get_col X "rate_lag_1" = ret lag
      /\ forall i, (1 <= i < length [100; 110; 120]%Q)%nat ->
                   s_values lag !! i = Num <$> [100; 110; 120]%Q !! (i - 1)%nat.
Proof.
  assert (Hs : Forall is_stamp (s_values Sample.dates))
    by (repeat constructor; eexists; reflexivity).
  assert (Hi : StronglySorted Qlt [100; 110; 120]%Q)
    by (repeat constructor; reflexivity).
  repeat (split; [first [reflexivity | exact Hs | exact Hi] |]).
  apply (lag_1_is_previous_rate Sample.libs (RFM.init Sample.libs) Sample.unsorted_frame
           Sample.dates Sample.rates [100; 110; 120]%Q);
    first [reflexivity | exact Hs | exact Hi].
Defined.

Lemma train_split_is_chronological_witness :
  snd (RFM.train Sample.libs Sample.frame (RFM.init Sample.libs))
  = ret {| mae := 15; mse := 225; rmse := 15000000 # 1000000; mape := Num (1500 # 120) |}
  /\ exists F cols X y dates X_train_scaled X_test_scaled y_pred,
      Base.prepare_frame Sample.libs Sample.frame = ret (F, cols)
      /\ select F cols = ret X
      /\ get_col F "rate" = ret y
      /\ get_col F "date" = ret dates
      /\ df_len X = df_len Sample.frame
      /\ (5 * RFM.train_size (df_len X) <= 4 * df_len X < 5 * RFM.train_size (df_len X) + 5)%nat
      /\ (forall i j a b,
            (i < RFM.train_size (df_len X) <= j)%nat ->
            s_values dates !! i = Some a -> s_values dates !! j = Some b -> key_le a b)
      /\ fit_transform Sample.libs (Base.scaler (RFM.init Sample.libs))
                       (rows_to (RFM.train_size (df_len X)) X)
         = ret (Base.scaler (fst (RFM.train Sample.libs Sample.frame (RFM.init Sample.libs))),
                X_train_scaled)
      /\ transform Sample.libs
                   (Base.scaler (fst (RFM.train Sample.libs Sample.frame (RFM.init Sample.libs))))
                   (rows_from (RFM.train_size (df_len X)) X)
         = ret X_test_scaled
      /\ fit Sample.libs (Base.model (RFM.init Sample.libs)) X_train_scaled
             (series_head (RFM.train_size (df_len X)) y)
         = ret (Base.model (fst (RFM.train Sample.libs Sample.frame (RFM.init Sample.libs))))
      /\ forest_predict Sample.libs
                        (Base.model (fst (RFM.train Sample.libs Sample.frame (RFM.init Sample.libs))))
                        X_test_scaled = ret y_pred
      /\ RFM._calculate_metrics Sample.libs (series_tail (RFM.train_size (df_len X)) y) y_pred
         = ret {| mae := 15; mse := 225; rmse := 15000000 # 1000000; mape := Num (1500 # 120) |}.
Proof.
  split; [vm_compute; reflexivity |].
  apply (train_split_is_chronological Sample.libs (RFM.init Sample.libs) Sample.frame).
  vm_compute. reflexivity.
Defined.

(** * Further properties of the module *)

(** ** What [prepare_data] returns *)

Lemma get_col_missing df n : has_col df n = false -> get_col df n = raise "KeyError" n.
Proof.
  unfold has_col, get_col. destruct (assoc n (df_columns df)); [discriminate | reflexivity].
Qed.

Lemma get_col_listed df c s : get_col df c = ret s -> In c (columns df).
Proof.
  unfold get_col, columns. induction (df_columns df) as [| [k v] l IH]; simpl; [discriminate |].
  destruct (String.eqb c k) eqn:Hc.
  - apply String.eqb_eq in Hc. auto.
  - intros H. right. exact (IH H).
Qed.

Lemma In_in_list c l : In c l -> Base.in_list c l = true.
Proof.
  intros H. unfold Base.in_list. apply List.existsb_exists. exists c.
  split; [exact H | apply String.eqb_refl].
Qed.

Lemma fill_zero_defined l : Forall defined (fill_zero l).
Proof.
  unfold fill_zero. apply (proj2 (Forall_map _ defined l)).
  apply List.Forall_forall. intros c _. destruct c; simpl; discriminate.
Qed.

Section Prepared.
Context (L : Libs).

(** The frame of [prepare_frame] is some engineered frame with its feature
    columns filled, and the features are the columns of that frame which
    pass the selection. *)
Lemma prepare_frame_form df F cols :
  Base.prepare_frame L df = ret (F, cols) ->
  exists dfD, F = Base.fill_features cols dfD
              /\ cols = map fst (List.filter Base.is_feature (df_columns dfD)).
Proof.
  unfold Base.prepare_frame.
  repeat match goal with
         | |- bind ?m _ = _ -> _ => destruct m; [discriminate | rewrite bind_ret]
         end.
  intros [= <- <-]. eexists. split; reflexivity.
Qed.

Lemma prepare_data_returns (self : Base.t L) df X y :
  snd (Base.prepare_data L df self) = ret (X, y) ->
  exists F cols, Base.prepare_frame L df = ret (F, cols) /\ select F cols = ret X.
Proof.
  unfold Base.prepare_data, obind, lift, assign, oret.
  destruct (Base.prepare_frame L df) as [e | [F cols]]; simpl; [discriminate |].
  destruct (select F cols) as [e | X'] eqn:HX; simpl; [discriminate |].
  destruct (has_col F "rate"); simpl.
  - destruct (get_col F "rate"); simpl; [discriminate |].
    intros [= <- _]. exists F, cols. auto.
  - intros [= <- _]. exists F, cols. auto.
Qed.

End Prepared.

Section PreparedClaims.
Context (L : Libs).

(** X1. Every value of the features [prepare_data] returns is defined: the
    forward fill and the fill with zero leave no missing value in any
    feature column. *)
Theorem prepared_features_are_defined (self : Base.t L) df X y c s :
  snd (Base.prepare_data L df self) = ret (X, y) ->
  get_col X c = ret s ->
  Forall defined (s_values s).
Proof.
  intros Hrun Hc.
  destruct (prepare_data_returns L self df X y Hrun) as (F & cols & HF & HX).
  destruct (prepare_frame_form L df F cols HF) as (dfD & -> & Hcols).
  destruct (select_get _ _ _ HX) as (_ & Hnames & Hget).
  assert (Hin : In c cols) by (rewrite <- Hnames; exact (get_col_listed X c s Hc)).
  rewrite (Hget c Hin), fill_features_get in Hc.
  destruct (get_col dfD c) as [e | s0]; [discriminate |].
  rewrite bind_ret, (In_in_list c cols Hin) in Hc. injection Hc as <-.
  apply fill_zero_defined.
Qed.

(** X10. [predict] never changes the fitted regressor, the fitted scaler, the
    name or the trained flag of the model; but on a trained model it replaces
    the feature names recorded at training time by those derived from its
    input, whenever they can be derived. *)
Theorem predict_keeps_the_fit (self : Base.t L) df :
  Base.model (fst (RFM.predict L df self)) = Base.model self
  /\ Base.scaler (fst (RFM.predict L df self)) = Base.scaler self
  /\ Base.name (fst (RFM.predict L df self)) = Base.name self
  /\ Base.is_trained (fst (RFM.predict L df self)) = Base.is_trained self
  /\ Base.feature_columns (fst (RFM.predict L df self))
     = match Base.is_trained self, Base.prepare_frame L df with
       | true, inr p => snd p
       | _, _ => Base.feature_columns self
       end.
Proof.
  unfold RFM.predict, obind, this. simpl.
  destruct (Base.is_trained self) eqn:Ht; simpl; [| repeat split; assumption || reflexivity].
  unfold Base.prepare_data, obind, lift, assign, oret, this. simpl.
  destruct (Base.prepare_frame L df) as [e | [F cols]]; simpl;
    [repeat split; assumption || reflexivity |].
  repeat match goal with
         | |- context [match ?r with inl _ => _ | inr _ => _ end] =>
             destruct r; simpl
         | |- context [if ?b then _ else _] => destruct b; simpl
         end;
    repeat split; assumption || reflexivity.
Qed.

(** X7. A frame without a [date] column, the empty frame among them, makes
    [train] and a trained [predict] raise [KeyError] for [date], and the
    model is left as it was. *)
Theorem missing_date_column (self : Base.t L) df :
  has_col df "date" = false ->
  RFM.train L df self = (self, raise "KeyError" "date")
  /\ (Base.is_trained self = true ->
      RFM.predict L df self = (self, raise "KeyError" "date")).
Proof.
  intros Hd.
  assert (HF : Base.prepare_frame L df = raise "KeyError" "date").
  { unfold Base.prepare_frame, FeatureEngineering.extract_date_features.
    rewrite (get_col_missing df "date" Hd). reflexivity. }
  split.
  - unfold RFM.train, Base.prepare_data, obind, lift. rewrite HF. reflexivity.
  - intros Ht. unfold RFM.predict, obind, this. simpl. rewrite Ht. simpl.
    unfold Base.prepare_data, obind, lift. rewrite HF. reflexivity.
Qed.

(** X8. A frame with dates but without a [rate] column makes [train] raise
    [KeyError] for [rate], and the model is left as it was. *)
Theorem missing_rate_column (self : Base.t L) df d :
  get_col df "date" = ret d -> Forall is_stamp (s_values d) ->
  has_col df "rate" = false ->
  RFM.train L df self = (self, raise "KeyError" "rate").
Proof.
  intros Hd Hs Hr.
  assert (HF : Base.prepare_frame L df = raise "KeyError" "rate").
  { unfold Base.prepare_frame.
    destruct (extract_date_features_ok L df d Hd Hs) as [dfA HA].
    destruct (extract_date_features_get L _ _ HA) as (_ & (d' & _ & HdA) & HgetA).
    rewrite HA, bind_ret.
    unfold FeatureEngineering.add_lag_features.
    destruct (sort_values_ok dfA "date" _ HdA) as [df1 Hs1].
    destruct (sort_values_get _ _ _ Hs1) as (k & _ & _ & Hget1).
    rewrite Hs1, bind_ret. cbn [FeatureEngineering.add_lags].
    rewrite (Hget1 "rate"), HgetA by reflexivity.
    rewrite (get_col_missing df "rate" Hr). reflexivity. }
  unfold RFM.train, Base.prepare_data, obind, lift. rewrite HF. reflexivity.
Qed.

End PreparedClaims.

(** X9. The split point [int(0.8 * n)] leaves at least one row to evaluate on
    whenever there is a row at all, and leaves no row to train on exactly
    when there is at most one row. *)
Theorem train_size_edges n :
  ((1 <= n -> RFM.train_size n < n)
   /\ (RFM.train_size n = 0 <-> n <= 1))%nat.
Proof.
  pose proof (train_size_bounds n) as H. lia.
Qed.

(** ** More on the lag feature and the target *)

Lemma ffill_from_repeats l : forall last i,
  l !! S i = Some NaN -> ffill_from last l !! S i = ffill_from last l !! i.
Proof.
  induction l as [| x l IH]; intros last i Hi; [discriminate |].
  change (l !! i = Some NaN) in Hi.
  assert (Hstep : forall x', (x' :: ffill_from x' l) !! S i = (x' :: ffill_from x' l) !! i).
  { intros x'. destruct i as [| i].
    - destruct l as [| y l]; [discriminate |].
      assert (y = NaN) as -> by (apply (inj Some); exact Hi). reflexivity.
    - change (ffill_from x' l !! S i = ffill_from x' l !! i). apply IH. exact Hi. }
  destruct x; simpl; apply Hstep.
Qed.

Lemma filled_repeats l i :
  l !! S i = Some NaN -> fill_zero (ffill l) !! S i = fill_zero (ffill l) !! i.
Proof.
  intros Hi. unfold fill_zero, ffill.
  change (map ?f ?l) with (f <$> l). rewrite !list_lookup_fmap.
  rewrite (ffill_from_repeats l NaN i Hi). reflexivity.
Qed.

Section LagMore.
Context (L : Libs).

(** What [prepare_data] returns on a frame with dates and float rates. *)
Lemma prepare_data_lag (self : Base.t L) df d r :
  get_col df "date" = ret d -> get_col df "rate" = ret r ->
  Forall is_stamp (s_values d) ->
  s_dtype r = float64 ->
  length (s_values r) = length (s_values d) ->
  exists X,
    snd (Base.prepare_data L df self) = ret (X, Some (sorted_by d r))
    /\ df_len X = df_len df
    /\ get_col X "rate_lag_1" = ret (fillna_ffill_0 (shift 1 (sorted_by d r))).
Proof.
  intros Hd Hr Hstamps Hfloat Hlen.
  destruct (prepare_frame_lag L df d r Hd Hr Hstamps) as
    (F & cols & X & HF & HX & Hin & Hlag & Hrate);
    [rewrite Hfloat; reflexivity | rewrite Hfloat; reflexivity | exact Hlen |].
  destruct (select_get _ _ _ HX) as (HlenX & _ & HgetX).
  destruct (prepare_frame_dates_sorted L _ _ _ HF) as (HlenF & _).
  exists X. split; [| split].
  - unfold Base.prepare_data, obind, lift, assign, oret. rewrite HF. simpl.
    rewrite HX. simpl.
    assert (Hhas : has_col F "rate" = true).
    { unfold has_col. rewrite (get_col_assoc _ _ _ Hrate). reflexivity. }
    rewrite Hhas, Hrate. reflexivity.
  - congruence.
  - rewrite (HgetX _ Hin). exact Hlag.
Qed.

(** X2. On a frame with dates and float rates, [prepare_data] returns as
    many feature rows as the frame has rows, and as target the rate column
    put in the order of the dates, with its missing values left missing. *)
Theorem prepare_data_target (self : Base.t L) df d r :
  get_col df "date" = ret d -> get_col df "rate" = ret r ->
  Forall is_stamp (s_values d) ->
  s_dtype r = float64 ->
  length (s_values r) = length (s_values d) ->
  exists X,
    snd (Base.prepare_data L df self)
    = ret (X, Some {| s_dtype := float64;
                      s_values := reorder (s_values d) (s_values r) |})
    /\ df_len X = df_len df.
Proof.
  intros Hd Hr Hstamps Hfloat Hlen.
  destruct (prepare_data_lag self df d r Hd Hr Hstamps Hfloat Hlen) as (X & Hrun & HlenX & _).
  exists X. split; [| exact HlenX].
  rewrite Hrun. unfold sorted_by. rewrite Hfloat. reflexivity.
Qed.

(** X3. On a frame with one row per date, the feature [rate_lag_1] is 0 on
    the first row, where there is no earlier rate, and where the rate of the
    row before is missing it repeats its own value of the row before (the
    forward fill). *)
Theorem lag_1_fills_forward (self : Base.t L) df d r :
  get_col df "date" = ret d -> get_col df "rate" = ret r ->
  Forall is_stamp (s_values d) -> List.NoDup (s_values d) ->
  s_dtype r = float64 ->
  length (s_values r) = length (s_values d) ->
  exists X y lag,
    snd (Base.prepare_data L df self) = ret (X, y)
    /\ get_col X "rate_lag_1" = ret lag
    /\ (s_values r <> [] -> s_values lag !! 0%nat = Some (Num 0))
    /\ forall i, reorder (s_values d) (s_values r) !! i = Some NaN ->
                 S i < length (s_values r) ->
                 s_values lag !! S i = s_values lag !! i.
Proof.
  intros Hd Hr Hstamps _ Hfloat Hlen.
  destruct (prepare_data_lag self df d r Hd Hr Hstamps Hfloat Hlen) as (X & Hrun & _ & Hlag).
  exists X, (Some (sorted_by d r)), (fillna_ffill_0 (shift 1 (sorted_by d r))).
  split; [exact Hrun |]. split; [exact Hlag |].
  assert (Hn : length (s_values (sorted_by d r)) = length (s_values r)).
  { simpl. rewrite reorder_length. lia. }
  split.
  - intros Hne. cbn [sorted_by s_values] in Hn. simpl.
    destruct (reorder (s_values d) (s_values r)) as [| c l] eqn:Hre.
    + destruct (s_values r); [congruence | simpl in Hn; discriminate].
    + reflexivity.
  - intros i Hi Hlt. cbn [fillna_ffill_0 s_values].
    apply filled_repeats.
    rewrite shift_1_lookup by (rewrite Hn; lia).
    cbn [sorted_by s_values]. rewrite Nat.sub_succ, Nat.sub_0_r. exact Hi.
Qed.

End LagMore.

(** ** More on forecasting *)

Section ForecastMore.
Context (L : Libs).

Lemma prophet_predict_keeps_state dates (self : PFM.t L) :
  fst (PFM.predict L dates self) = self.
Proof.
  unfold PFM.predict, obind, this, oraise, lift, oret. simpl.
  destruct (negb (PFM.is_trained self) || negb (PROPHET_AVAILABLE L)); simpl; [reflexivity |].
  destruct (PFM.model self); simpl; [| reflexivity].
  destruct (prophet_predict L _ _); reflexivity.
Qed.

Lemma prophet_predict_tags dates (self : PFM.t L) fc :
  snd (PFM.predict L dates self) = ret fc ->
  Forall (fun p => model_name p = PFM.name self) fc.
Proof.
  unfold PFM.predict, obind, this, oraise, lift, oret. simpl.
  destruct (negb (PFM.is_trained self) || negb (PROPHET_AVAILABLE L)); simpl; [discriminate |].
  destruct (PFM.model self); simpl; [| discriminate].
  destruct (prophet_predict L _ _); simpl; [discriminate |].
  intros [= <-]. apply (proj2 (Forall_map _ _ _)). apply List.Forall_forall. reflexivity.
Qed.

(** The shape of a forecast and of the service after it. *)
Lemma forecast_rates_run db utcnow now hotel_id days_ahead (self s : FS.t L) r :
  FS.forecast_rates L db utcnow now hotel_id days_ahead self = (s, r) ->
  exists preds pr,
    r = ret (map (fun p => FS.rf_forecast (fst p) (snd p))
                 (combine (map (fun i => (now + days i)%Z) (seqZ 1 days_ahead)) preds)
             ++ pr)%list
    /\ FS.disk s = FS.disk self
    /\ FS.model_dir s = FS.model_dir self
    /\ FS.prophet s = FS.prophet self
    /\ (FS.disk self !! FS.model_path L self hotel_id = None ->
        preds = [] /\ FS.random_forest s = FS.random_forest self)
    /\ (PROPHET_AVAILABLE L && PFM.is_trained (FS.prophet self) = false -> pr = [])
    /\ Forall (fun p => model_name p = PFM.name (FS.prophet self)) pr.
Proof.
  unfold FS.forecast_rates.
  set (future_dates := map _ (seqZ 1 days_ahead)).
  unfold obind at 1.
  match goal with
  | |- context [try_except ?b ?h self] => destruct (try_except b h self) as [s1 r1] eqn:E1
  end.
  assert (H1 : exists preds,
             r1 = inr (map (fun p => FS.rf_forecast (fst p) (snd p)) (combine future_dates preds))
             /\ FS.disk s1 = FS.disk self /\ FS.model_dir s1 = FS.model_dir self
             /\ FS.prophet s1 = FS.prophet self
             /\ (FS.disk self !! FS.model_path L self hotel_id = None ->
                 preds = [] /\ FS.random_forest s1 = FS.random_forest self)).
  { assert (Hnil : forall s : FS.t L,
               FS.disk s = FS.disk self -> FS.model_dir s = FS.model_dir self ->
               FS.prophet s = FS.prophet self ->
               (FS.disk self !! FS.model_path L self hotel_id = None ->
                FS.random_forest s = FS.random_forest self) ->
               exists preds,
                 inr (B := list ForecastResult) (A := exn) [] =
                 inr (map (fun p => FS.rf_forecast (fst p) (snd p)) (combine future_dates preds))
                 /\ FS.disk s = FS.disk self /\ FS.model_dir s = FS.model_dir self
                 /\ FS.prophet s = FS.prophet self
                 /\ (FS.disk self !! FS.model_path L self hotel_id = None ->
                     preds = [] /\ FS.random_forest s = FS.random_forest self)).
    { intros s0 Hd Hm Hp Hr. exists []. rewrite combine_nil. simpl. auto 10. }
    revert E1. unfold try_except, obind, this, oret, lift, FS.on_random_forest.
    destruct (decide _) as [Hs | Hs]; simpl.
    - assert (Hsome : FS.disk self !! FS.model_path L self hotel_id = None -> False).
      { intros HN. rewrite HN in Hs. destruct Hs as [? ?]. discriminate. }
      destruct (Base.load_model L (FS.disk self) (FS.model_path L self hotel_id)
                                (FS.random_forest self)) as [m1 [e | []]]; simpl.
      + intros [= <- <-]. apply Hnil; try reflexivity. intros HN. destruct (Hsome HN).
      + destruct (negb (df_empty _)); simpl.
        * destruct (sort_values _ "date") as [e | cdf]; simpl.
          { intros [= <- <-]. apply Hnil; try reflexivity. intros HN. destruct (Hsome HN). }
          destruct (RFM.predict L cdf m1) as [m2 [e | preds]]; simpl.
          { intros [= <- <-]. apply Hnil; try reflexivity. intros HN. destruct (Hsome HN). }
          intros [= <- <-]. eexists. split; [reflexivity |].
          simpl. split; [reflexivity |]. split; [reflexivity |]. split; [reflexivity |].
          intros HN. destruct (Hsome HN).
        * intros [= <- <-]. apply Hnil; try reflexivity. intros HN. destruct (Hsome HN).
    - intros [= <- <-]. apply Hnil; reflexivity. }
  destruct H1 as (preds & -> & Hd & Hm & Hp & Hr).
  unfold obind, try_except, this, oret, FS.on_prophet. simpl.
  rewrite Hp.
  assert (Hk := prophet_predict_keeps_state future_dates (FS.prophet self)).
  assert (Ht := prophet_predict_tags future_dates (FS.prophet self)).
  destruct (PROPHET_AVAILABLE L && PFM.is_trained (FS.prophet self)) eqn:Ha; simpl.
  - rewrite ?Hp.
    destruct (PFM.predict L future_dates (FS.prophet self)) as [p1 [e | fc]]; simpl in *;
      subst p1; intros [= <- <-]; exists preds; [exists [] | exists fc]; rewrite ?app_nil_r;
      (split; [reflexivity |]; split; [exact Hd |]; split; [exact Hm |];
       split; [reflexivity |]; split; [exact Hr |]; split; [discriminate |]).
    + constructor.
    + apply Ht. reflexivity.
  - intros [= <- <-]. exists preds, []. rewrite app_nil_r.
    split; [reflexivity |]. split; [exact Hd |]. split; [exact Hm |].
    split; [exact Hp |]. split; [exact Hr |]. split; [reflexivity | constructor].
Qed.

Lemma forecast_rates_shape db utcnow now hotel_id days_ahead (self : FS.t L) :
  exists preds pr,
    snd (FS.forecast_rates L db utcnow now hotel_id days_ahead self)
    = ret (map (fun p => FS.rf_forecast (fst p) (snd p))
               (combine (map (fun i => (now + days i)%Z) (seqZ 1 days_ahead)) preds)
           ++ pr)%list
    /\ FS.disk (fst (FS.forecast_rates L db utcnow now hotel_id days_ahead self)) = FS.disk self
    /\ FS.model_dir (fst (FS.forecast_rates L db utcnow now hotel_id days_ahead self))
       = FS.model_dir self
    /\ FS.prophet (fst (FS.forecast_rates L db utcnow now hotel_id days_ahead self))
       = FS.prophet self
    /\ (FS.disk self !! FS.model_path L self hotel_id = None ->
        preds = []
        /\ FS.random_forest (fst (FS.forecast_rates L db utcnow now hotel_id days_ahead self))
           = FS.random_forest self)
    /\ (PROPHET_AVAILABLE L && PFM.is_trained (FS.prophet self) = false -> pr = [])
    /\ Forall (fun p => model_name p = PFM.name (FS.prophet self)) pr.
Proof.
  destruct (FS.forecast_rates L db utcnow now hotel_id days_ahead self) as [s r] eqn:E.
  exact (forecast_rates_run _ _ _ _ _ _ _ _ E).
Qed.

(** X16. Forecasting over dates in range never raises, and it never touches
    the saved models, the model directory or the Prophet model of the
    service. *)
Theorem forecast_rates_leaves_artifacts db utcnow now hotel_id days_ahead (self : FS.t L) :
  dates_in_range now days_ahead ->
  returns (snd (FS.forecast_rates L db utcnow now hotel_id days_ahead self))
  /\ FS.disk (fst (FS.forecast_rates L db utcnow now hotel_id days_ahead self)) = FS.disk self
  /\ FS.model_dir (fst (FS.forecast_rates L db utcnow now hotel_id days_ahead self))
     = FS.model_dir self
  /\ FS.prophet (fst (FS.forecast_rates L db utcnow now hotel_id days_ahead self))
     = FS.prophet self.
Proof.
  intros _.
  destruct (forecast_rates_shape db utcnow now hotel_id days_ahead self)
    as (preds & pr & Hrun & Hd & Hm & Hp & _).
  split; [eexists; exact Hrun | auto].
Qed.

(** X17. Without a saved model of the hotel and without a trained, available
    Prophet, the forecast over dates in range is empty and the service is
    left exactly as it was. *)
Theorem forecast_rates_without_models db utcnow now hotel_id days_ahead (self : FS.t L) :
  dates_in_range now days_ahead ->
  FS.disk self !! FS.model_path L self hotel_id = None ->
  PROPHET_AVAILABLE L && PFM.is_trained (FS.prophet self) = false ->
  FS.forecast_rates L db utcnow now hotel_id days_ahead self = (self, ret []).
Proof.
  intros _ Hnone Hpm.
  destruct (forecast_rates_shape db utcnow now hotel_id days_ahead self)
    as (preds & pr & Hrun & Hd & Hm & Hp & Hrf & Hpr & _).
  destruct (Hrf Hnone) as [-> Hr]. rewrite (Hpr Hpm), combine_nil in Hrun. simpl in Hrun.
  destruct (FS.forecast_rates L db utcnow now hotel_id days_ahead self) as [s r].
  simpl in *. subst r. f_equal.
  destruct s, self. simpl in *. congruence.
Qed.

(** X18. A forecast lists the Random Forest points first and the Prophet
    points after them, each tagged with the name of its model, and there
    are at most [days_ahead] Random Forest points (none when [days_ahead]
    is not positive). *)
Theorem forecast_rates_points db utcnow now hotel_id days_ahead (self : FS.t L) :
  exists rf pr,
    snd (FS.forecast_rates L db utcnow now hotel_id days_ahead self) = ret (rf ++ pr)%list
    /\ Forall (fun p => model_name p = "Random Forest") rf
    /\ Forall (fun p => model_name p = PFM.name (FS.prophet self)) pr
    /\ (Z.of_nat (length rf) <= Z.max 0 days_ahead)%Z.
Proof.
  destruct (forecast_rates_shape db utcnow now hotel_id days_ahead self)
    as (preds & pr & Hrun & _ & _ & _ & _ & _ & Htags).
  eexists. exists pr. split; [exact Hrun |].
  split; [| split; [exact Htags |]].
  - apply (proj2 (Forall_map _ _ _)). apply List.Forall_forall. intros [d q] _. reflexivity.
  - rewrite length_map, length_combine, length_map, length_seqZ. lia.
Qed.

End ForecastMore.

(** ** More on training *)

Lemma joined_filter (f : RateData.t -> bool) db :
  List.filter (fun p => f (fst p)) (joined db)
  = flat_map (fun r => map (fun h => (r, h))
                           (List.filter (fun h => (Hotel.id h =? RateData.hotel_id r)%Z)
                                        (hotels db)))
             (List.filter f (rate_data db)).
Proof.
  unfold joined. induction (rate_data db) as [| r l IH]; [reflexivity |].
  cbn [flat_map List.filter]. rewrite List.filter_app, IH.
  assert (Hr : forall hs : list Hotel.t,
             List.filter (fun p : RateData.t * Hotel.t => f (fst p)) (map (fun h => (r, h)) hs)
             = if f r then map (fun h => (r, h)) hs else []).
  { induction hs as [| h hs IHh]; simpl; [destruct (f r); reflexivity |].
    rewrite IHh. destruct (f r); reflexivity. }
  rewrite Hr. destruct (f r); reflexivity.
Qed.

Section TrainMore.
Context (L : Libs).

Lemma no_observations_no_frame db utcnow hotel_id days_back :
  observations db utcnow hotel_id days_back = [] ->
  FS.get_hotel_data db utcnow hotel_id days_back = empty_frame.
Proof.
  unfold observations, FS.get_hotel_data. intros Hnone.
  rewrite (joined_filter (fun r => (RateData.hotel_id r =? hotel_id)%Z
                                   && (utcnow - days days_back <=? RateData.scraped_at r)%Z)).
  rewrite Hnone. reflexivity.
Qed.

(** X14. For a hotel without an observation scraped in the last 365 days,
    [train_models] trains nothing: it returns the empty map and leaves the
    models and the saved artifacts as they were. *)
Theorem train_models_without_observations db utcnow hotel_id (self : FS.t L) :
  observations db utcnow hotel_id 365 = [] ->
  FS.train_models L db utcnow hotel_id self = (self, ret ∅).
Proof.
  intros Hnone. apply train_models_no_data.
  rewrite (no_observations_no_frame _ _ _ _ Hnone). reflexivity.
Qed.

(** What [train_models] does to the service. *)
Lemma train_models_state db utcnow hotel_id (self : FS.t L) :
  returns (snd (FS.train_models L db utcnow hotel_id self))
  /\ FS.model_dir (fst (FS.train_models L db utcnow hotel_id self)) = FS.model_dir self
  /\ forall path, path <> FS.model_path L self hotel_id ->
                  FS.disk (fst (FS.train_models L db utcnow hotel_id self)) !! path
                  = FS.disk self !! path.
Proof.
  destruct (df_empty (FS.get_hotel_data db utcnow hotel_id 365)) eqn:He.
  - rewrite train_models_no_data by exact He. simpl. split; [eexists; reflexivity | auto].
  - rewrite train_models_spec by exact He. simpl. split; [eexists; reflexivity |].
    split; [reflexivity |].
    intros path Hp. unfold saved_after.
    destruct (snd (RFM.train L _ _)); [reflexivity |].
    unfold Base.save_model. apply lookup_insert_ne. congruence.
Qed.

(** X15. When Prophet is not installed, training leaves the Prophet model of
    the service untouched, and a forecast consists of Random Forest points
    only. *)
Theorem without_prophet db utcnow now hotel_id days_ahead (self : FS.t L) :
  PROPHET_AVAILABLE L = false ->
  FS.prophet (fst (FS.train_models L db utcnow hotel_id self)) = FS.prophet self
  /\ exists rf,
      snd (FS.forecast_rates L db utcnow now hotel_id days_ahead self) = ret rf
      /\ Forall (fun p => model_name p = "Random Forest") rf.
Proof.
  intros Hno. split.
  - destruct (df_empty (FS.get_hotel_data db utcnow hotel_id 365)) eqn:He.
    + rewrite train_models_no_data by exact He. reflexivity.
    + rewrite train_models_spec by exact He. simpl.
      unfold PFM.train. rewrite Hno. reflexivity.
  - destruct (forecast_rates_shape L db utcnow now hotel_id days_ahead self)
      as (preds & pr & Hrun & _ & _ & _ & _ & Hpr & _).
    rewrite Hpr, app_nil_r in Hrun by (rewrite Hno; reflexivity).
    eexists. split; [exact Hrun |].
    apply (proj2 (Forall_map _ _ _)). apply List.Forall_forall. intros [d q] _. reflexivity.
Qed.

(** X22. The background training writes artifacts of own hotels only: any
    other path of the model directory holds after it what it held before. *)
Theorem train_all_models_writes_own_hotels_only db utcnow fs path :
  (forall h, In h (hotels db) -> Hotel.is_own h = true ->
             path <> "models/rf_hotel_" +:+ pretty (Hotel.id h) +:+ ".joblib") ->
  FS.disk (FS.train_all_models L db utcnow fs) !! path = fs !! path.
Proof.
  intros Hpath. unfold FS.train_all_models.
  assert (Hown : forall h, In h (List.filter Hotel.is_own (hotels db)) ->
                           path <> "models/rf_hotel_" +:+ pretty (Hotel.id h) +:+ ".joblib").
  { intros h Hh. apply List.filter_In in Hh as [Hin Ho]. exact (Hpath h Hin Ho). }
  clear Hpath. revert Hown.
  change (fs !! path) with (FS.disk (FS.init L fs) !! path).
  assert (Hdir : FS.model_dir (FS.init L fs) = "models") by reflexivity.
  revert Hdir. generalize (FS.init L fs). generalize (List.filter Hotel.is_own (hotels db)).
  intros l. induction l as [| h l IH]; intros s Hdir Hown; [reflexivity |].
  cbn [fold_left].
  destruct (train_models_state db utcnow (Hotel.id h) s) as ([res Hres] & Hm & Hd).
  assert (Hstep : fst (try_except (results <~ FS.train_models L db utcnow (Hotel.id h) ;; oret tt)
                                  (fun _ => oret tt) s)
                  = fst (FS.train_models L db utcnow (Hotel.id h) s)).
  { unfold try_except, obind, oret.
    destruct (FS.train_models L db utcnow (Hotel.id h) s) as [s' r]. simpl in *.
    rewrite Hres. reflexivity. }
  rewrite Hstep.
  rewrite IH.
  - apply Hd. unfold FS.model_path. rewrite Hdir. apply Hown. left. reflexivity.
  - rewrite Hm. exact Hdir.
  - intros h' Hh'. apply Hown. right. exact Hh'.
Qed.

End TrainMore.

(** ** The frame of a hotel's history *)

Lemma filter_Forall {A} (P : A -> Prop) (f : A -> bool) l :
  Forall P l -> Forall P (List.filter f l).
Proof.
  induction 1 as [| x l Hx Hl IH]; simpl; [constructor |].
  destruct (f x); [constructor; assumption | assumption].
Qed.

Lemma filter_sorted {A} (R : A -> A -> Prop) (f : A -> bool) l :
  StronglySorted R l -> StronglySorted R (List.filter f l).
Proof.
  induction 1 as [| x l Hs IH Hall]; simpl; [constructor |].
  destruct (f x); [| exact IH].
  constructor; [exact IH | apply filter_Forall; exact Hall].
Qed.

Lemma distinct_Forall (P : Z -> Prop) l : Forall P l -> Forall P (distinct l).
Proof.
  induction 1 as [| x l Hx Hl IH]; simpl; [constructor |].
  constructor; [exact Hx | apply filter_Forall; exact IH].
Qed.

Lemma distinct_In x l : In x (distinct l) -> In x l.
Proof.
  revert x. induction l as [| y l IH]; simpl; intros x; [tauto |].
  intros [-> | Hx]; [auto |].
  apply List.filter_In in Hx as [Hx _]. auto.
Qed.

(** The distinct values of a list in order are in strict order. *)
Lemma distinct_sorted l :
  StronglySorted (fun a b => (a <=? b)%Z = true) l -> StronglySorted Z.lt (distinct l).
Proof.
  induction 1 as [| x l Hs IH Hall]; simpl; [constructor |].
  constructor; [apply filter_sorted; exact IH |].
  apply List.Forall_forall. intros y Hy.
  apply List.filter_In in Hy as [Hy Hne].
  apply distinct_In in Hy.
  rewrite List.Forall_forall in Hall. specialize (Hall y Hy).
  apply Z.leb_le in Hall. apply negb_true_iff, Z.eqb_neq in Hne. lia.
Qed.

Lemma Z_leb_total a b : (a <=? b)%Z = true \/ (b <=? a)%Z = true.
Proof. rewrite !Z.leb_le. lia. Qed.

Lemma Z_leb_trans a b c : (a <=? b)%Z = true -> (b <=? c)%Z = true -> (a <=? c)%Z = true.
Proof. rewrite !Z.leb_le. lia. Qed.

(** X13. The frame of a hotel's history has one row per date on which the
    hotel has an observation scraped in the window: its dates increase
    strictly, each is the date of such an observation, and every column has
    as many values as the frame has rows. *)
Theorem get_hotel_data_one_row_per_date db utcnow hotel_id days_back :
  df_empty (FS.get_hotel_data db utcnow hotel_id days_back) = false ->
  exists ds,
    get_col (FS.get_hotel_data db utcnow hotel_id days_back) "date"
    = ret {| s_dtype := datetime64; s_values := map Stamp ds |}
    /\ StronglySorted Z.lt ds
    /\ df_len (FS.get_hotel_data db utcnow hotel_id days_back) = length ds
    /\ Forall (fun c => length (s_values (snd c)) = length ds)
              (df_columns (FS.get_hotel_data db utcnow hotel_id days_back))
    /\ forall d, In d ds ->
                 exists r, In r (observations db utcnow hotel_id days_back)
                           /\ RateData.date r = d.
Proof.
  unfold FS.get_hotel_data.
  set (kept := List.filter _ (joined db)).
  set (pairs := map (fun p : RateData.t * Hotel.t => (RateData.date (fst p), p)) kept).
  assert (Hkeys : map (fun p : RateData.t * Hotel.t => RateData.date (fst p))
                      (map snd (isort Z.leb pairs))
                  = map fst (isort Z.leb pairs)).
  { assert (HF : Forall (fun kp : Z * (RateData.t * Hotel.t) =>
                           fst kp = RateData.date (fst (snd kp))) (isort Z.leb pairs)).
    { apply isort_Forall. unfold pairs. apply (proj2 (Forall_map _ _ _)).
      apply List.Forall_forall. reflexivity. }
    induction HF as [| kp l Hkp Hl IH]; simpl; [reflexivity |].
    rewrite IH, Hkp. reflexivity. }
  assert (Hsorted := isort_sorted Z.leb Z_leb_total Z_leb_trans pairs).
  assert (Hfrom : forall p, In p (map snd (isort Z.leb pairs)) -> In p kept).
  { assert (HF : Forall (fun kp : Z * (RateData.t * Hotel.t) => In (snd kp) kept)
                        (isort Z.leb pairs)).
    { apply isort_Forall. unfold pairs. apply (proj2 (Forall_map _ _ _)).
      apply List.Forall_forall. intros p Hp. exact Hp. }
    intros p Hp. apply in_map_iff in Hp as (kp & <- & Hkp).
    rewrite List.Forall_forall in HF. exact (HF kp Hkp). }
  rewrite <- Hkeys in Hsorted. clear Hkeys.
  revert Hsorted Hfrom. generalize (map snd (isort Z.leb pairs)). intros rates Hsorted Hfrom.
  destruct rates as [| p0 rates'] eqn:Hrates; [discriminate |]. rewrite <- Hrates in *.
  intros _. unfold FS.group_frame.
  set (ds := distinct (map (fun p : RateData.t * Hotel.t => RateData.date (fst p)) rates)).
  exists ds. split; [reflexivity |]. split; [apply distinct_sorted; exact Hsorted |].
  split; [reflexivity |]. split.
  - cbn [df_columns]. repeat constructor; cbn [snd s_values]; apply length_map.
  - intros d Hd. apply distinct_In in Hd. apply in_map_iff in Hd as (p & <- & Hp).
    exists (fst p). split; [| reflexivity].
    apply Hfrom in Hp. unfold kept in Hp. apply List.filter_In in Hp as [Hj Hc].
    unfold observations. apply List.filter_In. split; [| exact Hc].
    unfold joined in Hj. apply in_flat_map in Hj as (r & Hr & Hin).
    apply in_map_iff in Hin as (h & <- & _). exact Hr.
Qed.

(** ** Averages, minima and maxima *)

Lemma Qltb_lt a b : Qltb a b = true <-> (a < b)%Q.
Proof.
  unfold Qltb. rewrite negb_true_iff. split.
  - intros H. apply Qnot_le_lt. intros Hle. apply Qle_bool_iff in Hle. congruence.
  - intros H. destruct (Qle_bool b a) eqn:Hb; [| reflexivity].
    apply Qle_bool_iff in Hb. exfalso. exact (Qlt_not_le _ _ H Hb).
Qed.

Lemma Qltb_ge a b : Qltb a b = false <-> (b <= a)%Q.
Proof.
  unfold Qltb. rewrite negb_false_iff. apply Qle_bool_iff.
Qed.

Lemma Qminl_spec l : forall x,
  (Qminl x l <= x)%Q /\ Forall (fun y => (Qminl x l <= y)%Q) l.
Proof.
  induction l as [| y l IH]; intros x; simpl.
  - split; [apply Qle_refl | constructor].
  - destruct (IH (if Qltb y x then y else x)) as [H1 H2].
    destruct (Qltb y x) eqn:Hyx.
    + apply Qltb_lt in Hyx. split; [lra |]. constructor; assumption.
    + apply Qltb_ge in Hyx. split; [exact H1 |]. constructor; [lra | exact H2].
Qed.

Lemma Qmaxl_spec l : forall x,
  (x <= Qmaxl x l)%Q /\ Forall (fun y => (y <= Qmaxl x l)%Q) l.
Proof.
  induction l as [| y l IH]; intros x; simpl.
  - split; [apply Qle_refl | constructor].
  - destruct (IH (if Qltb x y then y else x)) as [H1 H2].
    destruct (Qltb x y) eqn:Hxy.
    + apply Qltb_lt in Hxy. split; [lra |]. constructor; assumption.
    + apply Qltb_ge in Hxy. split; [exact H1 |]. constructor; [lra | exact H2].
Qed.

Lemma Qlen_cons {A} (x : A) l : (Qlen (x :: l) == Qlen l + 1)%Q.
Proof.
  unfold Qlen. cbn [length]. rewrite Nat2Z.inj_succ. unfold Z.succ.
  rewrite inject_Z_plus. apply Qeq_refl.
Qed.

Lemma Qlen_pos {A} (x : A) l : (0 < Qlen (x :: l))%Q.
Proof.
  unfold Qlen, Qlt. cbn [length inject_Z Qnum Qden]. lia.
Qed.

Lemma Qsum_lower m l : Forall (fun y => (m <= y)%Q) l -> (m * Qlen l <= Qsum l)%Q.
Proof.
  induction 1 as [| y l Hy Hl IH].
  - unfold Qlen, Qsum. cbn [length fold_right Z.of_nat]. change (inject_Z (Z.of_nat 0)) with 0%Q. lra.
  - rewrite Qlen_cons. cbn [Qsum fold_right]. fold (Qsum l). lra.
Qed.

Lemma Qsum_upper m l : Forall (fun y => (y <= m)%Q) l -> (Qsum l <= m * Qlen l)%Q.
Proof.
  induction 1 as [| y l Hy Hl IH].
  - unfold Qlen, Qsum. cbn [length fold_right Z.of_nat]. change (inject_Z (Z.of_nat 0)) with 0%Q. lra.
  - rewrite Qlen_cons. cbn [Qsum fold_right]. fold (Qsum l). lra.
Qed.

Lemma Qmean_lower m x l : Forall (fun y => (m <= y)%Q) (x :: l) -> (m <= Qmean (x :: l))%Q.
Proof.
  intros H. unfold Qmean. apply Qle_shift_div_l; [apply Qlen_pos | apply Qsum_lower; exact H].
Qed.

Lemma Qmean_upper m x l : Forall (fun y => (y <= m)%Q) (x :: l) -> (Qmean (x :: l) <= m)%Q.
Proof.
  intros H. unfold Qmean. apply Qle_shift_div_r; [apply Qlen_pos | apply Qsum_upper; exact H].
Qed.

(** The mean of a list lies between its minimum and its maximum. *)
Lemma Qmean_bounds x l :
  (Qminl x l <= Qmean (x :: l))%Q /\ (Qmean (x :: l) <= Qmaxl x l)%Q.
Proof.
  destruct (Qminl_spec l x) as [Hm1 Hm2]. destruct (Qmaxl_spec l x) as [HM1 HM2].
  split; [apply Qmean_lower | apply Qmean_upper]; constructor; assumption.
Qed.

(** X21. For competitors whose rates are not negative, the advice to reduce
    rates never comes with the remark that the hotel prices below all
    competitors, nor the advice to increase rates with the remark that it
    prices above all of them; and there are always one or two
    recommendations. *)
Theorem recommendations_are_consistent target x rest :
  Forall (fun c => (0 <= c)%Q) (x :: rest) ->
  (1 <= length (FS._generate_recommendations target (x :: rest)) <= 2)%nat
  /\ ~ (In "Consider reducing rates to be more competitive"
           (FS._generate_recommendations target (x :: rest))
        /\ In "You're pricing below all competitors - potential revenue opportunity"
              (FS._generate_recommendations target (x :: rest)))
  /\ ~ (In "Opportunity to increase rates while remaining competitive"
           (FS._generate_recommendations target (x :: rest))
        /\ In "You're pricing above all competitors - monitor demand closely"
              (FS._generate_recommendations target (x :: rest))).
Proof.
  intros Hpos.
  destruct (Qmean_bounds x rest) as [Hlo Hhi].
  assert (Havg : (0 <= Qmean (x :: rest))%Q) by (apply Qmean_lower; exact Hpos).
  unfold FS._generate_recommendations.
  destruct (Qltb (Qmean (x :: rest) * (11 # 10)) target) eqn:C1;
    [| destruct (Qltb target (Qmean (x :: rest) * (9 # 10))) eqn:C2];
    (destruct (Qltb (Qmaxl x rest) target) eqn:C3;
     [| destruct (Qltb target (Qminl x rest)) eqn:C4]);
    rewrite ?Qltb_lt, ?Qltb_ge in *;
    (split; [simpl; lia |]);
    (split; intros [H1 H2]; simpl in H1, H2;
     repeat match goal with
            | H : _ \/ _ |- _ => destruct H
            | H : False |- _ => destruct H
            | H : _ = _ :> string |- _ => discriminate H
            end; try lra).
Qed.

(** ** The rolling features *)

Lemma pretty_windows :
  pretty 7%nat = "7" /\ pretty 14%nat = "14" /\ pretty 30%nat = "30".
Proof. vm_compute. auto. Qed.

Section Rolling.
Context (L : Libs).

Lemma rolling_numeric w agg t :
  is_numeric (s_dtype t) = true -> rolling w agg t = ret (rolled w agg (s_values t)).
Proof.
  intros Hnum. unfold rolling. rewrite Hnum. reflexivity.
Qed.

(** The columns [add_rollings] writes for the three windows. *)
Lemma add_rollings_columns df t :
  get_col df "rate" = ret t -> is_numeric (s_dtype t) = true ->
  exists dfC,
    FeatureEngineering.add_rollings L df "rate" [7; 14; 30]%nat = ret dfC
    /\ forall w, In w [7; 14; 30]%nat ->
         get_col dfC ("rate_rolling_mean_" +:+ pretty w)
         = ret (rolled w FeatureEngineering.roll_mean (s_values t))
         /\ get_col dfC ("rate_rolling_std_" +:+ pretty w)
            = ret (rolled w (FeatureEngineering.roll_std L) (s_values t))
         /\ get_col dfC ("rate_rolling_min_" +:+ pretty w)
            = ret (rolled w FeatureEngineering.roll_min (s_values t))
         /\ get_col dfC ("rate_rolling_max_" +:+ pretty w)
            = ret (rolled w FeatureEngineering.roll_max (s_values t)).
Proof.
  intros Ht Hnum.
  cbn [FeatureEngineering.add_rollings]. cbv zeta.
  rewrite Ht, bind_ret, (rolling_numeric _ _ _ Hnum), bind_ret.
  do 11 (rewrite !get_col_set_col, !rolling_name_other by reflexivity;
         rewrite Ht, bind_ret, (rolling_numeric _ _ _ Hnum), bind_ret).
  eexists. split; [reflexivity |].
  destruct pretty_windows as (H7 & H14 & H30).
  intros w [<- | [<- | [<- | []]]]; rewrite !get_col_set_col, ?H7, ?H14, ?H30;
    simpl (String.eqb _ _); cbv iota; auto.
Qed.

(** A float column of the frame with the rolling statistics, other than
    those rewritten afterwards, reaches the features, filled. *)
Lemma column_reaches_features dfC dfD X c s :
  FeatureEngineering.add_competitive_features dfC = ret dfD ->
  select (Base.fill_features (map fst (List.filter Base.is_feature (df_columns dfD))) dfD)
         (map fst (List.filter Base.is_feature (df_columns dfD))) = ret X ->
  get_col dfC c = ret s -> s_dtype s = float64 ->
  existsb (String.eqb c) competitive_features = false ->
  Base.in_list c Base.exclude_cols = false ->
  get_col X c = ret (fillna_ffill_0 s).
Proof.
  intros HD HX Hc Hfloat Hcomp Hex.
  destruct (add_competitive_features_get _ _ HD) as (_ & HgetD).
  assert (HcD : get_col dfD c = ret s) by (rewrite HgetD by exact Hcomp; exact Hc).
  assert (Hlisted : Base.in_list c (map fst (List.filter Base.is_feature (df_columns dfD))) = true).
  { apply (feature_listed _ s); [apply get_col_assoc; exact HcD |].
    unfold Base.is_feature. cbn [fst snd]. rewrite Hex, Hfloat. reflexivity. }
  destruct (select_get _ _ _ HX) as (_ & _ & HgetX).
  rewrite (HgetX c (in_list_In _ _ Hlisted)), fill_features_get, HcD, bind_ret, Hlisted.
  reflexivity.
Qed.

(** The rolling features [prepare_data] returns on a frame with dates and
    float rates: the statistics of the rate column in the order of the
    dates, filled. *)
Lemma prepare_data_rolling (self : Base.t L) df d r :
  get_col df "date" = ret d -> get_col df "rate" = ret r ->
  Forall is_stamp (s_values d) ->
  s_dtype r = float64 ->
  length (s_values r) = length (s_values d) ->
  exists X y,
    snd (Base.prepare_data L df self) = ret (X, y)
    /\ forall w, In w [7; 14; 30]%nat ->
         get_col X ("rate_rolling_mean_" +:+ pretty w)
         = ret (fillna_ffill_0 (rolled w FeatureEngineering.roll_mean
                                       (reorder (s_values d) (s_values r))))
         /\ get_col X ("rate_rolling_std_" +:+ pretty w)
            = ret (fillna_ffill_0 (rolled w (FeatureEngineering.roll_std L)
                                          (reorder (s_values d) (s_values r))))
         /\ get_col X ("rate_rolling_min_" +:+ pretty w)
            = ret (fillna_ffill_0 (rolled w FeatureEngineering.roll_min
                                          (reorder (s_values d) (s_values r))))
         /\ get_col X ("rate_rolling_max_" +:+ pretty w)
            = ret (fillna_ffill_0 (rolled w FeatureEngineering.roll_max
                                          (reorder (s_values d) (s_values r)))).
Proof.
  intros Hd Hr Hstamps Hfloat Hlen.
  assert (Hnum : is_numeric (s_dtype r) = true) by (rewrite Hfloat; reflexivity).
  (* dates *)
  destruct (extract_date_features_ok L df d Hd Hstamps) as [dfA HA].
  destruct (extract_date_features_get L _ _ HA) as (_ & (d' & Hd' & HdA) & HgetA).
  rewrite Hd in Hd'. injection Hd' as <-.
  assert (HrA : get_col dfA "rate" = ret r) by (rewrite HgetA by reflexivity; exact Hr).
  (* lags *)
  destruct (add_lag_features_ok dfA _ r HdA HrA) as [dfB HB].
  destruct (add_lag_features_get _ _ HB) as (k & r' & Hk & Hr' & _ & _ & HgetB).
  rewrite HdA in Hk. injection Hk as <-. rewrite HrA in Hr'. injection Hr' as <-.
  assert (HdB : get_col dfB "date" = ret (sorted_by d {| s_dtype := datetime64; s_values := s_values d |}))
    by (rewrite HgetB by reflexivity; rewrite HdA; reflexivity).
  assert (HrB : get_col dfB "rate" = ret (sorted_by d r))
    by (rewrite HgetB by reflexivity; rewrite HrA; reflexivity).
  (* rolling statistics *)
  set (dB := sorted_by d {| s_dtype := datetime64; s_values := s_values d |}) in *.
  assert (HsB : StronglySorted key_le (s_values dB)) by apply reorder_keys_sorted.
  assert (HlB : length (s_values dB) = length (s_values (sorted_by d r))).
  { unfold dB. simpl. rewrite !reorder_length. lia. }
  destruct (sort_values_ok dfB "date" _ HdB) as [df1 Hs1].
  destruct (sort_values_get _ _ _ Hs1) as (k & Hk & _ & Hget1).
  rewrite HdB in Hk. injection Hk as <-.
  assert (Hr1 : get_col df1 "rate" = ret (sorted_by d r)).
  { rewrite Hget1, HrB, bind_ret. f_equal. apply sorted_by_id; assumption. }
  assert (Hd1 : get_col df1 "date" = ret dB).
  { rewrite Hget1, HdB, bind_ret. f_equal. apply sorted_by_id; [assumption | reflexivity]. }
  destruct (add_rollings_columns df1 (sorted_by d r) Hr1 Hnum) as (dfC & HC1 & Hcols).
  assert (HC : FeatureEngineering.add_rolling_features L dfB "rate" [7; 14; 30]%nat = ret dfC).
  { unfold FeatureEngineering.add_rolling_features. rewrite Hs1, bind_ret. exact HC1. }
  destruct (add_rollings_get L _ _ _ HC1) as (_ & HgetC).
  assert (HdC : get_col dfC "date" = ret dB) by (rewrite HgetC by reflexivity; exact Hd1).
  assert (HrC : get_col dfC "rate" = ret (sorted_by d r))
    by (rewrite HgetC by reflexivity; exact Hr1).
  (* competitive features, selection and filling *)
  destruct (add_competitive_features_ok dfC _ _ HdC HrC) as [dfD HD].
  destruct (add_competitive_features_get _ _ HD) as (_ & HgetD).
  assert (HrD : get_col dfD "rate" = ret (sorted_by d r))
    by (rewrite HgetD by reflexivity; exact HrC).
  destruct (select_features_ok dfD) as [X HX].
  assert (HF : Base.prepare_frame L df
               = ret (Base.fill_features (map fst (List.filter Base.is_feature (df_columns dfD))) dfD,
                      map fst (List.filter Base.is_feature (df_columns dfD)))).
  { unfold Base.prepare_frame. rewrite HA, bind_ret, HB, bind_ret, HC, bind_ret, HD, bind_ret.
    reflexivity. }
  exists X, (Some (sorted_by d r)). split.
  - unfold Base.prepare_data, obind, lift, assign, oret. rewrite HF. simpl.
    rewrite HX. simpl.
    assert (Hrate : get_col (Base.fill_features
                               (map fst (List.filter Base.is_feature (df_columns dfD))) dfD) "rate"
                    = ret (sorted_by d r)).
    { rewrite fill_features_get, HrD, bind_ret, excluded_not_listed by reflexivity. reflexivity. }
    assert (Hhas : has_col (Base.fill_features
                              (map fst (List.filter Base.is_feature (df_columns dfD))) dfD) "rate"
                   = true).
    { unfold has_col. rewrite (get_col_assoc _ _ _ Hrate). reflexivity. }
    rewrite Hhas, Hrate. reflexivity.
  - intros w Hw. destruct (Hcols w Hw) as (Hmean & Hstd & Hmin & Hmax).
    destruct pretty_windows as (H7 & H14 & H30).
    destruct Hw as [<- | [<- | [<- | []]]]; rewrite ?H7, ?H14, ?H30 in *;
      (repeat split;
       (eapply (column_reaches_features dfC dfD X); [exact HD | exact HX | | reflexivity ..]);
       assumption).
Qed.

End Rolling.

(** ** The order of the rolling statistics *)

Lemma roll_ordered v :
  (FeatureEngineering.roll_min v = NaN /\ FeatureEngineering.roll_max v = NaN)
  \/ ordered_cells (FeatureEngineering.roll_min v) (FeatureEngineering.roll_max v).
Proof.
  destruct v as [| x v]; [left; auto |].
  right. destruct (Qmean_bounds x v) as [Hlo Hhi].
  unfold ordered_cells. simpl. do 2 eexists. split; [reflexivity |]. split; [reflexivity |].
  exact (Qle_trans _ _ _ Hlo Hhi).
Qed.

Lemma rolled_ordered (g : nat -> list Q) (vals : list cell) :
  Forall2 (fun a b => (a = NaN /\ b = NaN) \/ ordered_cells a b)
          (imap (fun i _ => FeatureEngineering.roll_min (g i)) vals)
          (imap (fun i _ => FeatureEngineering.roll_max (g i)) vals).
Proof.
  revert g. induction vals as [| c vals IH]; intros g; [constructor |].
  cbn [imap]. constructor; [apply roll_ordered |].
  exact (IH (fun i => g (S i))).
Qed.

Lemma ordered_cells_defined a b :
  ordered_cells a b -> is_nan a = false /\ is_nan b = false.
Proof.
  intros (x & y & -> & -> & _). auto.
Qed.

Lemma ffill_from_ordered l1 l2 :
  Forall2 (fun a b => (a = NaN /\ b = NaN) \/ ordered_cells a b) l1 l2 ->
  forall a1 a2,
    (a1 = NaN /\ a2 = NaN) \/ ordered_cells a1 a2 ->
    Forall2 (fun a b => (a = NaN /\ b = NaN) \/ ordered_cells a b)
            (ffill_from a1 l1) (ffill_from a2 l2).
Proof.
  induction 1 as [| c1 c2 l1 l2 Hc _ IH]; intros a1 a2 Ha; [constructor |].
  destruct Hc as [(-> & ->) | Hc].
  - simpl. constructor; [exact Ha | apply IH; exact Ha].
  - pose proof Hc as (x & y & -> & -> & _).
    simpl. constructor; [right; exact Hc | apply IH; right; exact Hc].
Qed.

Lemma fill_zero_ordered l1 l2 :
  Forall2 (fun a b => (a = NaN /\ b = NaN) \/ ordered_cells a b) l1 l2 ->
  Forall2 ordered_cells (fill_zero l1) (fill_zero l2).
Proof.
  induction 1 as [| c1 c2 l1 l2 Hc _ IH]; [constructor |].
  unfold fill_zero in *. cbn [map]. constructor; [| exact IH].
  destruct Hc as [(-> & ->) | Hc].
  - simpl. exists 0%Q, 0%Q. repeat split. apply Qle_refl.
  - destruct (ordered_cells_defined _ _ Hc) as (-> & ->). exact Hc.
Qed.

Lemma window_first w c vals :
  (1 <= w)%nat -> window w 0 (c :: vals) = match cell_num c with Some q => [q] | None => [] end.
Proof.
  intros Hw. unfold window.
  replace (1 - w)%nat with 0%nat by lia. replace (Nat.min w 1) with 1%nat by lia.
  simpl. destruct (cell_num c); reflexivity.
Qed.

Section RollingMore.
Context (L : Libs).

(** X4. In every row of the features, and for each of the three windows, the
    rolling minimum and the rolling maximum of the rate are numbers, the
    minimum not above the maximum: the filling of rows without any rate in
    the window keeps the order. *)
Theorem rolling_min_is_below_max (self : Base.t L) df d r w :
  get_col df "date" = ret d -> get_col df "rate" = ret r ->
  Forall is_stamp (s_values d) ->
  s_dtype r = float64 ->
  length (s_values r) = length (s_values d) ->
  In w [7; 14; 30]%nat ->
  exists X y lo hi,
    snd (Base.prepare_data L df self) = ret (X, y)
    /\ get_col X ("rate_rolling_min_" +:+ pretty w) = ret lo
    /\ get_col X ("rate_rolling_max_" +:+ pretty w) = ret hi
    /\ length (s_values lo) = length (s_values r)
    /\ Forall2 ordered_cells (s_values lo) (s_values hi).
Proof.
  intros Hd Hr Hs Hfloat Hlen Hw.
  destruct (prepare_data_rolling L self df d r Hd Hr Hs Hfloat Hlen) as (X & y & Hrun & Hcols).
  destruct (Hcols w Hw) as (_ & _ & Hmin & Hmax).
  exists X, y. do 2 eexists.
  split; [exact Hrun |]. split; [exact Hmin |]. split; [exact Hmax |].
  split.
  - simpl. unfold fill_zero, ffill. rewrite length_map.
    assert (Hff : forall l a, length (ffill_from a l) = length l).
    { induction l as [| c l IH]; intros a; [reflexivity |].
      destruct c; simpl; rewrite IH; reflexivity. }
    rewrite Hff, length_imap, reorder_length. lia.
  - simpl. apply fill_zero_ordered. unfold ffill.
    apply ffill_from_ordered; [| left; auto].
    apply (rolled_ordered (fun i => window w i (reorder (s_values d) (s_values r)))).
Qed.

(** X5. The earliest row has no history: when its rate is a number, its
    rolling minimum and maximum are that rate and its rolling mean equals
    it, and its rolling deviation, undefined on one value, is filled with
    zero. *)
Theorem rolling_features_first_row (self : Base.t L) df d r w q :
  get_col df "date" = ret d -> get_col df "rate" = ret r ->
  Forall is_stamp (s_values d) ->
  s_dtype r = float64 ->
  length (s_values r) = length (s_values d) ->
  In w [7; 14; 30]%nat ->
  reorder (s_values d) (s_values r) !! 0%nat = Some (Num q) ->
  exists X y lo m hi sd mean,
    snd (Base.prepare_data L df self) = ret (X, y)
    /\ get_col X ("rate_rolling_min_" +:+ pretty w) = ret lo
    /\ get_col X ("rate_rolling_mean_" +:+ pretty w) = ret m
    /\ get_col X ("rate_rolling_max_" +:+ pretty w) = ret hi
    /\ get_col X ("rate_rolling_std_" +:+ pretty w) = ret sd
    /\ s_values lo !! 0%nat = Some (Num q)
    /\ s_values m !! 0%nat = Some (Num mean) /\ (mean == q)%Q
    /\ s_values hi !! 0%nat = Some (Num q)
    /\ s_values sd !! 0%nat = Some (Num 0).
Proof.
  intros Hd Hr Hs Hfloat Hlen Hw Hq.
  destruct (prepare_data_rolling L self df d r Hd Hr Hs Hfloat Hlen) as (X & y & Hrun & Hcols).
  destruct (Hcols w Hw) as (Hmean & Hstd & Hmin & Hmax).
  assert (Hw1 : (1 <= w)%nat) by (destruct Hw as [<- | [<- | [<- | []]]]; lia).
  destruct (reorder (s_values d) (s_values r)) as [| c vals] eqn:Hvals; [discriminate |].
  injection Hq as ->.
  exists X, y. do 4 eexists. exists (Qmean [q]).
  split; [exact Hrun |]. split; [exact Hmin |]. split; [exact Hmean |].
  split; [exact Hmax |]. split; [exact Hstd |].
  unfold rolled. cbn [s_values fillna_ffill_0 imap]. rewrite (window_first w _ _ Hw1).
  simpl. split; [reflexivity |]. split; [reflexivity |].
  split; [| split; reflexivity].
  unfold Qmean, Qlen. simpl. field.
Qed.

End RollingMore.

(** ** The error measures *)

Lemma lookup_combine {A B} (l : list A) : forall (k : list B) i a b,
  l !! i = Some a -> k !! i = Some b -> combine l k !! i = Some (a, b).
Proof.
  induction l as [| x l IH]; intros [| y k] [| i] a b Ha Hb; try discriminate.
  - injection Ha as ->. injection Hb as ->. reflexivity.
  - simpl. apply IH; assumption.
Qed.

Lemma lookup_In {A} (l : list A) : forall i x, l !! i = Some x -> In x l.
Proof.
  induction l as [| y l IH]; intros [| i] x H; try discriminate.
  - injection H as ->. left. reflexivity.
  - right. exact (IH i x H).
Qed.

Lemma no_negative_infinity_after_abs l :
  existsb (fun c => match c with Inf false => true | _ => false end) (map cell_abs l) = false.
Proof.
  induction l as [| c l IH]; [reflexivity |].
  simpl. rewrite IH. destruct c; reflexivity.
Qed.

Section Metrics.
Context (L : Libs).

(** X11. One test row whose true rate is zero while its prediction is not
    makes the reported percentage error infinite, whatever the other rows
    are. *)
Theorem mape_is_infinite_at_zero_rate y_true y_pred m i p :
  RFM._calculate_metrics L y_true y_pred = ret m ->
  s_values y_true !! i = Some (Num 0) ->
  y_pred !! i = Some p ->
  ~ (p == 0)%Q ->
  mape m = Inf true.
Proof.
  unfold RFM._calculate_metrics. intros Hm Ht Hp Hne.
  destruct (mean_absolute_error L y_true y_pred) as [e | a]; [discriminate |].
  destruct (mean_squared_error L y_true y_pred) as [e | b]; [discriminate |].
  rewrite !bind_ret in Hm. unfold RFM.elementwise in Hm.
  destruct (Nat.eqb _ _); [| discriminate].
  rewrite bind_ret in Hm. injection Hm as <-. cbn [mape].
  unfold RFM.series_mean. rewrite no_negative_infinity_after_abs, andb_false_r.
  match goal with
  | |- context [if ?b then Inf true else _] => assert (Hinf : b = true)
  end.
  { apply List.existsb_exists. exists (Inf true). split; [| reflexivity].
    apply List.in_map_iff.
    exists (cell_div (cell_sub (Num 0) (Num p)) (Num 0)). split.
    - unfold cell_div, cell_sub, Qzero.
      replace (Qeq_bool 0 0) with true by reflexivity.
      destruct (Qeq_bool (0 - p) 0) eqn:Hz; [| reflexivity].
      exfalso. apply Hne. apply Qeq_bool_iff in Hz. lra.
    - cbn [zip_cells s_values].
      apply List.in_map_iff. exists (cell_sub (Num 0) (Num p), Num 0). split; [reflexivity |].
      apply (lookup_In _ i). apply lookup_combine; [| exact Ht].
      change (map ?f ?l) with (f <$> l). rewrite list_lookup_fmap.
      rewrite (lookup_combine _ _ i (Num 0) (Num p) Ht); [reflexivity |].
      change (map ?f ?l) with (f <$> l). rewrite list_lookup_fmap, Hp. reflexivity. }
  rewrite Hinf. reflexivity.
Qed.

End Metrics.

(** ** The model a forecast runs on *)

Section ForecastModel.
Context (L : Libs).

Lemma predict_fit_fields (self : Base.t L) df :
  Base.model (fst (RFM.predict L df self)) = Base.model self
  /\ Base.scaler (fst (RFM.predict L df self)) = Base.scaler self
  /\ Base.name (fst (RFM.predict L df self)) = Base.name self
  /\ Base.is_trained (fst (RFM.predict L df self)) = Base.is_trained self.
Proof.
  unfold RFM.predict, obind, this. simpl.
  destruct (Base.is_trained self) eqn:Ht; simpl; [| repeat split; assumption || reflexivity].
  unfold Base.prepare_data, obind, lift, assign, oret, this. simpl.
  destruct (Base.prepare_frame L df) as [e | [F cols]]; simpl;
    [repeat split; assumption || reflexivity |].
  repeat match goal with
         | |- context [match ?r with inl _ => _ | inr _ => _ end] =>
             destruct r; simpl
         | |- context [if ?b then _ else _] => destruct b; simpl
         end;
    repeat split; assumption || reflexivity.
Qed.

(** X19. When the hotel has a saved model, a forecast over dates in range
    leaves the Random Forest model of the service with the regressor, the
    scaler and the name of that artifact, and trained, whatever it held
    before and whether or not the prediction succeeds. *)
Theorem forecast_rates_uses_the_saved_model db utcnow now hotel_id days_ahead
        (self : FS.t L) data :
  dates_in_range now days_ahead ->
  FS.disk self !! FS.model_path L self hotel_id = Some data ->
  Base.model (FS.random_forest (fst (FS.forecast_rates L db utcnow now hotel_id days_ahead self)))
  = Base.data_model data
  /\ Base.scaler (FS.random_forest
                    (fst (FS.forecast_rates L db utcnow now hotel_id days_ahead self)))
     = Base.data_scaler data
  /\ Base.name (FS.random_forest
                  (fst (FS.forecast_rates L db utcnow now hotel_id days_ahead self)))
     = Base.data_model_name data
  /\ Base.is_trained (FS.random_forest
                        (fst (FS.forecast_rates L db utcnow now hotel_id days_ahead self)))
     = true.
Proof.
  intros _ Hdata.
  destruct (FS.forecast_rates L db utcnow now hotel_id days_ahead self) as [s r] eqn:E.
  revert E. unfold FS.forecast_rates.
  set (future_dates := map _ (seqZ 1 days_ahead)).
  unfold obind at 1.
  match goal with
  | |- context [try_except ?b ?h self] => destruct (try_except b h self) as [s1 r1] eqn:E1
  end.
  assert (H1 : Base.model (FS.random_forest s1) = Base.data_model data
               /\ Base.scaler (FS.random_forest s1) = Base.data_scaler data
               /\ Base.name (FS.random_forest s1) = Base.data_model_name data
               /\ Base.is_trained (FS.random_forest s1) = true).
  { revert E1. unfold try_except, obind, this, oret, lift, FS.on_random_forest.
    destruct (decide _) as [Hs | Hs]; simpl.
    - unfold Base.load_model. rewrite Hdata. unfold assign. simpl.
      destruct (negb (df_empty _)); simpl.
      + destruct (sort_values _ "date") as [e | cdf]; simpl.
        { intros [= <- <-]. simpl. auto. }
        match goal with
        | |- context [RFM.predict L cdf ?m] =>
            destruct (predict_fit_fields m cdf) as (Hm & Hsc & Hn & Ht);
            destruct (RFM.predict L cdf m) as [m2 [e | preds]]
        end; simpl in *; intros [= <- <-]; simpl; auto.
      + intros [= <- <-]. simpl. auto.
    - rewrite Hdata in Hs. destruct Hs. eexists. reflexivity. }
  destruct r1 as [e | fc]; [intros [= <- _]; exact H1 |].
  unfold obind, try_except, this, oret, FS.on_prophet. simpl.
  destruct (PROPHET_AVAILABLE L && PFM.is_trained (FS.prophet s1)); simpl.
  - destruct (PFM.predict L future_dates (FS.prophet s1)) as [p [e | pf]]; simpl;
      intros [= <- _]; exact H1.
  - intros [= <- _]. exact H1.
Qed.

End ForecastModel.

(** ** The competitive features of a hotel's own history *)

Lemma group_of_absent d ds : forall vals,
  Forall (fun x => x <> d) ds -> group_of (map Stamp ds) vals (Stamp d) = [].
Proof.
  unfold group_of. induction ds as [| x ds IH]; intros [| v vals] H; try reflexivity.
  apply Forall_cons_1 in H as [Hx H]. simpl.
  destruct (d =? x)%Z eqn:E; [apply Z.eqb_eq in E; congruence |].
  exact (IH vals H).
Qed.

(** With one row per date, the group of a row is the row itself. *)
Lemma group_of_single ds : forall qs d q,
  StronglySorted Z.lt ds -> In (d, q) (combine ds qs) ->
  group_of (map Stamp ds) (map Num qs) (Stamp d) = [q].
Proof.
  induction ds as [| x ds IH]; intros [| v qs] d q Hs Hin; try destruct Hin.
  - injection H as -> ->. apply StronglySorted_inv in Hs as [_ Hlt].
    unfold group_of. simpl. rewrite Z.eqb_refl. simpl. f_equal.
    apply (group_of_absent d ds (map Num qs)).
    eapply List.Forall_impl; [| exact Hlt]. simpl. intros a Ha. lia.
  - apply StronglySorted_inv in Hs as [Hs Hlt].
    assert (Hd : (x < d)%Z).
    { apply (proj1 (List.Forall_forall _ _) Hlt). exact (in_combine_l _ _ _ _ H). }
    unfold group_of. simpl.
    destruct (d =? x)%Z eqn:E; [apply Z.eqb_eq in E; lia |].
    exact (IH qs d q Hs H).
Qed.

Lemma combine_stamps_nums ds : forall qs,
  combine (map Stamp ds) (map Num qs)
  = map (fun p => (Stamp (fst p), Num (snd p))) (combine ds qs).
Proof.
  induction ds as [| x ds IH]; intros [| v qs]; try reflexivity.
  simpl. rewrite IH. reflexivity.
Qed.

Lemma per_group_single f kt vt ds qs :
  StronglySorted Z.lt ds -> length qs = length ds ->
  s_values (per_group f {| s_dtype := kt; s_values := map Stamp ds |}
                        {| s_dtype := vt; s_values := map Num qs |})
  = map (fun q => f [q] (Num q)) qs.
Proof.
  intros Hs Hlen. unfold per_group. cbn [s_values].
  rewrite combine_stamps_nums, map_map.
  rewrite <- (map_snd_combine ds qs) at 2 by lia. rewrite map_map.
  apply map_ext_in. intros [d q] Hin. cbn [fst snd].
  rewrite (group_of_single ds qs d q Hs Hin). reflexivity.
Qed.

Lemma stamps_key_sorted ds : StronglySorted Z.lt ds -> StronglySorted key_le (map Stamp ds).
Proof.
  induction 1 as [| x ds Hs IH Hlt]; simpl; constructor; [exact IH |].
  apply (proj2 (Forall_map _ _ _)). eapply List.Forall_impl; [| exact Hlt].
  intros a Ha. unfold key_le. simpl. apply Z.leb_le. lia.
Qed.

Lemma ffill_from_defined l : forall last, Forall defined l -> ffill_from last l = l.
Proof.
  induction l as [| c l IH]; intros last H; [reflexivity |].
  apply Forall_cons_1 in H as [Hc H]. destruct c; simpl; rewrite IH by exact H;
    try reflexivity.
  destruct (Hc eq_refl).
Qed.

Lemma filled_defined s : Forall defined (s_values s) -> fillna_ffill_0 s = s.
Proof.
  intros H. destruct s as [dt l]. unfold fillna_ffill_0, ffill. cbn [s_dtype s_values] in *.
  rewrite (ffill_from_defined l NaN H). f_equal.
  unfold fill_zero. induction H as [| c l Hc _ IH]; [reflexivity |].
  simpl. rewrite IH. destruct c; try reflexivity. destruct (Hc eq_refl).
Qed.

Lemma filled_zero l : forall last,
  (last = NaN \/ exists v, last = Num v /\ (v == 0)%Q) ->
  Forall (fun c => c = NaN \/ exists v, c = Num v /\ (v == 0)%Q) l ->
  Forall (fun c => exists v, c = Num v /\ (v == 0)%Q) (fill_zero (ffill_from last l)).
Proof.
  induction l as [| c l IH]; intros last Hlast H; [constructor |].
  apply Forall_cons_1 in H as [Hc H].
  destruct Hc as [-> | (v & -> & Hv)]; simpl.
  - constructor; [| exact (IH last Hlast H)].
    destruct Hlast as [-> | (w & -> & Hw)]; simpl; eauto. exists 0%Q. split; reflexivity.
  - constructor; [eauto | apply IH; [right; eauto | exact H]].
Qed.

Lemma Qltb_irrefl q : Qltb q q = false.
Proof. apply Qltb_ge. apply Qle_refl. Qed.

Lemma Qeq_bool_refl' q : Qeq_bool q q = true.
Proof. apply Qeq_bool_iff. reflexivity. Qed.

Lemma Qmean_single q : (Qmean [q] == q)%Q.
Proof. unfold Qmean, Qlen. simpl. field. Qed.

Lemma rank_desc_single q : exists v, rank_desc [q] (Num q) = Num v /\ (v == 1)%Q.
Proof.
  unfold rank_desc, Qcount. simpl. rewrite Qltb_irrefl, Qeq_bool_refl'.
  eexists. split; [reflexivity |]. reflexivity.
Qed.

Lemma rank_pct_single q : exists v, rank_pct [q] (Num q) = Num v /\ (v == 1)%Q.
Proof.
  unfold rank_pct, Qcount. simpl. rewrite Qltb_irrefl, Qeq_bool_refl'.
  eexists. split; [reflexivity |]. reflexivity.
Qed.

Section Competitive.
Context (L : Libs).

(** The columns [add_competitive_features] writes on a frame with hotel
    ids. *)
Lemma add_competitive_features_columns df dt rt :
  has_col df "hotel_id" = true ->
  get_col df "date" = ret dt -> get_col df "rate" = ret rt ->
  exists dfD,
    FeatureEngineering.add_competitive_features df = ret dfD
    /\ get_col dfD "rate_rank" = ret (per_group rank_desc dt rt)
    /\ get_col dfD "rate_percentile" = ret (per_group rank_pct dt rt)
    /\ get_col dfD "competitor_avg_rate" = ret (per_group group_mean dt rt)
    /\ get_col dfD "rate_vs_avg" = ret (zip_cells cell_sub rt (per_group group_mean dt rt))
    /\ get_col dfD "rate_vs_avg_pct"
       = ret (FeatureEngineering.scale100
                (zip_cells cell_div (zip_cells cell_sub rt (per_group group_mean dt rt))
                           (per_group group_mean dt rt))).
Proof.
  intros Hh Hd Hr. unfold FeatureEngineering.add_competitive_features.
  rewrite Hh, Hd, bind_ret, Hr, bind_ret. cbv zeta.
  repeat (rewrite !get_col_set_col; simpl (String.eqb _ _); cbv iota; rewrite ?Hr, ?bind_ret).
  eexists. split; [reflexivity |].
  repeat split; rewrite !get_col_set_col; reflexivity.
Qed.

(** A float column of the engineered frame outside the excluded ones is a
    feature, filled. *)
Lemma engineered_column_is_feature dfD X c s :
  select (Base.fill_features (map fst (List.filter Base.is_feature (df_columns dfD))) dfD)
         (map fst (List.filter Base.is_feature (df_columns dfD))) = ret X ->
  get_col dfD c = ret s -> s_dtype s = float64 ->
  Base.in_list c Base.exclude_cols = false ->
  get_col X c = ret (fillna_ffill_0 s).
Proof.
  intros HX HcD Hfloat Hex.
  assert (Hlisted : Base.in_list c (map fst (List.filter Base.is_feature (df_columns dfD))) = true).
  { apply (feature_listed _ s); [apply get_col_assoc; exact HcD |].
    unfold Base.is_feature. cbn [fst snd]. rewrite Hex, Hfloat. reflexivity. }
  destruct (select_get _ _ _ HX) as (_ & _ & HgetX).
  rewrite (HgetX c (in_list_In _ _ Hlisted)), fill_features_get, HcD, bind_ret, Hlisted.
  reflexivity.
Qed.

(** The competitive features of a frame with hotel ids whose dates increase
    strictly and whose rates are numbers. *)
Lemma prepare_data_competitive (self : Base.t L) df ds qs :
  get_col df "date" = ret {| s_dtype := datetime64; s_values := map Stamp ds |} ->
  get_col df "rate" = ret {| s_dtype := float64; s_values := map Num qs |} ->
  has_col df "hotel_id" = true ->
  StronglySorted Z.lt ds -> length qs = length ds ->
  exists X,
    snd (Base.prepare_data L df self)
    = ret (X, Some {| s_dtype := float64; s_values := map Num qs |})
    /\ get_col X "rate_rank"
       = ret {| s_dtype := float64; s_values := map (fun q => rank_desc [q] (Num q)) qs |}
    /\ get_col X "rate_percentile"
       = ret {| s_dtype := float64; s_values := map (fun q => rank_pct [q] (Num q)) qs |}
    /\ get_col X "competitor_avg_rate"
       = ret {| s_dtype := float64; s_values := map (fun q => Num (Qmean [q])) qs |}
    /\ get_col X "rate_vs_avg"
       = ret {| s_dtype := float64; s_values := map (fun q => Num (q - Qmean [q])) qs |}
    /\ get_col X "rate_vs_avg_pct"
       = ret (fillna_ffill_0
                {| s_dtype := float64;
                   s_values := map (fun q => cell_mul (cell_div (Num (q - Qmean [q]))
                                                                (Num (Qmean [q])))
                                                      (Num 100)) qs |}).
Proof.
  intros Hd Hr Hh Hs Hlen.
  set (d := {| s_dtype := datetime64; s_values := map Stamp ds |}) in *.
  set (r := {| s_dtype := float64; s_values := map Num qs |}) in *.
  assert (Hst : Forall is_stamp (s_values d)).
  { apply (proj2 (Forall_map _ _ _)). apply List.Forall_forall. intros t _. eexists. reflexivity. }
  assert (Hks : StronglySorted key_le (s_values d)) by (apply stamps_key_sorted; exact Hs).
  assert (Hl : length (s_values d) = length (s_values r))
    by (simpl; rewrite !length_map; lia).
  assert (Hid : forall s, length (s_values s) = length (s_values d) -> sorted_by d s = s).
  { intros s Hls. apply sorted_by_id; [exact Hks | lia]. }
  destruct (has_col_get _ _ Hh) as [h Hhid].
  (* dates *)
  destruct (extract_date_features_ok L df d Hd Hst) as [dfA HA].
  destruct (extract_date_features_get L _ _ HA) as (_ & (d' & Hd' & HdA) & HgetA).
  rewrite Hd in Hd'. injection Hd' as <-. change {| s_dtype := datetime64; s_values := s_values d |}
    with d in HdA.
  assert (HrA : get_col dfA "rate" = ret r) by (rewrite HgetA by reflexivity; exact Hr).
  assert (HhA : get_col dfA "hotel_id" = ret h) by (rewrite HgetA by reflexivity; exact Hhid).
  (* lags *)
  destruct (add_lag_features_ok dfA _ r HdA HrA) as [dfB HB].
  destruct (add_lag_features_get _ _ HB) as (k & r' & Hk & Hr' & _ & _ & HgetB).
  rewrite HdA in Hk. injection Hk as <-. rewrite HrA in Hr'. injection Hr' as <-.
  assert (HdB : get_col dfB "date" = ret d).
  { rewrite HgetB by reflexivity. rewrite HdA, bind_ret, Hid; reflexivity. }
  assert (HrB : get_col dfB "rate" = ret r).
  { rewrite HgetB by reflexivity. rewrite HrA, bind_ret, Hid; [reflexivity | lia]. }
  assert (HhB : exists h', get_col dfB "hotel_id" = ret h').
  { rewrite HgetB by reflexivity. rewrite HhA, bind_ret. eexists. reflexivity. }
  destruct HhB as [hB HhB].
  (* rolling statistics *)
  destruct (add_rolling_features_ok L [7; 14; 30]%nat dfB d r HdB HrB eq_refl) as [dfC HC].
  destruct (add_rolling_features_get L _ _ _ HC) as (k & Hk & _ & HgetC).
  rewrite HdB in Hk. injection Hk as <-.
  assert (HdC : get_col dfC "date" = ret d).
  { rewrite HgetC by reflexivity. rewrite HdB, bind_ret, Hid; reflexivity. }
  assert (HrC : get_col dfC "rate" = ret r).
  { rewrite HgetC by reflexivity. rewrite HrB, bind_ret, Hid; [reflexivity | lia]. }
  assert (HhC : has_col dfC "hotel_id" = true).
  { unfold has_col. erewrite get_col_assoc; [reflexivity |].
    rewrite HgetC by reflexivity. rewrite HhB, bind_ret. reflexivity. }
  (* competitive features *)
  destruct (add_competitive_features_columns dfC d r HhC HdC HrC)
    as (dfD & HD & Hrank & Hpct & Havg & Hvs & Hvspct).
  destruct (add_competitive_features_get _ _ HD) as (_ & HgetD).
  assert (HrD : get_col dfD "rate" = ret r) by (rewrite HgetD by reflexivity; exact HrC).
  destruct (select_features_ok dfD) as [X HX].
  assert (HF : Base.prepare_frame L df
               = ret (Base.fill_features (map fst (List.filter Base.is_feature (df_columns dfD))) dfD,
                      map fst (List.filter Base.is_feature (df_columns dfD)))).
  { unfold Base.prepare_frame. rewrite HA, bind_ret, HB, bind_ret, HC, bind_ret, HD, bind_ret.
    reflexivity. }
  assert (Hmean : s_values (per_group group_mean d r) = map (fun q => Num (Qmean [q])) qs).
  { unfold d, r. rewrite per_group_single by assumption. reflexivity. }
  assert (Hzip : forall (g : Q -> cell) (h : cell -> cell -> cell),
             map (fun p : cell * cell => h (fst p) (snd p)) (combine (map Num qs) (map g qs))
             = map (fun q => h (Num q) (g q)) qs).
  { intros g h0. clear. induction qs as [| q qs IH]; [reflexivity |].
    simpl. rewrite IH. reflexivity. }
  assert (Hzip' : forall (g g' : Q -> cell) (h : cell -> cell -> cell),
             map (fun p : cell * cell => h (fst p) (snd p)) (combine (map g qs) (map g' qs))
             = map (fun q => h (g q) (g' q)) qs).
  { intros g g' h0. clear. induction qs as [| q qs IH]; [reflexivity |].
    simpl. rewrite IH. reflexivity. }
  assert (Hnum : forall (g : Q -> Q), Forall defined (map (fun q => Num (g q)) qs)).
  { intros g. apply (proj2 (Forall_map _ _ _)). apply List.Forall_forall. discriminate. }
  exists X. split; [| split; [| split; [| split; [| split]]]].
  - unfold Base.prepare_data, obind, lift, assign, oret. rewrite HF. simpl.
    rewrite HX. simpl.
    assert (Hrate : get_col (Base.fill_features
                               (map fst (List.filter Base.is_feature (df_columns dfD))) dfD) "rate"
                    = ret r).
    { rewrite fill_features_get, HrD, bind_ret, excluded_not_listed by reflexivity. reflexivity. }
    assert (Hhas : has_col (Base.fill_features
                              (map fst (List.filter Base.is_feature (df_columns dfD))) dfD) "rate"
                   = true).
    { unfold has_col. rewrite (get_col_assoc _ _ _ Hrate). reflexivity. }
    rewrite Hhas, Hrate. reflexivity.
  - rewrite (engineered_column_is_feature dfD X _ _ HX Hrank) by reflexivity.
    f_equal. rewrite filled_defined.
    + unfold per_group at 1. f_equal. unfold d, r. apply per_group_single; assumption.
    + unfold d, r. rewrite per_group_single by assumption.
      apply (proj2 (Forall_map _ _ _)). apply List.Forall_forall. intros q _.
      destruct (rank_desc_single q) as (v & -> & _). discriminate.
  - rewrite (engineered_column_is_feature dfD X _ _ HX Hpct) by reflexivity.
    f_equal. rewrite filled_defined.
    + unfold per_group at 1. f_equal. unfold d, r. apply per_group_single; assumption.
    + unfold d, r. rewrite per_group_single by assumption.
      apply (proj2 (Forall_map _ _ _)). apply List.Forall_forall. intros q _.
      destruct (rank_pct_single q) as (v & -> & _). discriminate.
  - rewrite (engineered_column_is_feature dfD X _ _ HX Havg) by reflexivity.
    f_equal. rewrite filled_defined.
    + unfold per_group at 1. f_equal. exact Hmean.
    + rewrite Hmean. apply Hnum.
  - rewrite (engineered_column_is_feature dfD X _ _ HX Hvs) by reflexivity.
    f_equal.
    assert (E : zip_cells cell_sub r (per_group group_mean d r)
                = {| s_dtype := float64; s_values := map (fun q => Num (q - Qmean [q])) qs |}).
    { unfold zip_cells. f_equal. rewrite Hmean. unfold r. cbn [s_values].
      rewrite (Hzip (fun q => Num (Qmean [q])) cell_sub). reflexivity. }
    rewrite E. apply filled_defined. apply (Hnum (fun q => q - Qmean [q])%Q).
  - rewrite (engineered_column_is_feature dfD X _ _ HX Hvspct) by reflexivity.
    f_equal. f_equal. unfold FeatureEngineering.scale100, zip_cells. f_equal. cbn [s_values].
    rewrite Hmean. unfold r. cbn [s_values].
    rewrite (Hzip (fun q => Num (Qmean [q])) cell_sub).
    rewrite (Hzip' (fun q => cell_sub (Num q) (Num (Qmean [q]))) (fun q => Num (Qmean [q])) cell_div).
    rewrite map_map. reflexivity.
Qed.

(** The frame of a hotel's history, when it is not empty. *)
Lemma history_frame_columns db utcnow hotel_id days_back :
  df_empty (FS.get_hotel_data db utcnow hotel_id days_back) = false ->
  exists ds qs,
    get_col (FS.get_hotel_data db utcnow hotel_id days_back) "date"
    = ret {| s_dtype := datetime64; s_values := map Stamp ds |}
    /\ get_col (FS.get_hotel_data db utcnow hotel_id days_back) "rate"
       = ret {| s_dtype := float64; s_values := map Num qs |}
    /\ has_col (FS.get_hotel_data db utcnow hotel_id days_back) "hotel_id" = true
    /\ StronglySorted Z.lt ds /\ length qs = length ds
    /\ df_len (FS.get_hotel_data db utcnow hotel_id days_back) = length ds.
Proof.
  unfold FS.get_hotel_data.
  set (kept := List.filter _ (joined db)).
  set (pairs := map (fun p : RateData.t * Hotel.t => (RateData.date (fst p), p)) kept).
  assert (Hkeys : map (fun p : RateData.t * Hotel.t => RateData.date (fst p))
                      (map snd (isort Z.leb pairs))
                  = map fst (isort Z.leb pairs)).
  { assert (HF : Forall (fun kp : Z * (RateData.t * Hotel.t) =>
                           fst kp = RateData.date (fst (snd kp))) (isort Z.leb pairs)).
    { apply isort_Forall. unfold pairs. apply (proj2 (Forall_map _ _ _)).
      apply List.Forall_forall. reflexivity. }
    induction HF as [| kp l Hkp Hl IH]; simpl; [reflexivity |].
    rewrite IH, Hkp. reflexivity. }
  assert (Hsorted := isort_sorted Z.leb Z_leb_total Z_leb_trans pairs).
  rewrite <- Hkeys in Hsorted. clear Hkeys.
  revert Hsorted. generalize (map snd (isort Z.leb pairs)). intros rates Hsorted.
  destruct rates as [| p0 rates'] eqn:Hrates; [discriminate |]. rewrite <- Hrates in *.
  intros _. unfold FS.group_frame.
  set (ds := distinct (map (fun p : RateData.t * Hotel.t => RateData.date (fst p)) rates)).
  exists ds. eexists (map _ ds).
  split; [reflexivity |]. split; [unfold get_col; simpl; rewrite map_map; reflexivity |].
  split; [reflexivity |]. split; [apply distinct_sorted; exact Hsorted |].
  split; [apply length_map | reflexivity].
Qed.

(** X6. Training data never fails to prepare on a hotel's history, and the
    competitive features it derives carry no information there: with one
    hotel and one row per date, every rank and every percentile is 1, the
    competitors' average is the hotel's own rate, and the distance to it,
    absolute and in percent, is 0 in every row. *)
Theorem history_has_no_competitors (self : Base.t L) db utcnow hotel_id days_back :
  df_empty (FS.get_hotel_data db utcnow hotel_id days_back) = false ->
  exists X y rank pct avg vs vspct,
    snd (Base.prepare_data L (FS.get_hotel_data db utcnow hotel_id days_back) self)
    = ret (X, Some y)
    /\ get_col (FS.get_hotel_data db utcnow hotel_id days_back) "rate" = ret y
    /\ get_col X "rate_rank" = ret rank
    /\ get_col X "rate_percentile" = ret pct
    /\ get_col X "competitor_avg_rate" = ret avg
    /\ get_col X "rate_vs_avg" = ret vs
    /\ get_col X "rate_vs_avg_pct" = ret vspct
    /\ length (s_values rank) = df_len (FS.get_hotel_data db utcnow hotel_id days_back)
    /\ Forall (fun c => exists v, c = Num v /\ (v == 1)%Q) (s_values rank)
    /\ Forall (fun c => exists v, c = Num v /\ (v == 1)%Q) (s_values pct)
    /\ Forall2 (fun a c => exists v w, a = Num v /\ c = Num w /\ (v == w)%Q)
               (s_values avg) (s_values y)
    /\ Forall (fun c => exists v, c = Num v /\ (v == 0)%Q) (s_values vs)
    /\ Forall (fun c => exists v, c = Num v /\ (v == 0)%Q) (s_values vspct).
Proof.
  intros Hne.
  destruct (history_frame_columns db utcnow hotel_id days_back Hne)
    as (ds & qs & Hd & Hr & Hh & Hs & Hlen & Hn).
  destruct (prepare_data_competitive self _ ds qs Hd Hr Hh Hs Hlen)
    as (X & Hrun & Hrank & Hpct & Havg & Hvs & Hvspct).
  exists X. do 6 eexists.
  split; [exact Hrun |]. split; [exact Hr |]. split; [exact Hrank |]. split; [exact Hpct |].
  split; [exact Havg |]. split; [exact Hvs |]. split; [exact Hvspct |].
  cbn [s_values].
  split; [rewrite length_map; lia |].
  split; [apply (proj2 (Forall_map _ _ _)); apply List.Forall_forall; intros q _;
          apply rank_desc_single |].
  split; [apply (proj2 (Forall_map _ _ _)); apply List.Forall_forall; intros q _;
          apply rank_pct_single |].
  split.
  { clear. induction qs as [| q qs IH]; simpl; constructor; [| exact IH].
    exists (Qmean [q]), q. split; [reflexivity |]. split; [reflexivity | apply Qmean_single]. }
  split.
  { apply (proj2 (Forall_map _ _ _)). apply List.Forall_forall. intros q _.
    eexists. split; [reflexivity |]. rewrite Qmean_single. ring. }
  unfold ffill. apply filled_zero; [left; reflexivity |].
  apply (proj2 (Forall_map _ _ _)). apply List.Forall_forall. intros q _.
  unfold cell_div, Qzero.
  assert (Hz : Qeq_bool (q - Qmean [q]) 0 = true).
  { apply Qeq_bool_iff. rewrite Qmean_single. ring. }
  rewrite Hz. destruct (Qeq_bool (Qmean [q]) 0) eqn:Hm; [left; reflexivity |].
  right. simpl. eexists. split; [reflexivity |].
  apply Qeq_bool_iff in Hz. rewrite Hz. 
  assert (Hm' : ~ (Qmean [q] == 0)%Q) by (intros E; apply Qeq_bool_iff in E; congruence).
  field. exact Hm'.
Qed.

End Competitive.

(** ** The history Prophet is fitted on *)

Section SortValues.
Context {K A B : Type} (leb : K -> K -> bool) (f : A -> B).

Lemma insert_by_map_values k x (l : list (K * A)) :
  insert_by leb k (f x) (map (fun p => (fst p, f (snd p))) l)
  = map (fun p => (fst p, f (snd p))) (insert_by leb k x l).
Proof.
  induction l as [| [k' y] l IH]; [reflexivity |].
  simpl. destruct (leb k k'); [reflexivity |].
  simpl. rewrite IH. reflexivity.
Qed.

Lemma isort_map_values (l : list (K * A)) :
  isort leb (map (fun p => (fst p, f (snd p))) l)
  = map (fun p => (fst p, f (snd p))) (isort leb l).
Proof.
  induction l as [| [k x] l IH]; [reflexivity |].
  simpl. rewrite IH. apply insert_by_map_values.
Qed.

End SortValues.

Lemma insert_by_In {K A} (leb : K -> K -> bool) k (x : A) l p :
  In p (insert_by leb k x l) -> p = (k, x) \/ In p l.
Proof.
  induction l as [| [k' y] l IH]; simpl.
  - intros [<- | []]. auto.
  - destruct (leb k k'); simpl.
    + intros [<- | H]; auto.
    + intros [<- | H]; [auto |]. destruct (IH H); auto.
Qed.

Lemma isort_In {K A} (leb : K -> K -> bool) (l : list (K * A)) p :
  In p (isort leb l) -> In p l.
Proof.
  revert p. induction l as [| [k x] l IH]; intros p; [auto |].
  simpl. intros H. destruct (insert_by_In _ _ _ _ _ H) as [-> | H']; auto.
Qed.

Lemma combine_map_values {K A B} (f : A -> B) (k : list K) : forall (a : list A),
  combine k (map f a) = map (fun p => (fst p, f (snd p))) (combine k a).
Proof.
  induction k as [| x k IH]; intros [| y a]; try reflexivity.
  simpl. rewrite IH. reflexivity.
Qed.

Lemma combine_fst_snd {A B} (a : list A) : forall (b : list B),
  length a = length b ->
  map fst (combine a b) = a /\ map snd (combine a b) = b.
Proof.
  induction a as [| x a IH]; intros [| y b] H; try discriminate; [auto |].
  simpl. injection H as H. destruct (IH b H) as [-> ->]. auto.
Qed.

(** Two columns sorted by the same key stay row by row together. *)
Lemma reorder_rows keys a b p :
  length a = length b ->
  In p (combine (reorder keys a) (reorder keys b)) -> In p (combine a b).
Proof.
  intros Hlen. unfold reorder.
  destruct (combine_fst_snd a b Hlen) as [Ha Hb].
  rewrite <- Ha at 1. rewrite <- Hb at 2.
  rewrite !combine_map_values, !isort_map_values, !map_map. cbn [fst snd].
  set (S := isort key_leb (combine keys (combine a b))).
  assert (HS : forall q, In q S -> In (snd q) (combine a b)).
  { intros [k q] Hq. apply isort_In in Hq. simpl.
    clear -Hq. revert Hq. generalize (combine a b) as l.
    induction keys as [| k' keys IH]; intros [| y l]; simpl; try tauto.
    intros [[= -> ->] | H]; [auto |]. right. exact (IH l H). }
  clearbody S. induction S as [| q S IH]; simpl; [tauto |].
  intros [<- | H].
  - destruct q as [k [x y]]. simpl. apply (HS (k, (x, y))). left. reflexivity.
  - apply IH; [| exact H]. intros q' Hq'. apply HS. right. exact Hq'.
Qed.

Lemma mask_cons {A} b m (x : A) l :
  mask (b :: m) (x :: l) = if b then x :: mask m l else mask m l.
Proof.
  unfold mask. simpl. destruct b; reflexivity.
Qed.

Lemma mask_nil_r {A} m : mask m (@nil A) = [].
Proof.
  unfold mask. destruct m; reflexivity.
Qed.

Lemma mask_In {A} m : forall (l : list A) x, In x (mask m l) -> In x l.
Proof.
  induction m as [| b m IH]; intros [| y l] x; try (rewrite ?mask_nil_r; simpl; tauto).
  rewrite mask_cons. destruct b; simpl; [intros [<- | H] |]; eauto.
Qed.

Lemma mask_Forall {A} (P : A -> Prop) m : forall l, Forall P l -> Forall P (mask m l).
Proof.
  intros l H. apply List.Forall_forall. intros x Hx.
  exact (proj1 (List.Forall_forall P l) H x (mask_In m l x Hx)).
Qed.

Lemma mask_sorted {A} (R : A -> A -> Prop) m : forall l,
  StronglySorted R l -> StronglySorted R (mask m l).
Proof.
  induction m as [| b m IH]; intros [| y l] H; try (rewrite ?mask_nil_r; constructor).
  rewrite mask_cons. apply StronglySorted_inv in H as [Hl Hy].
  destruct b; [| exact (IH l Hl)].
  constructor; [exact (IH l Hl) | apply mask_Forall; exact Hy].
Qed.

Lemma mask_combine {A B} m : forall (a : list A) (b : list B),
  combine (mask m a) (mask m b) = mask m (combine a b).
Proof.
  induction m as [| x m IH]; intros [| u a] [| v b]; try reflexivity.
  - rewrite (mask_nil_r (x :: m)), combine_nil. reflexivity.
  - simpl combine. rewrite !mask_cons. destruct x; simpl; rewrite IH; reflexivity.
Qed.

Lemma mask_length {A} m : forall (l : list A),
  length m = length l -> length (mask m l) = length (List.filter (fun b => b) m).
Proof.
  induction m as [| b m IH]; intros [| y l] H; try discriminate; [reflexivity |].
  rewrite mask_cons. injection H as H. destruct b; simpl; rewrite (IH l H); reflexivity.
Qed.

(** The rows a mask keeps when it drops every row with a missing value. *)
Lemma mask_defined (f : nat -> bool) l : forall s,
  (forall i, l !! i = Some NaN -> f (s + i)%nat = false) ->
  Forall defined (mask (map f (seq s (length l))) l).
Proof.
  induction l as [| c l IH]; intros s H; [rewrite mask_nil_r; constructor |].
  simpl length. simpl seq. simpl map. rewrite mask_cons.
  assert (Hl : Forall defined (mask (map f (seq (S s) (length l))) l)).
  { apply IH. intros i Hi. replace (S s + i)%nat with (s + S i)%nat by lia.
    apply H. exact Hi. }
  destruct (f s) eqn:Hf; [| exact Hl].
  constructor; [| exact Hl].
  intros ->. specialize (H 0%nat eq_refl). rewrite Nat.add_0_r in H. congruence.
Qed.

(** The first row of each date, of rows in the order of their dates. *)
Lemma first_of_each_date l : forall pre,
  Forall is_stamp l -> StronglySorted key_le l ->
  Forall (fun c => is_stamp c /\ existsb (cell_eqb c) pre = false /\ In c l)
         (mask (imap (fun i c => negb (existsb (cell_eqb c) (pre ++ firstn i l)%list)) l) l)
  /\ StronglySorted (fun a b => exists x y, a = Stamp x /\ b = Stamp y /\ (x < y)%Z)
                    (mask (imap (fun i c => negb (existsb (cell_eqb c) (pre ++ firstn i l)%list)) l) l).
Proof.
  induction l as [| c l IH]; intros pre Hst Hso.
  - rewrite mask_nil_r. split; constructor.
  - cbn [imap]. rewrite mask_cons.
    apply Forall_cons_1 in Hst as [Hc Hst]. apply StronglySorted_inv in Hso as [Hso Hle].
    rewrite (imap_ext _ (fun i c0 => negb (existsb (cell_eqb c0) ((pre ++ [c]) ++ firstn i l)%list)) l)
      by (intros i x _; simpl; rewrite <- app_assoc; reflexivity).
    destruct (IH (pre ++ [c])%list Hst Hso) as [Hall Hsorted].
    assert (Hall' : Forall (fun c0 => is_stamp c0 /\ existsb (cell_eqb c0) pre = false
                                      /\ In c0 (c :: l))
                           (mask (imap (fun i c0 => negb (existsb (cell_eqb c0)
                                                                  ((pre ++ [c]) ++ firstn i l)%list)) l) l)).
    { eapply List.Forall_impl; [| exact Hall]. intros a (Ha & Hpre & Hin).
      rewrite existsb_app in Hpre. apply orb_false_iff in Hpre as [Hpre _].
      split; [exact Ha |]. split; [exact Hpre | right; exact Hin]. }
    simpl firstn. rewrite app_nil_r.
    destruct (existsb (cell_eqb c) pre) eqn:Hpre; simpl negb; cbv iota.
    + split; [exact Hall' | exact Hsorted].
    + split.
      * constructor; [| exact Hall']. split; [exact Hc |]. split; [exact Hpre | left; reflexivity].
      * constructor; [exact Hsorted |].
        eapply List.Forall_impl; [| exact Hall]. intros a ((y & ->) & Hne & Hin).
        destruct Hc as [x ->]. exists x, y. split; [reflexivity |]. split; [reflexivity |].
        rewrite existsb_app in Hne. apply orb_false_iff in Hne as [_ Hne].
        simpl in Hne. rewrite orb_false_r in Hne. apply Z.eqb_neq in Hne.
        pose proof (proj1 (List.Forall_forall _ _) Hle (Stamp y) Hin) as Hxy.
        unfold key_le in Hxy. simpl in Hxy. apply Z.leb_le in Hxy. lia.
Qed.

Lemma stamps_of l :
  Forall is_stamp l -> exists ts, l = map Stamp ts.
Proof.
  induction 1 as [| c l [t ->] _ [ts ->]]; [exists []; reflexivity |].
  exists (t :: ts). reflexivity.
Qed.

Lemma stamps_sorted ts :
  StronglySorted (fun a b => exists x y, a = Stamp x /\ b = Stamp y /\ (x < y)%Z) (map Stamp ts) ->
  StronglySorted Z.lt ts.
Proof.
  induction ts as [| t ts IH]; [constructor |].
  simpl. intros H. apply StronglySorted_inv in H as [Hs Ht].
  constructor; [exact (IH Hs) |].
  apply List.Forall_forall. intros u Hu.
  pose proof (proj1 (List.Forall_forall _ _) Ht (Stamp u) (in_map Stamp ts u Hu))
    as (x & y & [= <-] & [= <-] & Hlt).
  exact Hlt.
Qed.

Lemma combine_stamps ts : forall (ys : list cell) t y,
  In (t, y) (combine ts ys) -> In (Stamp t, y) (combine (map Stamp ts) ys).
Proof.
  induction ts as [| u ts IH]; intros [| v ys] t y; simpl; try tauto.
  intros [[= -> ->] | H]; [auto |]. right. exact (IH ys t y H).
Qed.

Section ProphetHistory.
Context (L : Libs).

(** X12. Prophet is fitted on the dated rates without the rows whose rate is
    missing and with one row per date, in the order of the dates: the dates
    it sees increase strictly, no rate it sees is missing, and every row it
    sees is a row of the history.  A fit that raises leaves the unfitted
    model in place and the trained flag as it was. *)
Theorem prophet_is_fitted_on_clean_history (self : PFM.t L) df d r :
  PROPHET_AVAILABLE L = true ->
  get_col df "date" = ret d -> get_col df "rate" = ret r ->
  Forall is_stamp (s_values d) ->
  length (s_values d) = df_len df -> length (s_values r) = df_len df ->
  exists ts ys,
    PFM.train L df self
    = match prophet_fit L (Prophet L)
              {| df_len := length ts;
                 df_columns := [("ds", {| s_dtype := s_dtype d; s_values := map Stamp ts |});
                                ("y", {| s_dtype := s_dtype r; s_values := ys |})] |} with
      | inl e => (PFM.set_model L (Some (Prophet L)) self, inl e)
      | inr m => (PFM.set_is_trained L true (PFM.set_model L (Some m) self), ret None)
      end
    /\ length ys = length ts
    /\ StronglySorted Z.lt ts
    /\ Forall defined ys
    /\ forall t y, In (t, y) (combine ts ys) ->
                   In (Stamp t, y) (combine (s_values d) (s_values r)).
Proof.
  intros Hav Hd Hr Hst Hld Hlr.
  set (n := df_len df) in *.
  set (ds1 := reorder (s_values d) (s_values d)).
  set (y1 := reorder (s_values d) (s_values r)).
  assert (Hl1 : length ds1 = n) by (unfold ds1; rewrite reorder_length; lia).
  assert (Hl1' : length y1 = n) by (unfold y1; rewrite reorder_length; lia).
  set (cols1 := [("ds", {| s_dtype := s_dtype d; s_values := ds1 |});
                 ("y", {| s_dtype := s_dtype r; s_values := y1 |})]).
  set (m1 := map (fun i => forallb (fun c : string * Series =>
                                      match s_values (snd c) !! i with
                                      | Some NaN => false
                                      | _ => true
                                      end) cols1) (seq 0 n)).
  assert (Hm1 : length m1 = n) by (unfold m1; rewrite length_map, length_seq; reflexivity).
  set (ds2 := mask m1 ds1). set (y2 := mask m1 y1).
  set (m2 := imap (fun i c => negb (existsb (cell_eqb c) (firstn i ds2))) ds2).
  assert (Hm2 : length m2 = length ds2) by (unfold m2; apply length_imap).
  assert (Hl2 : length ds2 = length (List.filter (fun b => b) m1))
    by (apply mask_length; lia).
  assert (Hl2' : length y2 = length (List.filter (fun b => b) m1))
    by (apply mask_length; lia).
  (* the dates *)
  assert (Hst1 : Forall is_stamp ds1) by (apply reorder_Forall; exact Hst).
  assert (Hso1 : StronglySorted key_le ds1) by apply reorder_keys_sorted.
  assert (Hst2 : Forall is_stamp ds2) by (apply mask_Forall; exact Hst1).
  assert (Hso2 : StronglySorted key_le ds2) by (apply mask_sorted; exact Hso1).
  destruct (first_of_each_date ds2 [] Hst2 Hso2) as [Hall Hstrict].
  change (fun i c => negb (existsb (cell_eqb c) ([] ++ firstn i ds2)%list))
    with (fun i c => negb (existsb (cell_eqb c) (firstn i ds2))) in Hall, Hstrict.
  fold m2 in Hall, Hstrict.
  destruct (stamps_of (mask m2 ds2)) as [ts Hts].
  { eapply List.Forall_impl; [| exact Hall]. intros a (Ha & _). exact Ha. }
  exists ts, (mask m2 y2).
  assert (Hlen3 : length (mask m2 y2) = length ts).
  { rewrite <- (length_map Stamp ts), <- Hts.
    rewrite !mask_length by lia. reflexivity. }
  split; [| split; [exact Hlen3 | split; [| split]]].
  - transitivity
      (match prophet_fit L (Prophet L)
               {| df_len := length (List.filter (fun b => b)
                                      (firstn (length (List.filter (fun b => b) (firstn n m1)))
                                              m2));
                  df_columns := [("ds", {| s_dtype := s_dtype d; s_values := mask m2 ds2 |});
                                 ("y", {| s_dtype := s_dtype r; s_values := mask m2 y2 |})] |} with
       | inl e => (PFM.set_model L (Some (Prophet L)) self, inl e)
       | inr m => (PFM.set_is_trained L true (PFM.set_model L (Some m) self),
                   ret (@None ModelMetrics))
       end).
    + unfold PFM.train. rewrite Hav. simpl negb. cbv iota.
      unfold obind, lift, assign, oret. cbn [select]. rewrite Hd, Hr. simpl.
      match goal with
      | |- context [prophet_fit L (Prophet L) ?F] =>
          destruct (prophet_fit L (Prophet L) F) as [e | m] eqn:E
      end; unfold drop_duplicates, dropna, mask_rows in E; simpl in E;
        unfold m2, ds2, y2, m1, cols1, ds1, y1, n; simpl; rewrite E; reflexivity.
    + assert (Hn3 : length (List.filter (fun b => b)
                              (firstn (length (List.filter (fun b => b) (firstn n m1))) m2))
                    = length ts).
      { rewrite (firstn_all2 m1) by lia. rewrite <- Hl2, <- Hm2, firstn_all.
        rewrite <- (mask_length m2 ds2) by lia. rewrite Hts, length_map. reflexivity. }
      rewrite Hn3, Hts. reflexivity.
  - apply stamps_sorted. rewrite <- Hts. exact Hstrict.
  - apply mask_Forall. unfold y2, m1. rewrite <- Hl1'. apply mask_defined.
    intros i Hi. simpl. rewrite Hi. destruct (ds1 !! i) as [[] |]; reflexivity.
  - intros t y Hin. apply combine_stamps in Hin. rewrite <- Hts in Hin.
    rewrite mask_combine in Hin. apply mask_In in Hin.
    unfold ds2, y2 in Hin. rewrite mask_combine in Hin. apply mask_In in Hin.
    apply (reorder_rows (s_values d)); [lia | exact Hin].
Qed.

End ProphetHistory.

(** ** Which columns become features *)

Lemma put_keys_In {A} k (v : A) l x :
  In x (map fst (put k v l)) -> x = k \/ In x (map fst l).
Proof.
  induction l as [| [k' v'] l IH]; simpl.
  - intros [<- | []]. auto.
  - destruct (String.eqb k k') eqn:E; simpl.
    + apply String.eqb_eq in E. subst k'. tauto.
    + intros [<- | H]; [auto |]. destruct (IH H); auto.
Qed.

Lemma put_keys_nodup {A} k (v : A) l :
  List.NoDup (map fst l) -> List.NoDup (map fst (put k v l)).
Proof.
  induction l as [| [k' v'] l IH]; simpl; intros H.
  - constructor; [intros [] | constructor].
  - apply List.NoDup_cons_iff in H as [Hk H].
    destruct (String.eqb k k') eqn:E; simpl.
    + apply String.eqb_eq in E. subst k'. constructor; assumption.
    + constructor; [| exact (IH H)].
      intros Hin. destruct (put_keys_In _ _ _ _ Hin) as [-> | Hin']; [| exact (Hk Hin')].
      rewrite String.eqb_refl in E. discriminate.
Qed.

Lemma set_col_nodup df n s :
  List.NoDup (columns df) -> List.NoDup (columns (set_col df n s)).
Proof. apply put_keys_nodup. Qed.

Lemma sort_values_columns df by_ df' :
  sort_values df by_ = ret df' -> columns df' = columns df.
Proof.
  unfold sort_values. destruct (get_col df by_); [discriminate |].
  rewrite bind_ret. intros [= <-]. unfold columns. simpl. rewrite map_map. reflexivity.
Qed.

Lemma nodup_assoc {A} c (s : A) l :
  List.NoDup (map fst l) -> In (c, s) l -> assoc c l = Some s.
Proof.
  induction l as [| [k v] l IH]; simpl; [tauto |].
  intros H [[= -> ->] | Hin]; [rewrite String.eqb_refl; reflexivity |].
  apply List.NoDup_cons_iff in H as [Hk H].
  destruct (String.eqb c k) eqn:E; [| exact (IH H Hin)].
  apply String.eqb_eq in E. subst k. destruct Hk. exact (in_map fst l (c, s) Hin).
Qed.

Lemma listed_feature c (l : list (string * Series)) :
  In c (map fst (List.filter Base.is_feature l)) ->
  exists s, In (c, s) l /\ Base.is_feature (c, s) = true.
Proof.
  intros H. apply in_map_iff in H as ([c' s] & <- & H).
  apply List.filter_In in H as [H1 H2]. exists s. auto.
Qed.

Lemma is_feature_dtype c s :
  Base.is_feature (c, s) = true ->
  Base.in_list c Base.exclude_cols = false /\ (s_dtype s = int64 \/ s_dtype s = float64).
Proof.
  unfold Base.is_feature. cbn [fst snd]. intros H.
  apply andb_true_iff in H as [H1 H2]. apply negb_true_iff in H1. split; [exact H1 |].
  destruct (s_dtype s); simpl in H2; try discriminate; auto.
Qed.

Section Features.
Context (L : Libs).

Lemma add_lags_nodup lags : forall df df',
  FeatureEngineering.add_lags df "rate" lags = ret df' ->
  List.NoDup (columns df) -> List.NoDup (columns df').
Proof.
  induction lags as [| lag lags IH]; intros df df'; simpl.
  - intros [= <-]. auto.
  - destruct (get_col df "rate"); [discriminate |]. rewrite bind_ret.
    intros H Hn. apply (IH _ _ H). apply set_col_nodup. exact Hn.
Qed.

Lemma add_rollings_nodup ws : forall df df',
  FeatureEngineering.add_rollings L df "rate" ws = ret df' ->
  List.NoDup (columns df) -> List.NoDup (columns df').
Proof.
  induction ws as [| w ws IH]; intros df df'; simpl.
  - intros [= <-]. auto.
  - repeat match goal with
           | |- bind ?m _ = _ -> _ => destruct m; [discriminate | rewrite bind_ret]
           end.
    intros H Hn. apply (IH _ _ H). repeat apply set_col_nodup. exact Hn.
Qed.

(** The stages of [prepare_frame], and what they keep of the column
    names. *)
Lemma prepare_frame_stages df F cols :
  Base.prepare_frame L df = ret (F, cols) ->
  exists dfA dfB dfC dfD,
    FeatureEngineering.extract_date_features L df "date" = ret dfA
    /\ FeatureEngineering.add_lag_features dfA "rate" [1; 7; 30]%nat = ret dfB
    /\ FeatureEngineering.add_rolling_features L dfB "rate" [7; 14; 30]%nat = ret dfC
    /\ FeatureEngineering.add_competitive_features dfC = ret dfD
    /\ F = Base.fill_features cols dfD
    /\ cols = map fst (List.filter Base.is_feature (df_columns dfD)).
Proof.
  unfold Base.prepare_frame.
  destruct (FeatureEngineering.extract_date_features L df "date") as [e | dfA] eqn:HA;
    [discriminate | rewrite bind_ret].
  destruct (FeatureEngineering.add_lag_features dfA "rate" _) as [e | dfB] eqn:HB;
    [discriminate | rewrite bind_ret].
  destruct (FeatureEngineering.add_rolling_features L dfB "rate" _) as [e | dfC] eqn:HC;
    [discriminate | rewrite bind_ret].
  destruct (FeatureEngineering.add_competitive_features dfC) as [e | dfD] eqn:HD;
    [discriminate | rewrite bind_ret].
  intros [= <- <-]. exists dfA, dfB, dfC, dfD.
  split; [reflexivity |]. split; [exact HB |]. split; [exact HC |]. split; [exact HD |].
  split; reflexivity.
Qed.

Lemma stages_nodup df dfA dfB dfC dfD :
  FeatureEngineering.extract_date_features L df "date" = ret dfA ->
  FeatureEngineering.add_lag_features dfA "rate" [1; 7; 30]%nat = ret dfB ->
  FeatureEngineering.add_rolling_features L dfB "rate" [7; 14; 30]%nat = ret dfC ->
  FeatureEngineering.add_competitive_features dfC = ret dfD ->
  List.NoDup (columns df) -> List.NoDup (columns dfD).
Proof.
  intros HA HB HC HD Hn.
  assert (HnA : List.NoDup (columns dfA)).
  { revert HA. unfold FeatureEngineering.extract_date_features.
    destruct (get_col df "date"); [discriminate | rewrite bind_ret].
    destruct (to_datetime _); [discriminate | rewrite bind_ret]. cbv zeta.
    repeat match goal with
           | |- bind ?m _ = _ -> _ => destruct m; [discriminate | rewrite bind_ret]
           end.
    intros [= <-]. repeat apply set_col_nodup. exact Hn. }
  assert (HnB : List.NoDup (columns dfB)).
  { revert HB. unfold FeatureEngineering.add_lag_features.
    destruct (sort_values dfA "date") as [e | df1] eqn:Hs; [discriminate | rewrite bind_ret].
    intros H. apply (add_lags_nodup _ _ _ H). rewrite (sort_values_columns _ _ _ Hs). exact HnA. }
  assert (HnC : List.NoDup (columns dfC)).
  { revert HC. unfold FeatureEngineering.add_rolling_features.
    destruct (sort_values dfB "date") as [e | df1] eqn:Hs; [discriminate | rewrite bind_ret].
    intros H. apply (add_rollings_nodup _ _ _ H). rewrite (sort_values_columns _ _ _ Hs).
    exact HnB. }
  revert HD. unfold FeatureEngineering.add_competitive_features.
  destruct (has_col dfC "hotel_id"); [| intros [= <-]; exact HnC].
  cbv zeta.
  repeat match goal with
         | |- bind ?m _ = _ -> _ => destruct m; [discriminate | rewrite bind_ret]
         end.
  intros [= <-]. repeat apply set_col_nodup. exact HnC.
Qed.

(** A column the later stages do not write keeps its type. *)
Lemma later_stages_keep_dtype dfA dfB dfC dfD c s :
  FeatureEngineering.add_lag_features dfA "rate" [1; 7; 30]%nat = ret dfB ->
  FeatureEngineering.add_rolling_features L dfB "rate" [7; 14; 30]%nat = ret dfC ->
  FeatureEngineering.add_competitive_features dfC = ret dfD ->
  existsb (String.eqb c) ["rate_lag_1"; "rate_lag_7"; "rate_lag_30"] = false ->
  String.prefix "rate_rolling_" c = false ->
  existsb (String.eqb c) competitive_features = false ->
  get_col dfA c = ret s ->
  exists s', get_col dfD c = ret s' /\ s_dtype s' = s_dtype s.
Proof.
  intros HB HC HD H1 H2 H3 Hc.
  destruct (add_lag_features_get _ _ HB) as (k & r & _ & _ & _ & _ & HgetB).
  destruct (add_rolling_features_get L _ _ _ HC) as (k' & _ & _ & HgetC).
  destruct (add_competitive_features_get _ _ HD) as (_ & HgetD).
  eexists. split.
  - rewrite (HgetD c H3), (HgetC c H2), (HgetB c H1), Hc, !bind_ret. reflexivity.
  - reflexivity.
Qed.

(** The columns [extract_date_features] writes on a column of dates, with
    their types. *)
Lemma extract_date_features_dtypes df d dfA :
  get_col df "date" = ret d -> Forall is_stamp (s_values d) ->
  FeatureEngineering.extract_date_features L df "date" = ret dfA ->
  (forall c, In c ["year"; "month"; "day"; "weekday"; "day_of_year"; "quarter"] ->
             exists s, get_col dfA c = ret s /\ s_dtype s = dt_int L)
  /\ (exists s, get_col dfA "is_weekend" = ret s /\ s_dtype s = int64)
  /\ (exists s, get_col dfA "week_of_year" = ret s /\ s_dtype s = uint32)
  /\ (forall c, In c ["sin_month"; "cos_month"; "sin_weekday"; "cos_weekday"] ->
                exists s, get_col dfA c = ret s /\ s_dtype s = float64).
Proof.
  intros Hd Hs. unfold FeatureEngineering.extract_date_features, bind. rewrite Hd.
  unfold to_datetime, ret, raise. cbv beta iota.
  match goal with
  | |- context [forallb ?f (s_values d)] => assert (Hf : forallb f (s_values d) = true)
  end.
  { apply forallb_forall. intros c Hc.
    rewrite List.Forall_forall in Hs. destruct (Hs c Hc) as [t ->]. reflexivity. }
  rewrite Hf. repeat (rewrite get_col_set_col; simpl).
  assert (Hnan : existsb is_nan (s_values d) = false).
  { clear -Hs. induction Hs as [| c l [t ->] _ IH]; [reflexivity | exact IH]. }
  intros [= <-].
  split; [| split; [| split]].
  - intros c [<- | [<- | [<- | [<- | [<- | [<- | []]]]]]];
      rewrite !get_col_set_col; simpl; eexists; (split; [reflexivity |]);
      unfold FeatureEngineering.dt_field; cbn [s_dtype s_values]; rewrite Hnan; reflexivity.
  - rewrite !get_col_set_col. simpl. eexists. split; reflexivity.
  - rewrite !get_col_set_col. simpl. eexists. split; reflexivity.
  - intros c [<- | [<- | [<- | [<- | []]]]];
      rewrite !get_col_set_col; simpl; eexists; split; reflexivity.
Qed.

(** The week of the year always has the type of [isocalendar]. *)
Lemma extract_date_features_week df dfA :
  FeatureEngineering.extract_date_features L df "date" = ret dfA ->
  exists s, get_col dfA "week_of_year" = ret s /\ s_dtype s = uint32.
Proof.
  unfold FeatureEngineering.extract_date_features, bind.
  destruct (get_col df "date") as [e | d]; [discriminate |].
  unfold to_datetime. destruct (forallb _ (s_values d)); [| discriminate].
  unfold ret. repeat (rewrite get_col_set_col; simpl).
  intros [= <-]. rewrite !get_col_set_col. simpl. eexists. split; reflexivity.
Qed.

(** Whether a column of the engineered frame is among the features. *)
Lemma feature_iff dfD c s :
  List.NoDup (columns dfD) -> get_col dfD c = ret s ->
  In c (map fst (List.filter Base.is_feature (df_columns dfD)))
  <-> Base.is_feature (c, s) = true.
Proof.
  intros Hn Hc. split.
  - intros Hin. destruct (listed_feature _ _ Hin) as (s' & Hin' & Hf).
    apply get_col_assoc in Hc.
    assert (s' = s) by (rewrite (nodup_assoc c s' _ Hn Hin') in Hc; congruence).
    subst s'. exact Hf.
  - intros Hf. apply in_list_In. apply (feature_listed _ s); [| exact Hf].
    apply get_col_assoc. exact Hc.
Qed.

(** X23. The features are numeric and never the target: on a frame without
    duplicate column names, every column of the features [prepare_data]
    returns has type [int64] or [float64], none is one of the excluded
    columns ([date], [rate], [hotel_id], [source], [room_type],
    [scraped_at]), and the names recorded in the model are exactly the
    columns returned. *)
Theorem features_are_numeric_and_never_the_target (self : Base.t L) df X y c :
  List.NoDup (columns df) ->
  snd (Base.prepare_data L df self) = ret (X, y) ->
  In c (columns X) ->
  Base.in_list c Base.exclude_cols = false
  /\ Base.feature_columns (fst (Base.prepare_data L df self)) = columns X
  /\ exists s, get_col X c = ret s /\ (s_dtype s = int64 \/ s_dtype s = float64).
Proof.
  intros Hn Hrun Hin.
  destruct (prepare_data_returns L self df X y Hrun) as (F & cols & HF & HX).
  destruct (prepare_frame_stages df F cols HF) as (dfA & dfB & dfC & dfD & HA & HB & HC & HD & -> & Hcols).
  assert (HnD := stages_nodup _ _ _ _ _ HA HB HC HD Hn).
  destruct (select_get _ _ _ HX) as (_ & Hnames & Hget).
  rewrite Hnames in Hin.
  assert (Hin' := Hin). rewrite Hcols in Hin'.
  destruct (listed_feature _ _ Hin') as (s & Hs & Hf).
  destruct (is_feature_dtype _ _ Hf) as [Hex Hty].
  split; [exact Hex |]. split.
  - rewrite Hnames. unfold Base.prepare_data, obind, lift, assign, oret.
    rewrite HF. simpl. rewrite HX. simpl.
    destruct (has_col _ "rate"); simpl; [destruct (get_col _ "rate") |]; reflexivity.
  - exists (fillna_ffill_0 s). split; [| exact Hty].
    rewrite (Hget c Hin), fill_features_get.
    unfold get_col at 1. rewrite (nodup_assoc c s _ HnD Hs), bind_ret.
    rewrite (In_in_list c cols Hin). reflexivity.
Qed.

(** X24. Which date features reach the model depends on the type pandas gives
    the [.dt] fields.  On a frame of dates without duplicate column names:
    the year, month, day, weekday, day of the year and quarter are features
    when that type is [int64] and are dropped when it is [int32]; the week
    of the year is never a feature; the weekend flag and the four seasonal
    columns always are. *)
Theorem date_features_that_reach_the_model (self : Base.t L) df d X y :
  List.NoDup (columns df) ->
  get_col df "date" = ret d -> Forall is_stamp (s_values d) ->
  snd (Base.prepare_data L df self) = ret (X, y) ->
  (forall c, In c ["year"; "month"; "day"; "weekday"; "day_of_year"; "quarter"] ->
             (dt_int L = int64 -> In c (columns X))
             /\ (dt_int L = int32 -> ~ In c (columns X)))
  /\ ~ In "week_of_year" (columns X)
  /\ forall c, In c ["is_weekend"; "sin_month"; "cos_month"; "sin_weekday"; "cos_weekday"] ->
               In c (columns X).
Proof.
  intros Hn Hd Hst Hrun.
  destruct (prepare_data_returns L self df X y Hrun) as (F & cols & HF & HX).
  destruct (prepare_frame_stages df F cols HF)
    as (dfA & dfB & dfC & dfD & HA & HB & HC & HD & -> & Hcols).
  assert (HnD := stages_nodup _ _ _ _ _ HA HB HC HD Hn).
  destruct (select_get _ _ _ HX) as (_ & Hnames & _).
  rewrite Hnames, Hcols.
  destruct (extract_date_features_dtypes df d dfA Hd Hst HA) as (Hint & Hwe & Hweek & Hfloat).
  assert (Hlater : forall c s,
             In c ("week_of_year" :: "is_weekend" :: date_features) ->
             get_col dfA c = ret s ->
             exists s', get_col dfD c = ret s' /\ s_dtype s' = s_dtype s).
  { intros c s Hc Hs.
    apply (later_stages_keep_dtype dfA dfB dfC dfD c s HB HC HD); [| | | exact Hs];
      simpl in Hc; repeat destruct Hc as [<- | Hc]; try reflexivity; destruct Hc. }
  split; [| split].
  - intros c Hc. destruct (Hint c Hc) as (s & Hs & Hty).
    destruct (Hlater c s) as (s' & Hs' & Hty'); [| exact Hs |].
    { simpl in *. tauto. }
    rewrite (feature_iff dfD c s' HnD Hs'). unfold Base.is_feature. cbn [fst snd].
    rewrite Hty', Hty.
    assert (Hex : Base.in_list c Base.exclude_cols = false)
      by (simpl in Hc; repeat destruct Hc as [<- | Hc]; try reflexivity; destruct Hc).
    rewrite Hex. split; intros ->; [reflexivity | discriminate].
  - destruct Hweek as (s & Hs & Hty).
    destruct (Hlater "week_of_year" s) as (s' & Hs' & Hty'); [left; reflexivity | exact Hs |].
    rewrite (feature_iff dfD _ s' HnD Hs'). unfold Base.is_feature. cbn [fst snd].
    rewrite Hty', Hty. discriminate.
  - intros c Hc.
    assert (Hty : exists s, get_col dfA c = ret s /\ (s_dtype s = int64 \/ s_dtype s = float64)).
    { destruct Hc as [<- | Hc].
      - destruct Hwe as (s & Hs & Hty). eauto.
      - destruct (Hfloat c Hc) as (s & Hs & Hty). eauto. }
    destruct Hty as (s & Hs & Hty).
    destruct (Hlater c s) as (s' & Hs' & Hty'); [| exact Hs |].
    { simpl in *. tauto. }
    rewrite (feature_iff dfD c s' HnD Hs'). unfold Base.is_feature. cbn [fst snd].
    rewrite Hty'.
    assert (Hex : Base.in_list c Base.exclude_cols = false)
      by (simpl in Hc; repeat destruct Hc as [<- | Hc]; try reflexivity; destruct Hc).
    rewrite Hex. destruct Hty as [-> | ->]; reflexivity.
Qed.

End Features.

(** ** The three lags *)

Lemma repeat_lookup {A} (x : A) k : forall i, (i < k)%nat -> repeat x k !! i = Some x.
Proof.
  induction k as [| k IH]; intros [| i] H; try lia; [reflexivity |].
  simpl. apply IH. lia.
Qed.

Lemma shift_lookup k s i :
  (i < length (s_values s))%nat ->
  s_values (shift k s) !! i = if (i <? k)%nat then Some NaN else s_values s !! (i - k)%nat.
Proof.
  intros Hi. unfold shift. cbn [s_values].
  rewrite lookup_take_lt by lia.
  destruct (i <? k)%nat eqn:E.
  - apply Nat.ltb_lt in E. rewrite lookup_app_l by (rewrite repeat_length; lia).
    apply repeat_lookup. exact E.
  - apply Nat.ltb_ge in E. rewrite lookup_app_r by (rewrite repeat_length; lia).
    rewrite repeat_length. reflexivity.
Qed.

(** Nothing to fill forward from: the rows before the first value are filled
    with zero. *)
Lemma ffill_from_nothing l : forall i,
  (forall j, (j <= i)%nat -> l !! j = Some NaN) -> ffill_from NaN l !! i = Some NaN.
Proof.
  induction l as [| c l IH]; intros i H.
  - specialize (H 0%nat ltac:(lia)). discriminate.
  - assert (Hc : c = NaN) by (specialize (H 0%nat ltac:(lia)); simpl in H; congruence).
    subst c. simpl. destruct i as [| i]; [reflexivity |].
    simpl. apply IH. intros j Hj. apply (H (S j)). lia.
Qed.

Lemma filled_nothing l i :
  (forall j, (j <= i)%nat -> l !! j = Some NaN) -> fill_zero (ffill l) !! i = Some (Num 0).
Proof.
  intros H. unfold fill_zero, ffill.
  change (map ?f ?l) with (f <$> l). rewrite list_lookup_fmap, (ffill_from_nothing l i H).
  reflexivity.
Qed.

Section Lags.
Context (L : Libs).

(** The columns [add_lag_features] writes. *)
Lemma add_lag_features_columns df dfB k r :
  FeatureEngineering.add_lag_features df "rate" [1; 7; 30]%nat = ret dfB ->
  get_col df "date" = ret k -> get_col df "rate" = ret r ->
  forall lag, In lag [1; 7; 30]%nat ->
    get_col dfB ("rate_lag_" +:+ pretty lag) = ret (shift lag (sorted_by k r)).
Proof.
  unfold FeatureEngineering.add_lag_features. intros H Hk Hr.
  destruct (sort_values df "date") as [e | df1] eqn:Hs; [discriminate |].
  rewrite bind_ret in H.
  destruct (sort_values_get _ _ _ Hs) as (k' & Hk' & Hlen & Hget).
  rewrite Hk in Hk'. injection Hk' as <-.
  assert (Hr1 : get_col df1 "rate" = ret (sorted_by k r))
    by (rewrite Hget, Hr; reflexivity).
  cbn [FeatureEngineering.add_lags] in H.
  destruct lag_names as (E1 & E7 & E30). rewrite E1, E7, E30 in H.
  rewrite Hr1, bind_ret in H.
  do 2 (rewrite ?get_col_set_col in H; simpl (String.eqb _ _) in H; cbv beta iota in H;
        rewrite Hr1, bind_ret in H).
  injection H as <-.
  assert (P1 : pretty 1%nat = "1") by (vm_compute; reflexivity).
  assert (P7 : pretty 7%nat = "7") by (vm_compute; reflexivity).
  assert (P30 : pretty 30%nat = "30") by (vm_compute; reflexivity).
  intros lag [<- | [<- | [<- | []]]]; rewrite ?P1, ?P7, ?P30; rewrite !get_col_set_col;
    simpl (String.eqb _ _); reflexivity.
Qed.

(** The lag features [prepare_data] returns on a frame with dates and float
    rates. *)
Lemma prepare_data_lags (self : Base.t L) df d r :
  get_col df "date" = ret d -> get_col df "rate" = ret r ->
  Forall is_stamp (s_values d) ->
  s_dtype r = float64 ->
  length (s_values r) = length (s_values d) ->
  exists X y,
    snd (Base.prepare_data L df self) = ret (X, y)
    /\ forall lag, In lag [1; 7; 30]%nat ->
         get_col X ("rate_lag_" +:+ pretty lag)
         = ret (fillna_ffill_0 (shift lag (sorted_by d r))).
Proof.
  intros Hd Hr Hstamps Hfloat Hlen.
  assert (Hnum : is_numeric (s_dtype r) = true) by (rewrite Hfloat; reflexivity).
  (* dates *)
  destruct (extract_date_features_ok L df d Hd Hstamps) as [dfA HA].
  destruct (extract_date_features_get L _ _ HA) as (_ & (d' & Hd' & HdA) & HgetA).
  rewrite Hd in Hd'. injection Hd' as <-.
  assert (HrA : get_col dfA "rate" = ret r) by (rewrite HgetA by reflexivity; exact Hr).
  (* lags *)
  destruct (add_lag_features_ok dfA _ r HdA HrA) as [dfB HB].
  pose proof (add_lag_features_columns dfA dfB _ r HB HdA HrA) as HlagB.
  change (sorted_by {| s_dtype := datetime64; s_values := s_values d |} r)
    with (sorted_by d r) in HlagB.
  destruct (add_lag_features_get _ _ HB) as (k & r' & Hk & Hr' & _ & _ & HgetB).
  rewrite HdA in Hk. injection Hk as <-. rewrite HrA in Hr'. injection Hr' as <-.
  assert (HdB : get_col dfB "date" = ret (sorted_by d {| s_dtype := datetime64; s_values := s_values d |}))
    by (rewrite HgetB by reflexivity; rewrite HdA; reflexivity).
  assert (HrB : get_col dfB "rate" = ret (sorted_by d r))
    by (rewrite HgetB by reflexivity; rewrite HrA; reflexivity).
  (* rolling statistics: the second sort moves nothing *)
  destruct (add_rolling_features_ok L [7; 14; 30]%nat dfB _ _ HdB HrB Hnum) as [dfC HC].
  destruct (add_rolling_features_get L _ _ _ HC) as (k & Hk & _ & HgetC).
  rewrite HdB in Hk. injection Hk as <-.
  set (dB := sorted_by d {| s_dtype := datetime64; s_values := s_values d |}) in *.
  assert (HsB : StronglySorted key_le (s_values dB)) by apply reorder_keys_sorted.
  assert (HlB : length (s_values dB) = length (s_values d)).
  { unfold dB. simpl. rewrite reorder_length. lia. }
  assert (HlR : length (s_values (sorted_by d r)) = length (s_values d)).
  { simpl. rewrite reorder_length. lia. }
  assert (HdC : get_col dfC "date" = ret dB).
  { rewrite HgetC by reflexivity. rewrite HdB, bind_ret. f_equal.
    apply sorted_by_id; [exact HsB | reflexivity]. }
  assert (HrC : get_col dfC "rate" = ret (sorted_by d r)).
  { rewrite HgetC by reflexivity. rewrite HrB, bind_ret. f_equal.
    apply sorted_by_id; [exact HsB | congruence]. }
  (* competitive features, selection and filling *)
  destruct (add_competitive_features_ok dfC _ _ HdC HrC) as [dfD HD].
  destruct (add_competitive_features_get _ _ HD) as (_ & HgetD).
  assert (HrD : get_col dfD "rate" = ret (sorted_by d r))
    by (rewrite HgetD by reflexivity; exact HrC).
  destruct (select_features_ok dfD) as [X HX].
  assert (HF : Base.prepare_frame L df
               = ret (Base.fill_features (map fst (List.filter Base.is_feature (df_columns dfD))) dfD,
                      map fst (List.filter Base.is_feature (df_columns dfD)))).
  { unfold Base.prepare_frame. rewrite HA, bind_ret, HB, bind_ret, HC, bind_ret, HD, bind_ret.
    reflexivity. }
  exists X, (Some (sorted_by d r)). split.
  - unfold Base.prepare_data, obind, lift, assign, oret. rewrite HF. simpl.
    rewrite HX. simpl.
    assert (Hrate : get_col (Base.fill_features
                               (map fst (List.filter Base.is_feature (df_columns dfD))) dfD) "rate"
                    = ret (sorted_by d r)).
    { rewrite fill_features_get, HrD, bind_ret, excluded_not_listed by reflexivity. reflexivity. }
    assert (Hhas : has_col (Base.fill_features
                              (map fst (List.filter Base.is_feature (df_columns dfD))) dfD) "rate"
                   = true).
    { unfold has_col. rewrite (get_col_assoc _ _ _ Hrate). reflexivity. }
    rewrite Hhas, Hrate. reflexivity.
  - intros lag Hlag.
    assert (P1 : pretty 1%nat = "1") by (vm_compute; reflexivity).
    assert (P7 : pretty 7%nat = "7") by (vm_compute; reflexivity).
    assert (P30 : pretty 30%nat = "30") by (vm_compute; reflexivity).
    assert (HlagD : get_col dfD ("rate_lag_" +:+ pretty lag) = ret (shift lag (sorted_by d r))).
    { pose proof (HlagB lag Hlag) as Hl.
      assert (Hname : String.prefix "rate_rolling_" ("rate_lag_" +:+ pretty lag) = false
                      /\ existsb (String.eqb ("rate_lag_" +:+ pretty lag)) competitive_features
                         = false).
      { destruct Hlag as [<- | [<- | [<- | []]]]; rewrite ?P1, ?P7, ?P30; split; reflexivity. }
      destruct Hname as [Hn1 Hn2].
      rewrite (HgetD _ Hn2), (HgetC _ Hn1), Hl, bind_ret. f_equal.
      apply sorted_by_id; [exact HsB | rewrite shift_length; congruence]. }
    apply (engineered_column_is_feature dfD X _ _ HX HlagD).
    + cbn [shift sorted_by s_dtype]. rewrite Hfloat. reflexivity.
    + destruct Hlag as [<- | [<- | [<- | []]]]; rewrite ?P1, ?P7, ?P30; reflexivity.
Qed.

(** X25. On a frame with one row per date, each of the features
    [rate_lag_1], [rate_lag_7] and [rate_lag_30] looks back its number of
    rows in the order of the dates: it is 0 in the
    first rows, which have no row that far back, and in a later row it is
    the rate of the row that far back whenever that rate is a number. *)
Theorem lag_features_look_back (self : Base.t L) df d r k :
  get_col df "date" = ret d -> get_col df "rate" = ret r ->
  Forall is_stamp (s_values d) -> List.NoDup (s_values d) ->
  s_dtype r = float64 ->
  length (s_values r) = length (s_values d) ->
  In k [1; 7; 30]%nat ->
  exists X y lag,
    snd (Base.prepare_data L df self) = ret (X, y)
    /\ get_col X ("rate_lag_" +:+ pretty k) = ret lag
    /\ length (s_values lag) = length (s_values r)
    /\ (forall i, (i < k)%nat -> (i < length (s_values r))%nat ->
                  s_values lag !! i = Some (Num 0))
    /\ (forall i q, (k <= i)%nat ->
                    reorder (s_values d) (s_values r) !! (i - k)%nat = Some (Num q) ->
                    (i < length (s_values r))%nat ->
                    s_values lag !! i = Some (Num q)).
Proof.
  intros Hd Hr Hs _ Hfloat Hlen Hk.
  destruct (prepare_data_lags self df d r Hd Hr Hs Hfloat Hlen) as (X & y & Hrun & Hcols).
  exists X, y. eexists. split; [exact Hrun |]. split; [exact (Hcols k Hk) |].
  assert (Hn : length (s_values (sorted_by d r)) = length (s_values r)).
  { simpl. rewrite reorder_length. lia. }
  cbn [fillna_ffill_0 s_values]. split; [| split].
  - unfold fill_zero, ffill. rewrite length_map.
    assert (Hff : forall l a, length (ffill_from a l) = length l).
    { induction l as [| c l IH]; intros a; [reflexivity |].
      destruct c; simpl; rewrite IH; reflexivity. }
    rewrite Hff, shift_length. exact Hn.
  - intros i Hik Hi. apply filled_nothing. intros j Hj.
    rewrite shift_lookup by lia.
    replace (j <? k)%nat with true by (symmetry; apply Nat.ltb_lt; lia). reflexivity.
  - intros i q Hki Hq Hi. apply filled_lookup; [| discriminate].
    rewrite shift_lookup by lia.
    replace (i <? k)%nat with false by (symmetry; apply Nat.ltb_ge; lia). exact Hq.
Qed.

End Lags.

(** ** The band of a forecast *)


Lemma in_combine_snd {A B} (l : list A) : forall (k : list B) p,
  In p (combine l k) -> In (snd p) k.
Proof.
  intros k [a b] H. exact (in_combine_r _ _ _ _ H).
Qed.

Section ForecastSources.
Context (L : Libs).



End ForecastSources.





(** ** Prediction on another schema *)

Lemma eqb_combine_eq (a : list string) : forall b,
  length a = length b ->
  forallb (fun p => String.eqb (fst p) (snd p)) (combine a b) = true -> a = b.
Proof.
  induction a as [| x a IH]; intros [| y b] Hlen H; try discriminate; [reflexivity |].
  simpl in H. apply andb_true_iff in H as [Hxy H]. apply String.eqb_eq in Hxy.
  injection Hlen as Hlen. rewrite Hxy, (IH b Hlen H). reflexivity.
Qed.

Lemma check_array_raises X e :
  Ref.check_array X = inl e -> exists msg, e = Raise "ValueError" msg.
Proof.
  unfold Ref.check_array.
  destruct (df_len X); [intros [= <-]; eexists; reflexivity |].
  destruct (df_columns X) as [| c cs]; [intros [= <-]; eexists; reflexivity |].
  destruct (mapM _ (c :: cs)); [discriminate | intros [= <-]; eexists; reflexivity].
Qed.

Lemma check_array_length X cols :
  Ref.check_array X = ret cols -> length cols = length (columns X).
Proof.
  unfold Ref.check_array, columns.
  destruct (df_len X); [discriminate |].
  destruct (df_columns X) as [| c cs]; [discriminate |].
  destruct (mapM _ (c :: cs)) as [v |] eqn:Hm; [| discriminate].
  intros [= <-]. rewrite length_map. symmetry. exact (length_mapM _ _ _ Hm).
Qed.

(** The stand-in scaler checks the feature names as scikit-learn does. *)
Lemma ref_feature_names_checked sc X sc' Xs X' :
  fit_transform Sample.libs sc X = ret (sc', Xs) ->
  columns X' <> columns X ->
  exists msg, transform Sample.libs sc' X' = raise "ValueError" msg.
Proof.
  change (fit_transform Sample.libs) with Ref.fit_transform.
  change (transform Sample.libs) with Ref.transform.
  unfold Ref.fit_transform.
  destruct (Ref.check_array X) as [e | cols] eqn:HX; [discriminate |].
  rewrite bind_ret. intros H Hne. injection H as <- _.
  unfold Ref.transform. cbn [Ref.names_in].
  destruct (Ref.check_array X') as [e | cols'] eqn:HX'.
  - destruct (check_array_raises _ _ HX') as [msg ->]. exists msg. reflexivity.
  - rewrite bind_ret. rewrite (check_array_length _ _ HX').
    destruct (Nat.eqb (length (columns X')) (length (columns X))) eqn:Hlen; simpl negb; cbv iota;
      [| eexists; reflexivity].
    destruct (forallb _ (combine (columns X') (columns X))) eqn:Hall; simpl negb; cbv iota;
      [| eexists; reflexivity].
    destruct Hne. apply eqb_combine_eq; [apply Nat.eqb_eq; exact Hlen | exact Hall].
Qed.

Section PredictSchema.
Context (L : Libs).

(** C3, as amended. The scaler of scikit-learn refuses a frame whose feature
    names are not those it was fitted on.  So on a model that [train] has
    trained, [predict] with an input whose derived feature names differ, as
    a set, from those recorded at training time always raises: when the
    features cannot be derived, the error of the feature engineering;
    otherwise the scaler's [ValueError], the scaler having been given all
    the derived features in their order, none dropped and none moved. *)
Theorem predict_rejects_other_schema (self0 self : Base.t L) df0 metrics df :
  (forall sc X sc' Xs X',
      fit_transform L sc X = ret (sc', Xs) -> columns X' <> columns X ->
      exists msg, transform L sc' X' = raise "ValueError" msg) ->
  RFM.train L df0 self0 = (self, ret metrics) ->
  (forall p, Base.prepare_frame L df = ret p ->
             ~ (forall c, In c (snd p) <-> In c (Base.feature_columns self))) ->
  match Base.prepare_frame L df with
  | inl e => snd (RFM.predict L df self) = inl e
  | inr p =>
      exists X msg,
        select (fst p) (snd p) = ret X
        /\ columns X = snd p
        /\ transform L (Base.scaler self) X = raise "ValueError" msg
        /\ snd (RFM.predict L df self) = raise "ValueError" msg
  end.
Proof.
  intros Hsk Htrain Hdiff.
  destruct (train_returns L self0 self df0 metrics Htrain)
    as (F0 & cols0 & X0 & y0 & Xtr & Xte & yp & HF0 & HX0 & _ & Hfit & _ & _ & _ & _ & Hcols & Htr).
  destruct (select_get _ _ _ HX0) as (_ & Hnames0 & _).
  rewrite (predict_run L self df), Htr.
  destruct (Base.prepare_frame L df) as [e | [F cols]] eqn:HF; [reflexivity |].
  destruct (prepare_frame_form L df F cols HF) as (dfD & -> & ->).
  destruct (select_features_ok dfD) as [X HX].
  destruct (select_get _ _ _ HX) as (_ & Hnames & _).
  assert (Hne : columns X <> columns (rows_to (RFM.train_size (df_len X0)) X0)).
  { intros E. apply (Hdiff _ eq_refl). cbn [snd]. intros c.
    rewrite Hcols, <- Hnames0, <- Hnames, E. unfold columns, rows_to. cbn [df_columns].
    rewrite map_map. reflexivity. }
  destruct (Hsk _ _ _ _ X Hfit Hne) as [msg Hmsg].
  exists X, msg. cbn [fst snd]. split; [exact HX |]. split; [exact Hnames |].
  split; [exact Hmsg |].
  rewrite bind_ret. cbn [fst snd]. rewrite HX, bind_ret, Hmsg. reflexivity.
Qed.

End PredictSchema.

Lemma predict_rejects_other_schema_witness :
  RFM.train Sample.libs Sample.frame (RFM.init Sample.libs)
  = (Sample.trained,
     ret {| mae := 15; mse := 225; rmse := 15000000 # 1000000; mape := Num (1500 # 120) |})
  /\ (forall p, Base.prepare_frame Sample.libs Sample.wider_frame = ret p ->
                ~ (forall c, In c (snd p) <-> In c (Base.feature_columns Sample.trained)))
  /\ match Base.prepare_frame Sample.libs Sample.wider_frame with
     | inl e => snd (RFM.predict Sample.libs Sample.wider_frame Sample.trained) = inl e
     | inr p =>
         exists X msg,
           select (fst p) (snd p) = ret X
           /\ columns X = snd p
           /\ transform Sample.libs (Base.scaler Sample.trained) X = raise "ValueError" msg
           /\ snd (RFM.predict Sample.libs Sample.wider_frame Sample.trained)
              = raise "ValueError" msg
     end.
Proof.
  assert (Hsnd : snd (RFM.train Sample.libs Sample.frame (RFM.init Sample.libs))
                 = ret {| mae := 15; mse := 225; rmse := 15000000 # 1000000;
                          mape := Num (1500 # 120) |})
    by (vm_compute; reflexivity).
  assert (Ht : RFM.train Sample.libs Sample.frame (RFM.init Sample.libs)
               = (Sample.trained,
                  ret {| mae := 15; mse := 225; rmse := 15000000 # 1000000;
                         mape := Num (1500 # 120) |})).
  { rewrite <- Hsnd. unfold Sample.trained. apply surjective_pairing. }
  assert (Hnew : In "occupancy"
                    (match Base.prepare_frame Sample.libs Sample.wider_frame with
                     | inr p => snd p
                     | inl _ => []
                     end))
    by (vm_compute; tauto).
  assert (Hold : ~ In "occupancy" (Base.feature_columns Sample.trained)).
  { vm_compute. intros H. repeat (destruct H as [H | H]; [discriminate H |]). exact H. }
  assert (Hd : forall p, Base.prepare_frame Sample.libs Sample.wider_frame = ret p ->
                         ~ (forall c, In c (snd p)
                                      <-> In c (Base.feature_columns Sample.trained))).
  { intros p Hp Hall. rewrite Hp in Hnew. exact (Hold (proj1 (Hall _) Hnew)). }
  split; [exact Ht |]. split; [exact Hd |].
  exact (predict_rejects_other_schema Sample.libs (RFM.init Sample.libs) Sample.trained
           Sample.frame _ Sample.wider_frame ref_feature_names_checked Ht Hd).
Defined.

(** ** The properties on the sample inputs *)

Lemma sample_dates_in_range : dates_in_range Sample.clock 30.
Proof.
  unfold dates_in_range, datetime_min, datetime_max, days, Sample.clock, Sample.t0. lia.
Qed.

Lemma sample_dates_distinct : List.NoDup (s_values Sample.dates).
Proof.
  vm_compute.
  repeat (constructor;
          [simpl; intros H; repeat (destruct H as [H | H]; [discriminate H |]); exact H |]).
  constructor.
Qed.

Lemma prepared_features_are_defined_witness :
  snd (Base.prepare_data Sample.libs Sample.frame (RFM.init Sample.libs))
  = ret (Sample.features, Sample.target)
  /\ get_col Sample.features "rate_lag_1" = ret Sample.lag_column
  /\ Forall defined (s_values Sample.lag_column).
Proof.
  assert (H1 : snd (Base.prepare_data Sample.libs Sample.frame (RFM.init Sample.libs))
               = ret (Sample.features, Sample.target)) by (vm_compute; reflexivity).
  assert (H2 : get_col Sample.features "rate_lag_1" = ret Sample.lag_column)
    by (vm_compute; reflexivity).
  split; [exact H1 |]. split; [exact H2 |].
  exact (prepared_features_are_defined Sample.libs (RFM.init Sample.libs) Sample.frame
           Sample.features Sample.target "rate_lag_1" Sample.lag_column H1 H2).
Defined.

Lemma missing_date_column_witness :
  has_col empty_frame "date" = false
  /\ RFM.train Sample.libs empty_frame (RFM.init Sample.libs)
     = (RFM.init Sample.libs, raise "KeyError" "date")
  /\ (Base.is_trained Sample.trained = true ->
      RFM.predict Sample.libs empty_frame Sample.trained
      = (Sample.trained, raise "KeyError" "date")).
Proof.
  split; [reflexivity |]. split.
  - apply (missing_date_column Sample.libs (RFM.init Sample.libs) empty_frame). reflexivity.
  - apply (missing_date_column Sample.libs Sample.trained empty_frame). reflexivity.
Defined.

Lemma missing_rate_column_witness :
  get_col Sample.dates_only "date" = ret Sample.dates
  /\ Forall is_stamp (s_values Sample.dates)
  /\ has_col Sample.dates_only "rate" = false
  /\ RFM.train Sample.libs Sample.dates_only (RFM.init Sample.libs)
     = (RFM.init Sample.libs, raise "KeyError" "rate").
Proof.
  assert (Hs : Forall is_stamp (s_values Sample.dates))
    by (repeat constructor; eexists; reflexivity).
  split; [reflexivity |]. split; [exact Hs |]. split; [reflexivity |].
  apply (missing_rate_column Sample.libs (RFM.init Sample.libs) Sample.dates_only Sample.dates);
    first [reflexivity | exact Hs].
Defined.

Lemma train_size_edges_witness :
  (1 <= 5 -> RFM.train_size 5 < 5)%nat /\ (RFM.train_size 1 = 0)%nat.
Proof.
  split.
  - apply (train_size_edges 5).
  - apply (train_size_edges 1). lia.
Defined.

Lemma prepare_data_target_witness :
  get_col Sample.unsorted_frame "date" = ret Sample.dates
  /\ get_col Sample.unsorted_frame "rate" = ret Sample.rates
  /\ Forall is_stamp (s_values Sample.dates)
  /\ s_dtype Sample.rates = float64
  /\ length (s_values Sample.rates) = length (s_values Sample.dates)
  /\ exists X,
      snd (Base.prepare_data Sample.libs Sample.unsorted_frame (RFM.init Sample.libs))
      = ret (X, Some {| s_dtype := float64;
                        s_values := reorder (s_values Sample.dates) (s_values Sample.rates) |})
      /\ df_len X = df_len Sample.unsorted_frame.
Proof.
  assert (Hs : Forall is_stamp (s_values Sample.dates))
    by (repeat constructor; eexists; reflexivity).
  repeat (split; [first [reflexivity | exact Hs] |]).
  apply (prepare_data_target Sample.libs (RFM.init Sample.libs) Sample.unsorted_frame
           Sample.dates Sample.rates);
    first [reflexivity | exact Hs].
Defined.

Lemma lag_1_fills_forward_witness :
  get_col Sample.gapped_frame "date" = ret Sample.dates
  /\ get_col Sample.gapped_frame "rate" = ret Sample.gapped_rates
  /\ Forall is_stamp (s_values Sample.dates)
  /\ List.NoDup (s_values Sample.dates)
  /\ s_dtype Sample.gapped_rates = float64
  /\ length (s_values Sample.gapped_rates) = length (s_values Sample.dates)
  /\ exists X y lag,
      snd (Base.prepare_data Sample.libs Sample.gapped_frame (RFM.init Sample.libs))
      = ret (X, y)
      /\ get_col X "rate_lag_1" = ret lag
      /\ (s_values Sample.gapped_rates <> [] -> s_values lag !! 0%nat = Some (Num 0))
      /\ forall i, reorder (s_values Sample.dates) (s_values Sample.gapped_rates) !! i
                   = Some NaN ->
                   S i < length (s_values Sample.gapped_rates) ->
                   s_values lag !! S i = s_values lag !! i.
Proof.
  assert (Hs : Forall is_stamp (s_values Sample.dates))
    by (repeat constructor; eexists; reflexivity).
  repeat (split; [first [reflexivity | exact Hs | exact sample_dates_distinct] |]).
  apply (lag_1_fills_forward Sample.libs (RFM.init Sample.libs) Sample.gapped_frame
           Sample.dates Sample.gapped_rates);
    first [reflexivity | exact Hs | exact sample_dates_distinct].
Defined.

Lemma forecast_rates_leaves_artifacts_witness :
  dates_in_range Sample.clock 30
  /\ returns (snd (FS.forecast_rates Sample.libs Sample.three_days Sample.clock Sample.clock
                                      1 30 Sample.stocked))
  /\ FS.disk (fst (FS.forecast_rates Sample.libs Sample.three_days Sample.clock Sample.clock
                                      1 30 Sample.stocked))
     = FS.disk Sample.stocked.
Proof.
  split; [exact sample_dates_in_range |].
  destruct (forecast_rates_leaves_artifacts Sample.libs Sample.three_days Sample.clock
              Sample.clock 1 30 Sample.stocked sample_dates_in_range) as (Hr & Hd & _).
  split; [exact Hr | exact Hd].
Defined.

Lemma forecast_rates_without_models_witness :
  dates_in_range Sample.clock 30
  /\ FS.disk Sample.service !! FS.model_path Sample.libs Sample.service 1 = None
  /\ PROPHET_AVAILABLE Sample.libs && PFM.is_trained (FS.prophet Sample.service) = false
  /\ FS.forecast_rates Sample.libs Sample.three_days Sample.clock Sample.clock 1 30
                       Sample.service
     = (Sample.service, ret []).
Proof.
  split; [exact sample_dates_in_range |]. split; [reflexivity |]. split; [reflexivity |].
  apply (forecast_rates_without_models Sample.libs Sample.three_days Sample.clock Sample.clock
           1 30 Sample.service); first [exact sample_dates_in_range | reflexivity].
Defined.

Lemma train_models_without_observations_witness :
  observations Sample.three_days Sample.clock 2 365 = []
  /\ FS.train_models Sample.libs Sample.three_days Sample.clock 2 Sample.service
     = (Sample.service, ret ∅).
Proof.
  split; [reflexivity |].
  apply (train_models_without_observations Sample.libs Sample.three_days Sample.clock 2
           Sample.service).
  reflexivity.
Defined.

Lemma without_prophet_witness :
  PROPHET_AVAILABLE Sample.plain_libs = false
  /\ FS.prophet (fst (FS.train_models Sample.plain_libs Sample.three_days Sample.clock 1
                                      Sample.plain_service))
     = FS.prophet Sample.plain_service
  /\ exists rf,
      snd (FS.forecast_rates Sample.plain_libs Sample.three_days Sample.clock Sample.clock 1 30
                             Sample.plain_service) = ret rf
      /\ Forall (fun p => model_name p = "Random Forest") rf.
Proof.
  split; [reflexivity |].
  apply (without_prophet Sample.plain_libs Sample.three_days Sample.clock Sample.clock 1 30
           Sample.plain_service).
  reflexivity.
Defined.

Lemma train_all_models_writes_own_hotels_only_witness :
  (forall h, In h (hotels Sample.three_days) -> Hotel.is_own h = true ->
             "models/rf_hotel_2.joblib" <> "models/rf_hotel_" +:+ pretty (Hotel.id h) +:+ ".joblib")
  /\ FS.disk (FS.train_all_models Sample.libs Sample.three_days Sample.clock ∅)
     !! "models/rf_hotel_2.joblib" = None.
Proof.
  assert (H : forall h, In h (hotels Sample.three_days) -> Hotel.is_own h = true ->
                        "models/rf_hotel_2.joblib"
                        <> "models/rf_hotel_" +:+ pretty (Hotel.id h) +:+ ".joblib").
  { intros h [<- | [<- | []]] Hown E.
    - apply String.eqb_eq in E. vm_compute in E. discriminate E.
    - discriminate Hown. }
  split; [exact H |].
  rewrite (train_all_models_writes_own_hotels_only Sample.libs Sample.three_days Sample.clock
             ∅ "models/rf_hotel_2.joblib" H).
  reflexivity.
Defined.

Lemma get_hotel_data_one_row_per_date_witness :
  df_empty (FS.get_hotel_data Sample.three_days Sample.clock 1 365) = false
  /\ exists ds,
      get_col (FS.get_hotel_data Sample.three_days Sample.clock 1 365) "date"
      = ret {| s_dtype := datetime64; s_values := map Stamp ds |}
      /\ StronglySorted Z.lt ds
      /\ df_len (FS.get_hotel_data Sample.three_days Sample.clock 1 365) = length ds
      /\ Forall (fun c => length (s_values (snd c)) = length ds)
                (df_columns (FS.get_hotel_data Sample.three_days Sample.clock 1 365))
      /\ forall d, In d ds ->
                   exists r, In r (observations Sample.three_days Sample.clock 1 365)
                             /\ RateData.date r = d.
Proof.
  split; [reflexivity |].
  apply (get_hotel_data_one_row_per_date Sample.three_days Sample.clock 1 365).
  reflexivity.
Defined.

Lemma recommendations_are_consistent_witness :
  Forall (fun c => (0 <= c)%Q) [120; 130]%Q
  /\ FS._generate_recommendations 100 [120; 130]%Q
     = ["Opportunity to increase rates while remaining competitive";
        "You're pricing below all competitors - potential revenue opportunity"]
  /\ ~ (In "Consider reducing rates to be more competitive"
           (FS._generate_recommendations 100 [120; 130]%Q)
        /\ In "You're pricing below all competitors - potential revenue opportunity"
              (FS._generate_recommendations 100 [120; 130]%Q)).
Proof.
  assert (H : Forall (fun c => (0 <= c)%Q) [120; 130]%Q)
    by (repeat constructor; discriminate).
  split; [exact H |]. split; [reflexivity |].
  apply (recommendations_are_consistent 100 120 [130]%Q H).
Defined.

Lemma rolling_min_is_below_max_witness :
  get_col Sample.gapped_frame "date" = ret Sample.dates
  /\ get_col Sample.gapped_frame "rate" = ret Sample.gapped_rates
  /\ Forall is_stamp (s_values Sample.dates)
  /\ s_dtype Sample.gapped_rates = float64
  /\ length (s_values Sample.gapped_rates) = length (s_values Sample.dates)
  /\ In 7%nat [7; 14; 30]%nat
  /\ exists X y lo hi,
      snd (Base.prepare_data Sample.libs Sample.gapped_frame (RFM.init Sample.libs))
      = ret (X, y)
      /\ get_col X ("rate_rolling_min_" +:+ pretty 7%nat) = ret lo
      /\ get_col X ("rate_rolling_max_" +:+ pretty 7%nat) = ret hi
      /\ length (s_values lo) = length (s_values Sample.gapped_rates)
      /\ Forall2 ordered_cells (s_values lo) (s_values hi).
Proof.
  assert (Hs : Forall is_stamp (s_values Sample.dates))
    by (repeat constructor; eexists; reflexivity).
  assert (Hw : In 7%nat [7; 14; 30]%nat) by (left; reflexivity).
  repeat (split; [first [reflexivity | exact Hs | exact Hw] |]).
  apply (rolling_min_is_below_max Sample.libs (RFM.init Sample.libs) Sample.gapped_frame
           Sample.dates Sample.gapped_rates 7);
    first [reflexivity | exact Hs | exact Hw].
Defined.

Lemma rolling_features_first_row_witness :
  get_col Sample.unsorted_frame "date" = ret Sample.dates
  /\ get_col Sample.unsorted_frame "rate" = ret Sample.rates
  /\ Forall is_stamp (s_values Sample.dates)
  /\ s_dtype Sample.rates = float64
  /\ length (s_values Sample.rates) = length (s_values Sample.dates)
  /\ In 30%nat [7; 14; 30]%nat
  /\ reorder (s_values Sample.dates) (s_values Sample.rates) !! 0%nat = Some (Num 100)
  /\ exists X y lo m hi sd mean,
      snd (Base.prepare_data Sample.libs Sample.unsorted_frame (RFM.init Sample.libs))
      = ret (X, y)
      /\ get_col X ("rate_rolling_min_" +:+ pretty 30%nat) = ret lo
      /\ get_col X ("rate_rolling_mean_" +:+ pretty 30%nat) = ret m
      /\ get_col X ("rate_rolling_max_" +:+ pretty 30%nat) = ret hi
      /\ get_col X ("rate_rolling_std_" +:+ pretty 30%nat) = ret sd
      /\ s_values lo !! 0%nat = Some (Num 100)
      /\ s_values m !! 0%nat = Some (Num mean) /\ (mean == 100)%Q
      /\ s_values hi !! 0%nat = Some (Num 100)
      /\ s_values sd !! 0%nat = Some (Num 0).
Proof.
  assert (Hs : Forall is_stamp (s_values Sample.dates))
    by (repeat constructor; eexists; reflexivity).
  assert (Hw : In 30%nat [7; 14; 30]%nat) by (right; right; left; reflexivity).
  repeat (split; [first [reflexivity | exact Hs | exact Hw] |]).
  apply (rolling_features_first_row Sample.libs (RFM.init Sample.libs) Sample.unsorted_frame
           Sample.dates Sample.rates 30 100);
    first [reflexivity | exact Hs | exact Hw].
Defined.

Lemma mape_is_infinite_at_zero_rate_witness :
  RFM._calculate_metrics Sample.libs Sample.free_night [50; 90]%Q
  = ret Sample.free_night_metrics
  /\ s_values Sample.free_night !! 0%nat = Some (Num 0)
  /\ [50; 90]%Q !! 0%nat = Some 50%Q
  /\ ~ (50 == 0)%Q
  /\ mape Sample.free_night_metrics = Inf true.
Proof.
  assert (H : RFM._calculate_metrics Sample.libs Sample.free_night [50; 90]%Q
              = ret Sample.free_night_metrics) by (vm_compute; reflexivity).
  assert (Hne : ~ (50 == 0)%Q) by discriminate.
  split; [exact H |]. split; [reflexivity |]. split; [reflexivity |]. split; [exact Hne |].
  apply (mape_is_infinite_at_zero_rate Sample.libs Sample.free_night [50; 90]%Q
           Sample.free_night_metrics 0 50%Q H); [reflexivity | reflexivity | exact Hne].
Defined.

Lemma forecast_rates_uses_the_saved_model_witness :
  dates_in_range Sample.clock 30
  /\ FS.disk Sample.stocked !! FS.model_path Sample.libs Sample.stocked 1 = Some Sample.artifact
  /\ Base.model (FS.random_forest
                   (fst (FS.forecast_rates Sample.libs Sample.three_days Sample.clock
                                           Sample.clock 1 30 Sample.stocked)))
     = Base.data_model Sample.artifact
  /\ Base.scaler (FS.random_forest
                    (fst (FS.forecast_rates Sample.libs Sample.three_days Sample.clock
                                            Sample.clock 1 30 Sample.stocked)))
     = Base.data_scaler Sample.artifact
  /\ Base.name (FS.random_forest
                  (fst (FS.forecast_rates Sample.libs Sample.three_days Sample.clock
                                          Sample.clock 1 30 Sample.stocked)))
     = Base.data_model_name Sample.artifact
  /\ Base.is_trained (FS.random_forest
                        (fst (FS.forecast_rates Sample.libs Sample.three_days Sample.clock
                                                Sample.clock 1 30 Sample.stocked)))
     = true.
Proof.
  assert (H : FS.disk Sample.stocked !! FS.model_path Sample.libs Sample.stocked 1
              = Some Sample.artifact).
  { change (FS.disk Sample.stocked)
      with (Base.save_model Sample.libs "models/rf_hotel_1.joblib" Sample.trained ∅).
    replace (FS.model_path Sample.libs Sample.stocked 1) with "models/rf_hotel_1.joblib"
      by (vm_compute; reflexivity).
    unfold Base.save_model. rewrite lookup_insert. reflexivity. }
  split; [exact sample_dates_in_range |]. split; [exact H |].
  exact (forecast_rates_uses_the_saved_model Sample.libs Sample.three_days Sample.clock
           Sample.clock 1 30 Sample.stocked Sample.artifact sample_dates_in_range H).
Defined.

Lemma prophet_is_fitted_on_clean_history_witness :
  PROPHET_AVAILABLE Sample.libs = true
  /\ get_col Sample.gapped_frame "date" = ret Sample.dates
  /\ get_col Sample.gapped_frame "rate" = ret Sample.gapped_rates
  /\ Forall is_stamp (s_values Sample.dates)
  /\ length (s_values Sample.dates) = df_len Sample.gapped_frame
  /\ length (s_values Sample.gapped_rates) = df_len Sample.gapped_frame
  /\ exists ts ys,
      PFM.train Sample.libs Sample.gapped_frame (PFM.init Sample.libs)
      = match prophet_fit Sample.libs (Prophet Sample.libs)
                {| df_len := length ts;
                   df_columns :=
                     [("ds", {| s_dtype := s_dtype Sample.dates; s_values := map Stamp ts |});
                      ("y", {| s_dtype := s_dtype Sample.gapped_rates; s_values := ys |})] |} with
        | inl e => (PFM.set_model Sample.libs (Some (Prophet Sample.libs))
                                  (PFM.init Sample.libs), inl e)
        | inr m => (PFM.set_is_trained Sample.libs true
                      (PFM.set_model Sample.libs (Some m) (PFM.init Sample.libs)), ret None)
        end
      /\ length ys = length ts
      /\ StronglySorted Z.lt ts
      /\ Forall defined ys
      /\ forall t y, In (t, y) (combine ts ys) ->
                     In (Stamp t, y) (combine (s_values Sample.dates)
                                              (s_values Sample.gapped_rates)).
Proof.
  assert (Hs : Forall is_stamp (s_values Sample.dates))
    by (repeat constructor; eexists; reflexivity).
  repeat (split; [first [reflexivity | exact Hs] |]).
  apply (prophet_is_fitted_on_clean_history Sample.libs (PFM.init Sample.libs)
           Sample.gapped_frame Sample.dates Sample.gapped_rates);
    first [reflexivity | exact Hs].
Defined.

Lemma history_has_no_competitors_witness :
  df_empty (FS.get_hotel_data Sample.three_days Sample.clock 1 365) = false
  /\ exists X y rank pct avg vs vspct,
      snd (Base.prepare_data Sample.libs (FS.get_hotel_data Sample.three_days Sample.clock 1 365)
                             (RFM.init Sample.libs))
      = ret (X, Some y)
      /\ get_col (FS.get_hotel_data Sample.three_days Sample.clock 1 365) "rate" = ret y
      /\ get_col X "rate_rank" = ret rank
      /\ get_col X "rate_percentile" = ret pct
      /\ get_col X "competitor_avg_rate" = ret avg
      /\ get_col X "rate_vs_avg" = ret vs
      /\ get_col X "rate_vs_avg_pct" = ret vspct
      /\ length (s_values rank) = df_len (FS.get_hotel_data Sample.three_days Sample.clock 1 365)
      /\ Forall (fun c => exists v, c = Num v /\ (v == 1)%Q) (s_values rank)
      /\ Forall (fun c => exists v, c = Num v /\ (v == 1)%Q) (s_values pct)
      /\ Forall2 (fun a c => exists v w, a = Num v /\ c = Num w /\ (v == w)%Q)
                 (s_values avg) (s_values y)
      /\ Forall (fun c => exists v, c = Num v /\ (v == 0)%Q) (s_values vs)
      /\ Forall (fun c => exists v, c = Num v /\ (v == 0)%Q) (s_values vspct).
Proof.
  split; [reflexivity |].
  apply (history_has_no_competitors Sample.libs (RFM.init Sample.libs) Sample.three_days
           Sample.clock 1 365).
  reflexivity.
Defined.

Lemma features_are_numeric_and_never_the_target_witness :
  List.NoDup (columns Sample.frame)
  /\ snd (Base.prepare_data Sample.libs Sample.frame (RFM.init Sample.libs))
     = ret (Sample.features, Sample.target)
  /\ In "rate_lag_1" (columns Sample.features)
  /\ Base.in_list "rate_lag_1" Base.exclude_cols = false
  /\ Base.feature_columns (fst (Base.prepare_data Sample.libs Sample.frame (RFM.init Sample.libs)))
     = columns Sample.features
  /\ exists s, get_col Sample.features "rate_lag_1" = ret s
               /\ (s_dtype s = int64 \/ s_dtype s = float64).
Proof.
  assert (Hn : List.NoDup (columns Sample.frame)).
  { vm_compute.
    repeat (constructor;
            [simpl; intros H; repeat (destruct H as [H | H]; [discriminate H |]); exact H |]).
    constructor. }
  assert (H1 : snd (Base.prepare_data Sample.libs Sample.frame (RFM.init Sample.libs))
               = ret (Sample.features, Sample.target)) by (vm_compute; reflexivity).
  assert (H2 : In "rate_lag_1" (columns Sample.features)).
  { vm_compute. tauto. }
  split; [exact Hn |]. split; [exact H1 |]. split; [exact H2 |].
  exact (features_are_numeric_and_never_the_target Sample.libs (RFM.init Sample.libs)
           Sample.frame Sample.features Sample.target "rate_lag_1" Hn H1 H2).
Defined.

Lemma date_features_that_reach_the_model_witness :
  List.NoDup (columns Sample.frame)
  /\ get_col Sample.frame "date" = ret Sample.history_dates
  /\ Forall is_stamp (s_values Sample.history_dates)
  /\ snd (Base.prepare_data Sample.libs Sample.frame (RFM.init Sample.libs))
     = ret (Sample.features, Sample.target)
  /\ ~ In "week_of_year" (columns Sample.features)
  /\ In "is_weekend" (columns Sample.features).
Proof.
  assert (Hn : List.NoDup (columns Sample.frame)).
  { vm_compute.
    repeat (constructor;
            [simpl; intros H; repeat (destruct H as [H | H]; [discriminate H |]); exact H |]).
    constructor. }
  assert (Hd : get_col Sample.frame "date" = ret Sample.history_dates)
    by (vm_compute; reflexivity).
  assert (Hs : Forall is_stamp (s_values Sample.history_dates)).
  { vm_compute. repeat constructor; eexists; reflexivity. }
  assert (H1 : snd (Base.prepare_data Sample.libs Sample.frame (RFM.init Sample.libs))
               = ret (Sample.features, Sample.target)) by (vm_compute; reflexivity).
  split; [exact Hn |]. split; [exact Hd |]. split; [exact Hs |]. split; [exact H1 |].
  destruct (date_features_that_reach_the_model Sample.libs (RFM.init Sample.libs) Sample.frame
              Sample.history_dates Sample.features Sample.target Hn Hd Hs H1)
    as (_ & Hweek & Hall).
  split; [exact Hweek |]. apply Hall. left. reflexivity.
Defined.

Lemma lag_features_look_back_witness :
  get_col Sample.unsorted_frame "date" = ret Sample.dates
  /\ get_col Sample.unsorted_frame "rate" = ret Sample.rates
  /\ Forall is_stamp (s_values Sample.dates)
  /\ List.NoDup (s_values Sample.dates)
  /\ s_dtype Sample.rates = float64
  /\ length (s_values Sample.rates) = length (s_values Sample.dates)
  /\ In 1%nat [1; 7; 30]%nat
  /\ exists X y lag,
      snd (Base.prepare_data Sample.libs Sample.unsorted_frame (RFM.init Sample.libs))
      = ret (X, y)
      /\ get_col X ("rate_lag_" +:+ pretty 1%nat) = ret lag
      /\ length (s_values lag) = length (s_values Sample.rates)
      /\ (forall i, (i < 1)%nat -> (i < length (s_values Sample.rates))%nat ->
                    s_values lag !! i = Some (Num 0))
      /\ (forall i q, (1 <= i)%nat ->
                      reorder (s_values Sample.dates) (s_values Sample.rates) !! (i - 1)%nat
                      = Some (Num q) ->
                      (i < length (s_values Sample.rates))%nat ->
                      s_values lag !! i = Some (Num q)).
Proof.
  assert (Hs : Forall is_stamp (s_values Sample.dates))
    by (repeat constructor; eexists; reflexivity).
  assert (Hk : In 1%nat [1; 7; 30]%nat) by (left; reflexivity).
  repeat (split; [first [reflexivity | exact Hs | exact Hk | exact sample_dates_distinct] |]).
  apply (lag_features_look_back Sample.libs (RFM.init Sample.libs) Sample.unsorted_frame
           Sample.dates Sample.rates 1);
    first [reflexivity | exact Hs | exact Hk | exact sample_dates_distinct].
Defined.
